(** * Tai-e Assignment Helper ([scripts/helper.py]): a shallow embedding

    The script is a command-line tool: every command reads and writes the
    file system, the terminal and child processes.  The embedding threads an
    explicit [State] (file tree, standard input, standard output, a ghost
    log of the commands entered) through a small exception monad whose
    exceptions are Python's ([SystemExit], [KeyboardInterrupt], and the
    subclasses of [Exception] the script can meet).

    Conventions of the model:
    - [str] values are byte strings holding UTF-8 text;
    - a [pathlib.Path] is its tuple of parts (POSIX flavour), the root ["/"]
      being the first part of an absolute path; components [".."] and
      symbolic links are not resolved;
    - a file holds either raw bytes, a ZIP archive (its list of entries), or
      one of the two JSON documents the script reads (the configuration
      object and the assignment metadata);
    - child processes ([git], the Gradle wrapper) and the clock are
      capabilities of the environment [Env]. *)

From Stdlib Require Import ZArith Ascii String List Lia.
From stdpp Require Import base option list sorting strings gmap pretty.

(** ** Python strings *)

Module Py.

Definition LF_char : ascii := ascii_of_nat 10.
Definition LF : string := String LF_char "".
Definition ESC : string := String (ascii_of_nat 27) "".

(** [str.isspace] on one-byte code points: TAB..CR, FS..US and the space. *)
Definition isspace1 (a : ascii) : bool :=
  let n := nat_of_ascii a in
  ((9 <=? n) && (n <=? 13)) || ((28 <=? n) && (n <=? 32)).

(** Two-byte white space: U+0085 and U+00A0. *)
Definition isspace2 (a b : ascii) : bool :=
  (nat_of_ascii a =? 194) && ((nat_of_ascii b =? 133) || (nat_of_ascii b =? 160)).

(** Three-byte white space: U+1680, U+2000..U+200A, U+2028, U+2029, U+202F,
    U+205F and U+3000. *)
Definition isspace3 (a b c : ascii) : bool :=
  let x := nat_of_ascii a in
  let y := nat_of_ascii b in
  let z := nat_of_ascii c in
  ((x =? 225) && (y =? 154) && (z =? 128))
  || ((x =? 226) && (y =? 128)
      && (((128 <=? z) && (z <=? 138)) || (z =? 168) || (z =? 169) || (z =? 175)))
  || ((x =? 226) && (y =? 129) && (z =? 159))
  || ((x =? 227) && (y =? 128) && (z =? 128)).

(** Drop the white-space code points at the head of [s]; [w2] and [w3]
    recognise the multi-byte ones (in reading order). *)
Fixpoint strip_head (w2 : ascii → ascii → bool) (w3 : ascii → ascii → ascii → bool)
    (s : string) : string :=
  match s with
  | String a s1 =>
      if isspace1 a then strip_head w2 w3 s1 else
      match s1 with
      | String b s2 =>
          if w2 a b then strip_head w2 w3 s2 else
          match s2 with
          | String c s3 => if w3 a b c then strip_head w2 w3 s3 else s
          | EmptyString => s
          end
      | EmptyString => s
      end
  | EmptyString => s
  end.

Definition lstrip (s : string) : string := strip_head isspace2 isspace3 s.

Definition rstrip (s : string) : string :=
  String.rev (strip_head (λ b a, isspace2 a b) (λ c b a, isspace3 a b c) (String.rev s)).

(** [s.strip()] *)
Definition strip (s : string) : string := rstrip (lstrip s).

(** [s.lstrip(chars)] *)
Fixpoint lstrip_chars (chars : list ascii) (s : string) : string :=
  match s with
  | String a s' => if bool_decide (a ∈ chars) then lstrip_chars chars s' else s
  | EmptyString => s
  end.

(** [s.lower()]; letters outside A..Z are left as they are (no code point
    outside ASCII lower-cases to one of the letters the script compares
    with). *)
Definition lower1 (a : ascii) : ascii :=
  let n := nat_of_ascii a in
  if (65 <=? n) && (n <=? 90) then ascii_of_nat (n + 32) else a.

Fixpoint lower (s : string) : string :=
  match s with
  | String a s' => String (lower1 a) (lower s')
  | EmptyString => EmptyString
  end.

(** [s.startswith(p)] *)
Definition startswith (s p : string) : bool := String.prefix p s.

(** [s.split(c)]: never empty, one more field than occurrences of [c]. *)
Fixpoint split (c : ascii) (s : string) : list string :=
  match s with
  | EmptyString => [EmptyString]
  | String a s' =>
      if bool_decide (a = c) then EmptyString :: split c s'
      else match split c s' with
           | h :: t => String a h :: t
           | [] => [String a EmptyString]
           end
  end.

(** [s.split(c, maxsplit)] *)
Fixpoint splitn (c : ascii) (maxsplit : nat) (s : string) : list string :=
  match maxsplit with
  | O => [s]
  | S k =>
      match s with
      | EmptyString => [EmptyString]
      | String a s' =>
          if bool_decide (a = c) then EmptyString :: splitn c k s'
          else match splitn c maxsplit s' with
               | h :: t => String a h :: t
               | [] => [String a EmptyString]
               end
      end
  end.

(** [sep.join(l)] *)
Fixpoint join (sep : string) (l : list string) : string :=
  match l with
  | [] => ""
  | [x] => x
  | x :: l' => x +:+ sep +:+ join sep l'
  end.

(** [sorted(l)] on strings: code-point order. *)
Definition sorted (l : list string) : list string := merge_sort String.le l.

(** [l[-n:]] *)
Definition last_n {A} (n : nat) (l : list A) : list A := drop (length l - n) l.

(** [os.path.basename] (POSIX): what follows the last slash. *)
Definition basename (p : string) : string := default "" (last (split "/" p)).

(** [repr] of a string without quotes or escapes in it. *)
Definition repr (s : string) : string := "'" +:+ s +:+ "'".

End Py.

(** ** Paths *)

(** A path is the tuple of its parts, as [pathlib.PurePosixPath.parts]. *)
Abbreviation Path := (list string).

Module PathLib.

Definition is_absolute (p : Path) : bool :=
  match p with
  | r :: _ => bool_decide (r = "/")
  | [] => false
  end.

(** Parsing of a string operand: empty and ["."] components vanish. *)
Definition parse (s : string) : Path :=
  let comps := filter (λ c, c ≠ "" ∧ c ≠ ".") (Py.split "/" s) in
  if Py.startswith s "/" then "/" :: comps else comps.

(** [p / s] *)
Definition joinpath (p : Path) (s : string) : Path :=
  let q := parse s in
  if is_absolute q then q else p ++ q.

(** [p.parent] *)
Definition parent (p : Path) : Path :=
  match p with
  | [r] => if bool_decide (r = "/") then p else []
  | _ => removelast p
  end.

(** [str(p)] *)
Definition str (p : Path) : string :=
  match p with
  | [] => "."
  | r :: q => if bool_decide (r = "/") then "/" +:+ Py.join "/" q else Py.join "/" p
  end.

End PathLib.

Notation "p // s" := (PathLib.joinpath p s) (at level 40, left associativity).

(** ** The file tree *)

(** One entry of [assignment_metadata.json] and one of its dependencies.
    Every key may be missing from the JSON object: the script reads some
    with [d[k]] (a [KeyError] when absent) and some with
    [d.get(k, default)]. *)
Record dependency := Dependency {
  dep_from : option string;        (* dep['from'] *)
  dep_file : option string         (* dep['file'] *)
}.

Record assignment_info := AssignmentInfo {
  info_name : option string;
  files_to_submit : option (list string);
  dependencies : option (list dependency)
}.

(** What a regular file holds. *)
#[warnings="-register-all"]
Inductive content : Type :=
  | Raw (data : string)
  | ZipArchive (entries : list (string * content))
  | ConfigJson (config : gmap string string)
  | MetadataJson (metadata : gmap string assignment_info).

(** Times are local wall-clock instants, in microseconds. *)
Inductive node : Type :=
  | File (data : content) (mtime : Z)
  | Dir (mtime : Z).

Abbreviation FileTree := (gmap Path node).

(** ** Exceptions, the environment and the state *)

Inductive exc_class : Type :=
  | KeyError | EOFError | JSONDecodeError | ValueError
  | FileNotFoundError | FileExistsError | NotADirectoryError | IsADirectoryError
  | PermissionError | OSError | SameFileError
  | SubprocessError | TimeoutExpired | CalledProcessError.

Global Instance exc_class_eq_dec : EqDecision exc_class.
Proof. solve_decision. Defined.

(** [issubclass(c, subprocess.SubprocessError)] *)
Definition is_SubprocessError (c : exc_class) : bool :=
  match c with
  | SubprocessError | TimeoutExpired | CalledProcessError => true
  | _ => false
  end.

(** What can unwind the stack.  [SystemExit] and [KeyboardInterrupt] derive
    from [BaseException] only: [except Exception] lets them through.
    [msg] is [str(e)]. *)
Inductive exn : Type :=
  | SystemExit (code : Z)
  | KeyboardInterrupt
  | Exception (cls : exc_class) (msg : string).

Inductive Outcome (A : Type) : Type :=
  | Ok (a : A)
  | Raise (e : exn).
Arguments Ok {A} a.
Arguments Raise {A} e.

(** The result of [subprocess.run]: the child ran to its end, or the call
    raised, or the user interrupted it. *)
Inductive proc_result : Type :=
  | Completed (returncode : Z) (stdout : string)
  | Errored (cls : exc_class) (msg : string)
  | Interrupted.

(** A line typed at a prompt, or Ctrl-C at the prompt.  The end of the list
    is the end of the input stream. *)
Inductive stdin_event : Type :=
  | Line (s : string)
  | CtrlC.

Record Env := {
  root_dir : Path;                 (* Path(__file__).parent.parent *)
  isatty : bool;                   (* sys.stdout.isatty() *)
  os_is_nt : bool;                 (* os.name == 'nt' *)
  debug : bool;                    (* '--debug' in sys.argv *)
  now : Z;                         (* datetime.now() *)
  subprocess_run : list string → Path → FileTree → proc_result * FileTree;
  archive_size : list (string * content) → N   (* st_size of the written archive *)
}.

Record State := {
  fs : FileTree;
  stdin : list stdin_event;
  stdout : list string;            (* the chunks written, oldest first *)
  calls : list string              (* ghost: the commands entered, oldest first *)
}.

Definition set_fs (f : FileTree → FileTree) (st : State) : State :=
  {| fs := f (fs st); stdin := stdin st; stdout := stdout st; calls := calls st |}.
Definition set_stdin (l : list stdin_event) (st : State) : State :=
  {| fs := fs st; stdin := l; stdout := stdout st; calls := calls st |}.
Definition write_stdout (chunk : string) (st : State) : State :=
  {| fs := fs st; stdin := stdin st; stdout := stdout st ++ [chunk]; calls := calls st |}.
Definition log_call (name : string) (st : State) : State :=
  {| fs := fs st; stdin := stdin st; stdout := stdout st; calls := calls st ++ [name] |}.

(** ** The monad of commands *)

Definition M (A : Type) : Type := State → Outcome A * State.

Global Instance M_ret : MRet M := λ A a st, (Ok a, st).
Global Instance M_bind : MBind M := λ A B f m st,
  match m st with
  | (Ok a, st') => f a st'
  | (Raise e, st') => (Raise e, st')
  end.

Definition raise {A} (e : exn) : M A := λ st, (Raise e, st).
Definition gets {A} (f : State → A) : M A := λ st, (Ok (f st), st).
Definition modify (f : State → State) : M unit := λ st, (Ok tt, f st).

(** [sys.exit(code)] *)
Definition sys_exit {A} (code : Z) : M A := raise (SystemExit code).

(** [try: body except Exception as e: handler(e)] *)
Definition try_except {A} (body : M A) (handler : exc_class → string → M A) : M A :=
  λ st, match body st with
        | (Raise (Exception cls msg), st') => handler cls msg st'
        | r => r
        end.

(** [print(s)] and [print(s, end='')] *)
Definition print (s : string) : M unit := modify (write_stdout (s +:+ Py.LF)).
Definition print_noend (s : string) : M unit := modify (write_stdout s).

(** [input()] and [input(prompt)] *)
Definition readline : M string := λ st,
  match stdin st with
  | Line s :: rest => (Ok s, set_stdin rest st)
  | CtrlC :: rest => (Raise KeyboardInterrupt, set_stdin rest st)
  | [] => (Raise (Exception EOFError "EOF when reading a line"), st)
  end.
Definition input (prompt : string) : M string := print_noend prompt;; readline.

(** [d[key]] on a JSON object read from disk. *)
Definition getitem {A} (key : string) (v : option A) : M A :=
  match v with
  | Some a => mret a
  | None => raise (Exception KeyError (Py.repr key))
  end.

(** ghost: note that a command was entered. *)
Definition enter (name : string) : M unit := modify (log_call name).

(** ** File-system calls *)

Module Fs.

Definition oserror {A} (cls : exc_class) (errno : string) (what : string) (p : Path) : M A :=
  raise (Exception cls ("[Errno " +:+ errno +:+ "] " +:+ what +:+ ": " +:+ Py.repr (PathLib.str p))).

(** [p.exists()] *)
Definition exists_ (p : Path) : M bool := gets (λ st, bool_decide (is_Some (fs st !! p))).

(** The checks of a system call that creates the entry [p]. *)
Definition create (p : Path) (n : node) : M unit := λ st,
  match fs st !! PathLib.parent p with
  | Some (Dir _) => (Ok tt, set_fs <[p := n]> st)
  | Some (File _ _) => oserror NotADirectoryError "20" "Not a directory" p st
  | None => oserror FileNotFoundError "2" "No such file or directory" p st
  end.

(** [p.mkdir(exist_ok=True)] *)
Definition mkdir (clock : Z) (p : Path) : M unit := λ st,
  match fs st !! p with
  | Some (Dir _) => (Ok tt, st)
  | Some (File _ _) => oserror FileExistsError "17" "File exists" p st
  | None => create p (Dir clock) st
  end.

(** [p.mkdir(parents=True, exist_ok=True)], [p] being [pre ++ rest] and
    [pre] a directory already. *)
Fixpoint makedirs_from (clock : Z) (pre : Path) (rest : list string) : M unit :=
  match rest with
  | [] => mret tt
  | c :: rest' =>
      let q := pre ++ [c] in
      n ← gets (λ st, fs st !! q);
      match n with
      | Some (Dir _) => makedirs_from clock q rest'
      | Some (File _ _) =>
          match rest' with
          | [] => oserror FileExistsError "17" "File exists" q
          | _ => oserror NotADirectoryError "20" "Not a directory" (q ++ rest')
          end
      | None => modify (set_fs <[q := Dir clock]>);; makedirs_from clock q rest'
      end
  end.

Definition makedirs (clock : Z) (p : Path) : M unit := makedirs_from clock [] p.

(** [open(p, 'w')] followed by writing [data] and closing. *)
Definition write_file (clock : Z) (p : Path) (data : content) : M unit := λ st,
  match fs st !! p with
  | Some (Dir _) => oserror IsADirectoryError "21" "Is a directory" p st
  | _ => create p (File data clock) st
  end.

(** [shutil.copy2(src, dst)]: the data and the modification time of [src]. *)
Definition copy2 (src dst : Path) : M unit := λ st,
  let dst' :=
    match fs st !! dst with
    | Some (Dir _) => dst ++ [default "" (last src)]
    | _ => dst
    end in
  if bool_decide (src = dst') then
    raise (Exception SameFileError
             ("PosixPath(" +:+ Py.repr (PathLib.str src) +:+ ") and PosixPath("
              +:+ Py.repr (PathLib.str dst') +:+ ") are the same file")) st
  else
    match fs st !! src with
    | None => oserror FileNotFoundError "2" "No such file or directory" src st
    | Some (Dir _) => oserror IsADirectoryError "21" "Is a directory" src st
    | Some (File data mtime) =>
        match fs st !! dst' with
        | Some (Dir _) => oserror IsADirectoryError "21" "Is a directory" dst' st
        | _ => create dst' (File data mtime) st
        end
    end.

(** [p.stat().st_mtime], as a local time. *)
Definition st_mtime (p : Path) : M Z := λ st,
  match fs st !! p with
  | Some (File _ t) | Some (Dir t) => (Ok t, st)
  | None => oserror FileNotFoundError "2" "No such file or directory" p st
  end.

End Fs.

(** ** [zipfile] *)

Module Zip.

(** The name [ZipInfo.from_file] gives an entry whose [arcname] has no
    separator in it: [os.path.normpath] of it. *)
Definition arcname (name : string) : string :=
  if bool_decide (name = "") then "." else name.

(** [zipfile.ZipFile(p, 'w', ZIP_DEFLATED)]: the file is truncated. *)
Definition open_w (clock : Z) (p : Path) : M unit := Fs.write_file clock p (ZipArchive []).

(** [zipf.write(source, name)], [written] being the entries so far.  A
    directory is stored as an empty entry whose name ends with a slash. *)
Definition write (clock : Z) (p : Path) (written : list (string * content))
    (source : Path) (name : string) : M (list (string * content)) :=
  n ← gets (λ st, fs st !! source);
  entry ← match n with
          | Some (File data _) => mret (arcname name, data)
          | Some (Dir _) => mret (arcname name +:+ "/", Raw "")
          | None => Fs.oserror FileNotFoundError "2" "No such file or directory" source
          end;
  let written' := written ++ [entry] in
  modify (set_fs <[p := File (ZipArchive written') clock]>);;
  mret written'.

End Zip.

(** ** [json] on the two documents of the script *)

Module Json.

Definition load_failure {A} (p : Path) : M A := λ st,
  match fs st !! p with
  | Some (Dir _) => Fs.oserror IsADirectoryError "21" "Is a directory" p st
  | None => Fs.oserror FileNotFoundError "2" "No such file or directory" p st
  | Some (File _ _) =>
      raise (Exception JSONDecodeError "Expecting value: line 1 column 1 (char 0)") st
  end.

(** [with open(p) as f: json.load(f)], for the configuration object *)
Definition load_config (p : Path) : M (gmap string string) := λ st,
  match fs st !! p with
  | Some (File (ConfigJson c) _) => (Ok c, st)
  | _ => load_failure p st
  end.

(** [with open(p) as f: json.load(f)], for the metadata *)
Definition load_metadata (p : Path) : M (gmap string assignment_info) := λ st,
  match fs st !! p with
  | Some (File (MetadataJson m) _) => (Ok m, st)
  | _ => load_failure p st
  end.

End Json.

(** ** [class Colors] *)

Section Colors.
Context (env : Env).

(** [Colors.disable()] has run when standard output is no terminal. *)
Definition color (code : string) : string :=
  if isatty env then Py.ESC +:+ code else "".

Definition GREEN := color "[92m".
Definition YELLOW := color "[93m".
Definition RED := color "[91m".
Definition BLUE := color "[94m".
Definition CYAN := color "[96m".
Definition RESET := color "[0m".
Definition BOLD := color "[1m".
End Colors.

(** ** [class AssignmentHelper] *)

(** [argparse]'s namespace: the options a command does not declare stay at
    their default. *)
Record Args := { assignment : string; force : bool; verbose : bool }.

(** Truth value of a string. *)
Definition truthy (s : string) : bool := negb (bool_decide (s = "")).

Definition rule (n : nat) : string := Py.join "" (replicate n "=").

(** The three counters the loop of [cmd_setup] carries. *)
Record setup_vars := { success_count : nat; skip_count : nat; force_all : bool }.

Section AssignmentHelper.
Context (env : Env).

Definition scripts_dir : Path := root_dir env // "scripts".
Definition config_file : Path := scripts_dir // "config.json".
Definition metadata_file : Path := scripts_dir // "assignment_metadata.json".
Definition output_dir : Path := root_dir env // "output".

Definition load_config : M (gmap string string) :=
  ex ← Fs.exists_ config_file;
  if negb ex then
    print (YELLOW env +:+ "⚠ Config file not found. Please run 'config' command first." +:+ RESET env);;
    sys_exit 1
  else Json.load_config config_file.

Definition save_config (config : gmap string string) : M unit :=
  Fs.write_file (now env) config_file (ConfigJson config).

Definition load_metadata : M (gmap string assignment_info) :=
  ex ← Fs.exists_ metadata_file;
  if negb ex then
    print (RED env +:+ "✗ Metadata file not found: " +:+ PathLib.str metadata_file +:+ RESET env);;
    print "  Please ensure assignment_metadata.json exists in scripts/ directory";;
    sys_exit 1
  else Json.load_metadata metadata_file.

Definition get_assignment_dir (assignment : string) : Path :=
  root_dir env // assignment // "tai-e".

(** [subprocess.run(cmd, cwd=cwd, ...)]: the captured output, when the
    call returns. *)
Definition run (cmd : list string) (cwd : Path) : M (Z * string) := λ st,
  let '(r, t) := subprocess_run env cmd cwd (fs st) in
  let st' := set_fs (λ _, t) st in
  match r with
  | Completed rc out => (Ok (rc, out), st')
  | Errored cls msg => (Raise (Exception cls msg), st')
  | Interrupted => (Raise KeyboardInterrupt, st')
  end.

(** The [except (subprocess.SubprocessError, FileNotFoundError)] clause of
    [check_git_status]. *)
Definition git_fallback (file_path : Path) : M (gmap string string) :=
  ex ← Fs.exists_ file_path;
  if ex : bool then
    mtime ← Fs.st_mtime file_path;
    let days_ago := ((now env - mtime) `div` 86400000000)%Z in
    let time_str :=
      if bool_decide (days_ago = 0%Z) then "today"
      else if bool_decide (days_ago = 1%Z) then "yesterday"
      else pretty days_ago +:+ " days ago" in
    mret {[ "status" := "unknown"; "time" := time_str ]}
  else mret {[ "status" := "unknown" ]}.

Definition git_probe (file_path : Path) : M (gmap string string) :=
  '(_, out) ← run ["git"; "status"; "--porcelain"; PathLib.str file_path] (root_dir env);
  let status := Py.strip out in
  if negb (truthy status) then mret {[ "status" := "unmodified" ]}
  else if Py.startswith status " M" || Py.startswith status "M " then
    '(_, log_out) ← run ["git"; "log"; "-1"; "--format=%h|%cr|%s"; "--"; PathLib.str file_path]
                        (root_dir env);
    if truthy (Py.strip log_out) then
      let parts := Py.splitn "|" 2 (Py.strip log_out) in
      match parts with
      | [commit; time; message] =>          (* len(parts) == 3 *)
          mret {[ "status" := "modified"; "commit" := commit;
                  "time" := time; "message" := message ]}
      | _ => mret {[ "status" := "modified" ]}
      end
    else mret {[ "status" := "modified" ]}
  else if Py.startswith status "??" then mret {[ "status" := "untracked" ]}
  else mret {[ "status" := "unknown" ]}.

Definition check_git_status (file_path : Path) : M (gmap string string) := λ st,
  match git_probe file_path st with
  | (Raise (Exception cls msg), st') =>
      if is_SubprocessError cls || bool_decide (cls = FileNotFoundError)
      then git_fallback file_path st'
      else (Raise (Exception cls msg), st')
  | r => r
  end.

Definition cmd_config (args : Args) : M unit :=
  enter "cmd_config";;
  print (BOLD env +:+ "Assignment Helper Configuration" +:+ RESET env);;
  print (rule 50);;
  ex ← Fs.exists_ config_file;
  existing_config ← (if ex : bool then Json.load_config config_file else mret ∅);
  let default_id := default "" (existing_config !! "student_id") in
  let prompt := if truthy default_id then "Student ID [" +:+ default_id +:+ "]: "
                else "Student ID: " in
  typed ← input prompt;
  let student_id := Py.strip typed in
  let student_id := if negb (truthy student_id) && truthy default_id
                    then default_id else student_id in
  let default_name := default "" (existing_config !! "student_name") in
  let prompt := if truthy default_name then "Student Name [" +:+ default_name +:+ "]: "
                else "Student Name: " in
  typed ← input prompt;
  let student_name := Py.strip typed in
  let student_name := if negb (truthy student_name) && truthy default_name
                      then default_name else student_name in
  if negb (truthy student_id) || negb (truthy student_name) then
    print (RED env +:+ "✗ Both student ID and name are required" +:+ RESET env);;
    sys_exit 1
  else
    let config : gmap string string :=
      {[ "student_id" := student_id; "student_name" := student_name;
         "workspace_root" := PathLib.str (root_dir env) ]} in
    save_config config;;
    print (Py.LF +:+ GREEN env +:+ "✓ Configuration saved successfully" +:+ RESET env);;
    print ("  Student ID: " +:+ student_id);;
    print ("  Student Name: " +:+ student_name).


(** The [assignment not in metadata] guard of [cmd_setup] and
    [cmd_package]. *)
Definition invalid_assignment {A} (assignment : string) : M A :=
  print (RED env +:+ "✗ Invalid assignment: " +:+ assignment +:+ RESET env);;
  sys_exit 1.

Definition metadata_keys (metadata : gmap string assignment_info) : list string :=
  Py.sorted (elements (dom metadata)).

(** The body of the loop of [cmd_list]. *)
Definition list_entry (assignment_id : string) (info : assignment_info) : M unit :=
  let deps := default [] (dependencies info) in
  let dep_count := length deps in
  let file_count := length (default [] (files_to_submit info)) in
  name ← getitem "name" (info_name info);
  print (Py.LF +:+ CYAN env +:+ assignment_id +:+ RESET env +:+ ": " +:+ name);;
  print ("  Files to submit: " +:+ pretty file_count);;
  print ("  Dependencies: " +:+ pretty dep_count +:+ " file(s) from previous assignments");;
  if bool_decide (0 < dep_count) then
    froms ← mapM (λ dep, getitem "from" (dep_from dep)) deps;
    print ("  Depends on: " +:+ Py.join ", " (Py.sorted (remove_dups froms)))
  else mret tt.

Definition cmd_list (args : Args) : M unit :=
  enter "cmd_list";;
  metadata ← load_metadata;
  print (Py.LF +:+ BOLD env +:+ "Available Assignments" +:+ RESET env);;
  print (rule 70);;
  (fix loop (ids : list string) : M unit :=
     match ids with
     | [] => mret tt
     | assignment_id :: ids' =>
         info ← getitem assignment_id (metadata !! assignment_id);
         list_entry assignment_id info;;
         loop ids'
     end) (metadata_keys metadata).

Definition cmd_info (args : Args) : M unit :=
  enter "cmd_info";;
  metadata ← load_metadata;
  let assignment := assignment args in
  match metadata !! assignment with
  | None =>
      print (RED env +:+ "✗ Invalid assignment: " +:+ assignment +:+ RESET env);;
      print ("  Valid assignments: " +:+ Py.join ", " (metadata_keys metadata));;
      sys_exit 1
  | Some info =>
      name ← getitem "name" (info_name info);
      print (Py.LF +:+ BOLD env +:+ "Assignment " +:+ assignment +:+ ": " +:+ name +:+ RESET env);;
      print (rule 70);;
      print (Py.LF +:+ CYAN env +:+ "Files to Submit:" +:+ RESET env);;
      files ← getitem "files_to_submit" (files_to_submit info);
      (fix loop (l : list string) : M unit :=
         match l with
         | [] => mret tt
         | file_path :: l' => print ("  • " +:+ file_path);; loop l'
         end) files;;
      let deps := default [] (dependencies info) in
      match deps with
      | [] => print (Py.LF +:+ CYAN env +:+ "Dependencies:" +:+ RESET env +:+ " None")
      | _ =>
          print (Py.LF +:+ CYAN env +:+ "Dependencies:" +:+ RESET env);;
          (fix loop (l : list dependency) : M unit :=
             match l with
             | [] => mret tt
             | dep :: l' =>
                 from ← getitem "from" (dep_from dep);
                 file ← getitem "file" (dep_file dep);
                 print ("  • From " +:+ from +:+ ": " +:+ Py.basename file);;
                 loop l'
             end) deps
      end
  end.

(** The [try] block of the loop of [cmd_setup] with its
    [except Exception] clause. *)
Definition perform_copy (source_file target_file : Path) (is_modified : bool)
    (v : setup_vars) : M setup_vars :=
  try_except
    (Fs.makedirs (now env) (PathLib.parent target_file);;
     Fs.copy2 source_file target_file;;
     (if is_modified && force_all v then
        print ("  " +:+ GREEN env +:+ "✓ Copied (overwrote local changes)" +:+ RESET env)
      else
        print ("  " +:+ GREEN env +:+ "✓ Copied" +:+ RESET env));;
     mret {| success_count := success_count v + 1; skip_count := skip_count v;
             force_all := force_all v |})
    (λ _ msg,
       print ("  " +:+ RED env +:+ "✗ Failed: " +:+ msg +:+ RESET env);;
       mret v).

(** One iteration of the loop of [cmd_setup]; [continue] is the return of
    the variables as they are. *)
Definition setup_entry (assignment : string) (target_dir : Path) (n idx : nat)
    (dep : dependency) (v : setup_vars) : M setup_vars :=
  source_assignment ← getitem "from" (dep_from dep);
  file_rel_path ← getitem "file" (dep_file dep);
  let source_dir := get_assignment_dir source_assignment in
  let source_file := source_dir // file_rel_path in
  let target_file := target_dir // file_rel_path in
  print (Py.LF +:+ "[" +:+ pretty idx +:+ "/" +:+ pretty n +:+ "] " +:+ Py.basename file_rel_path);;
  print ("  " +:+ source_assignment +:+ " → " +:+ assignment);;
  print "";;
  source_exists ← Fs.exists_ source_file;
  if negb source_exists then
    print ("  Status: " +:+ RED env +:+ "✗ Source file not found" +:+ RESET env);;
    mret v
  else
    target_exists ← Fs.exists_ target_file;
    git_status ← (if target_exists : bool
                  then g ← check_git_status target_file; mret (Some g)
                  else mret None);
    let is_modified :=
      match git_status with
      | Some g => bool_decide (g !! "status" = Some "modified")
      | None => false
      end in
    (if negb target_exists then print "  Status: ℹ Target file does not exist"
     else if is_modified then
       let time_str := default "recently" (git_status ≫= (.!! "time")) in
       print ("  Status: 📝 Target file modified " +:+ time_str)
     else print "  Status: ✓ Target file unchanged");;
    if is_modified && negb (force_all v) then
      print ("  " +:+ YELLOW env +:+ "⚠ This will overwrite your local changes." +:+ RESET env);;
      print "  Options:";;
      print "    y - Yes, overwrite this file";;
      print "    n - No, skip this file";;
      print "    a - All, overwrite this and all remaining files";;
      print "    q - Quit setup";;
      print_noend "  Your choice [y/N/a/q]: ";;
      typed ← readline;
      let choice := Py.strip (Py.lower typed) in
      if bool_decide (choice = "q") then
        print (Py.LF +:+ YELLOW env +:+ "Setup cancelled by user" +:+ RESET env);;
        sys_exit 0
      else if bool_decide (choice = "a") then
        print "";;
        perform_copy source_file target_file is_modified
          {| success_count := success_count v; skip_count := skip_count v; force_all := true |}
      else if negb (bool_decide (choice = "y")) then
        print ("  " +:+ YELLOW env +:+ "→ Skipped" +:+ RESET env);;
        mret {| success_count := success_count v; skip_count := skip_count v + 1;
                force_all := force_all v |}
      else
        print "";;
        perform_copy source_file target_file is_modified v
    else
      perform_copy source_file target_file is_modified v.

(** [for idx, dep in enumerate(deps, 1): ...] *)
Fixpoint setup_loop (assignment : string) (target_dir : Path) (n idx : nat)
    (deps : list dependency) (v : setup_vars) : M setup_vars :=
  match deps with
  | [] => mret v
  | dep :: deps' =>
      v' ← setup_entry assignment target_dir n idx dep v;
      setup_loop assignment target_dir n (S idx) deps' v'
  end.

(** The summary [cmd_setup] prints after the loop. *)
Definition setup_summary (v : setup_vars) : M unit :=
  print (Py.LF +:+ BOLD env +:+ "Summary:" +:+ RESET env);;
  print ("  " +:+ GREEN env +:+ "✓" +:+ RESET env +:+ " Copied: " +:+ pretty (success_count v));;
  if bool_decide (0 < skip_count v) then
    print ("  " +:+ YELLOW env +:+ "→" +:+ RESET env +:+ " Skipped: " +:+ pretty (skip_count v))
  else mret tt.

Definition cmd_setup (args : Args) : M unit :=
  enter "cmd_setup";;
  metadata ← load_metadata;
  let assignment := assignment args in
  match metadata !! assignment with
  | None => invalid_assignment assignment
  | Some info =>
      let deps := default [] (dependencies info) in
      match deps with
      | [] =>
          print (YELLOW env +:+ "ℹ Assignment " +:+ assignment +:+ " has no dependencies" +:+ RESET env)
      | _ =>
          print (Py.LF +:+ BOLD env +:+ "Setting up dependencies for " +:+ assignment +:+ "..." +:+ RESET env);;
          print (rule 70);;
          let target_dir := get_assignment_dir assignment in
          v ← setup_loop assignment target_dir (length deps) 1 deps
                {| success_count := 0; skip_count := 0; force_all := force args |};
          setup_summary v
      end
  end.

Definition cmd_test (args : Args) : M bool :=
  enter "cmd_test";;
  let assignment := assignment args in
  let assignment_dir := get_assignment_dir assignment in
  dir_exists ← Fs.exists_ assignment_dir;
  if negb dir_exists then
    print (RED env +:+ "✗ Assignment directory not found: " +:+ PathLib.str assignment_dir +:+ RESET env);;
    sys_exit 1
  else
    print (Py.LF +:+ BOLD env +:+ "Running tests for " +:+ assignment +:+ "..." +:+ RESET env);;
    print (rule 70);;
    let gradle_cmd := if os_is_nt env then "gradlew.bat" else "./gradlew" in
    let gradle_wrapper := assignment_dir // Py.lstrip_chars ["."; "/"]%char gradle_cmd in
    wrapper_exists ← Fs.exists_ gradle_wrapper;
    if negb wrapper_exists then
      print (RED env +:+ "✗ Gradle wrapper not found: " +:+ PathLib.str gradle_wrapper +:+ RESET env);;
      sys_exit 1
    else
      let cmd := [PathLib.str gradle_wrapper; "test"; "--console=plain"] in
      print ("Command: " +:+ Py.join " " cmd);;
      print ("Working directory: " +:+ PathLib.str assignment_dir +:+ Py.LF);;
      try_except
        ('(returncode, out) ← run cmd assignment_dir;
         let test_report :=
           assignment_dir // "build" // "reports" // "tests" // "test" // "index.html" in
         if bool_decide (returncode = 0%Z) then
           print (Py.LF +:+ GREEN env +:+ rule 70 +:+ RESET env);;
           print (GREEN env +:+ "✓ BUILD SUCCESSFUL" +:+ RESET env);;
           print (GREEN env +:+ rule 70 +:+ RESET env);;
           report_exists ← Fs.exists_ test_report;
           (if report_exists : bool
            then print (Py.LF +:+ "Detailed report: " +:+ PathLib.str test_report)
            else mret tt);;
           mret true
         else
           print (Py.LF +:+ RED env +:+ rule 70 +:+ RESET env);;
           print (RED env +:+ "✗ BUILD FAILED" +:+ RESET env);;
           print (RED env +:+ rule 70 +:+ RESET env);;
           (if negb (verbose args) && truthy out then
              let lines := Py.split Py.LF_char out in
              print (Py.LF +:+ "Last lines of output:");;
              print (Py.join Py.LF (Py.last_n 30 lines))
            else mret tt);;
           report_exists ← Fs.exists_ test_report;
           (if report_exists : bool
            then print (Py.LF +:+ "Detailed report: " +:+ PathLib.str test_report)
            else mret tt);;
           mret false)
        (λ _ msg,
           print (RED env +:+ "✗ Failed to run tests: " +:+ msg +:+ RESET env);;
           mret false).

(** The first loop of [cmd_package]: the files found and the files
    missing. *)
Fixpoint collect_files (assignment_dir : Path) (files : list string)
    (files_to_package : list (Path * string)) (missing_files : list string)
    : M (list (Path * string) * list string) :=
  match files with
  | [] => mret (files_to_package, missing_files)
  | file_rel_path :: files' =>
      let source_file := assignment_dir // file_rel_path in
      source_exists ← Fs.exists_ source_file;
      if source_exists : bool then
        print (GREEN env +:+ "✓" +:+ RESET env +:+ " " +:+ Py.basename file_rel_path);;
        collect_files assignment_dir files'
          (files_to_package ++ [(source_file, file_rel_path)]) missing_files
      else
        print (RED env +:+ "✗" +:+ RESET env +:+ " " +:+ Py.basename file_rel_path +:+ " (not found)");;
        collect_files assignment_dir files'
          files_to_package (missing_files ++ [file_rel_path])
  end.

(** The loop inside [with zipfile.ZipFile(...) as zipf]. *)
Fixpoint write_entries (zip_path : Path) (files_to_package : list (Path * string))
    (written : list (string * content)) : M (list (string * content)) :=
  match files_to_package with
  | [] => mret written
  | (source_file, arcname) :: rest =>
      let zip_arcname := Py.basename arcname in
      written' ← Zip.write (now env) zip_path written source_file zip_arcname;
      write_entries zip_path rest written'
  end.

(** [f"{x:.1f}"] for the quotient [num / den], exact in binary floating
    point when [den] is a power of two and [num] is below 2^53. *)
Definition format_1f (num den : N) : string :=
  let q := (10 * num / den)%N in
  let r := ((10 * num) `mod` den)%N in
  let tenths :=
    if (2 * r <? den)%N then q
    else if (den <? 2 * r)%N then (q + 1)%N
    else if N.even q then q else (q + 1)%N in
  pretty (tenths / 10)%N +:+ "." +:+ pretty (tenths `mod` 10)%N.

Definition size_str (file_size : N) : string :=
  if (file_size <? 1024)%N then pretty file_size +:+ " B"
  else if (file_size <? 1024 * 1024)%N then format_1f file_size 1024 +:+ " KB"
  else format_1f file_size (1024 * 1024) +:+ " MB".

Definition cmd_package (args : Args) : M unit :=
  enter "cmd_package";;
  config ← load_config;
  metadata ← load_metadata;
  let assignment := assignment args in
  match metadata !! assignment with
  | None => invalid_assignment assignment
  | Some info =>
      student_id ← getitem "student_id" (config !! "student_id");
      student_name ← getitem "student_name" (config !! "student_name");
      print (Py.LF +:+ BOLD env +:+ "Packaging " +:+ assignment +:+ " for submission..." +:+ RESET env);;
      print (rule 70);;
      Fs.mkdir (now env) output_dir;;
      let assignment_dir := get_assignment_dir assignment in
      files ← getitem "files_to_submit" (files_to_submit info);
      '(files_to_package, missing_files) ← collect_files assignment_dir files [] [];
      match missing_files with
      | _ :: _ =>
          print (Py.LF +:+ RED env +:+ "✗ Cannot package: " +:+ pretty (length missing_files)
                 +:+ " file(s) missing" +:+ RESET env);;
          sys_exit 1
      | [] =>
          let zip_filename := student_id +:+ "-" +:+ student_name +:+ "-" +:+ assignment +:+ ".zip" in
          let zip_path := output_dir // zip_filename in
          print (Py.LF +:+ "Creating archive: " +:+ zip_filename);;
          Zip.open_w (now env) zip_path;;
          written ← write_entries zip_path files_to_package [];
          let file_size := archive_size env written in
          print (Py.LF +:+ GREEN env +:+ rule 70 +:+ RESET env);;
          print (GREEN env +:+ "✓ Package created successfully" +:+ RESET env);;
          print (GREEN env +:+ rule 70 +:+ RESET env);;
          print (Py.LF +:+ "File: " +:+ PathLib.str zip_path);;
          print ("Size: " +:+ size_str file_size);;
          print ("Files: " +:+ pretty (length files_to_package))
      end
  end.

Definition cmd_submit (args : Args) : M unit :=
  enter "cmd_submit";;
  print (BOLD env +:+ "Submitting " +:+ assignment args +:+ "..." +:+ RESET env);;
  print (rule 70);;
  test_success ← cmd_test args;
  if negb test_success then
    print (Py.LF +:+ RED env +:+ "✗ Tests failed. Cannot package for submission." +:+ RESET env);;
    print "  Fix the failing tests and try again.";;
    sys_exit 1
  else
    print (Py.LF +:+ BOLD env +:+ "Tests passed! Proceeding with packaging..." +:+ RESET env +:+ Py.LF);;
    cmd_package args.

End AssignmentHelper.

(** ** [main] *)

(** The command line after [argparse]: usage errors and the help of a
    command line without a command end the process before this point. *)
Inductive command : Type :=
  | Config | List_ | Info | Setup | Test_ | Package | Submit.

Definition dispatch (env : Env) (c : command) (args : Args) : M unit :=
  match c with
  | Config => cmd_config env args
  | List_ => cmd_list env args
  | Info => cmd_info env args
  | Setup => cmd_setup env args
  | Test_ => cmd_test env args;; mret tt
  | Package => cmd_package env args
  | Submit => cmd_submit env args
  end.

(** The [try] statement of [main]. *)
Definition main (env : Env) (c : command) (args : Args) : M unit := λ st,
  match dispatch env c args st with
  | (Raise KeyboardInterrupt, st') =>
      (print (Py.LF +:+ Py.LF +:+ YELLOW env +:+ "Operation cancelled by user" +:+ RESET env);;
       sys_exit 1) st'
  | (Raise (Exception cls msg), st') =>
      (print (Py.LF +:+ RED env +:+ "✗ Error: " +:+ msg +:+ RESET env);;
       if debug env then raise (Exception cls msg) else sys_exit 1) st'
  | r => r
  end.

(** The exit status of the interpreter: 0 when [main] returns, the code of
    [SystemExit], 1 after an uncaught exception (with a traceback). *)
Definition exit_status {A} (o : Outcome A) : Z :=
  match o with
  | Ok _ => 0
  | Raise (SystemExit code) => code
  | Raise _ => 1
  end.

(** One run of the script. *)
Definition run_script (env : Env) (c : command) (args : Args) (st : State) : Z * State :=
  let '(o, st') := main env c args st in (exit_status o, st').

(** ** Vocabulary of the statements *)

(** [emit out st]: the state [st] after the chunks [out] were written to
    standard output, everything else as it was. *)
Definition emit (out : list string) (st : State) : State :=
  foldl (λ s chunk, write_stdout chunk s) st out.

(** A computation that enters no command: the ghost log stays as it is. *)
Definition keeps_calls {A} (m : M A) : Prop := ∀ st, calls (m st).2 = calls st.

(** Every exception that leaves [m] satisfies [E]. *)
Definition raises {A} (E : exn → Prop) (m : M A) : Prop :=
  ∀ st e, (m st).1 = Raise e → E e.

(** The exceptions [except Exception] catches. *)
Definition is_Exception (e : exn) : Prop := ∃ cls msg, e = Exception cls msg.

(** The test runner reported success: [cmd_test] returned [True]. *)
Definition reports_success (o : Outcome bool) : bool :=
  match o with
  | Ok true => true
  | _ => false
  end.

(** The coarse age the specification gives for a file last modified
    [elapsed] microseconds ago: today, yesterday, or a number of days. *)
Definition relative_age (elapsed : Z) : string :=
  let days := (elapsed `div` 86400000000)%Z in
  if bool_decide (days = 0%Z) then "today"
  else if bool_decide (days = 1%Z) then "yesterday"
  else pretty days +:+ " days ago".

Definition node_mtime (n : node) : Z :=
  match n with File _ t | Dir t => t end.

(** The two invocations of [git] by the probe. *)
Definition git_status_cmd (file_path : Path) : list string :=
  ["git"; "status"; "--porcelain"; PathLib.str file_path].
Definition git_log_cmd (file_path : Path) : list string :=
  ["git"; "log"; "-1"; "--format=%h|%cr|%s"; "--"; PathLib.str file_path].

(** The exceptions of [subprocess.run] the probe falls back on: the tool is
    absent ([FileNotFoundError]), or the call failed or timed out (a
    [SubprocessError]). *)
Definition probe_falls_back (cls : exc_class) : Prop :=
  cls = FileNotFoundError ∨ is_SubprocessError cls = true.

(** What [print(s)] writes. *)
Definition line (s : string) : string := s +:+ Py.LF.

(** The verdicts [setup] prints for an entry of the dependency list. *)
Definition not_found_line (env : Env) : string :=
  line ("  Status: " +:+ RED env +:+ "✗ Source file not found" +:+ RESET env).
Definition skipped_line (env : Env) : string :=
  line ("  " +:+ YELLOW env +:+ "→ Skipped" +:+ RESET env).
Definition copied_line (env : Env) (overwrote : bool) : string :=
  if overwrote
  then line ("  " +:+ GREEN env +:+ "✓ Copied (overwrote local changes)" +:+ RESET env)
  else line ("  " +:+ GREEN env +:+ "✓ Copied" +:+ RESET env).
Definition failed_line (env : Env) (msg : string) : string :=
  line ("  " +:+ RED env +:+ "✗ Failed: " +:+ msg +:+ RESET env).

(** The source file of a dependency is absent from the tree of [st]. *)
Definition source_absent (env : Env) (st : State) (dep : dependency) : Prop :=
  ∃ source_assignment file_rel_path,
    dep_from dep = Some source_assignment ∧ dep_file dep = Some file_rel_path
    ∧ fs st !! (get_assignment_dir env source_assignment // file_rel_path) = None.

(** What [setup] has counted so far. *)
Definition counted (v : setup_vars) : nat := success_count v + skip_count v.

(** The lines of the summary of [setup]. *)
Definition summary_lines (env : Env) (v : setup_vars) : list string :=
  [ line (Py.LF +:+ BOLD env +:+ "Summary:" +:+ RESET env);
    line ("  " +:+ GREEN env +:+ "✓" +:+ RESET env +:+ " Copied: " +:+ pretty (success_count v)) ]
  ++ (if bool_decide (0 < skip_count v)
      then [ line ("  " +:+ YELLOW env +:+ "→" +:+ RESET env +:+ " Skipped: "
                   +:+ pretty (skip_count v)) ]
      else []).

(** An outcome that ends the process with status 1 through [main]: the
    script's own [sys.exit(1)], or an exception [main] reports. *)
Definition fatal {A} (o : Outcome A) : Prop :=
  o = Raise (SystemExit 1) ∨ ∃ cls msg, o = Raise (Exception cls msg).

(** What [setup] prints before its loop and at the head of an entry, and
    what it prints when the user quits. *)
Definition setup_banner (env : Env) (assignment : string) : list string :=
  [ line (Py.LF +:+ BOLD env +:+ "Setting up dependencies for " +:+ assignment +:+ "..."
          +:+ RESET env);
    line (rule 70) ].
Definition entry_header (assignment : string) (n idx : nat)
    (source_assignment file_rel_path : string) : list string :=
  [ line (Py.LF +:+ "[" +:+ pretty idx +:+ "/" +:+ pretty n +:+ "] "
          +:+ Py.basename file_rel_path);
    line ("  " +:+ source_assignment +:+ " → " +:+ assignment);
    line "" ].
Definition cancelled_line (env : Env) : string :=
  line (Py.LF +:+ YELLOW env +:+ "Setup cancelled by user" +:+ RESET env).

(** The variables of the loop of [setup] when it starts. *)
Definition setup_start (args : Args) : setup_vars :=
  {| success_count := 0; skip_count := 0; force_all := force args |}.

(** ** Observations a computation leaves as they are

    [keeps f m]: whatever happens in [m], the observation [f] of the state
    is the same afterwards.  An observation is blind to one of the four
    updates of the state when the update cannot change it. *)
Definition keeps {B A} (f : State → B) (m : M A) : Prop := ∀ st, f (m st).2 = f st.

Class OutBlind {B} (f : State → B) : Prop :=
  out_blind : ∀ c st, f (write_stdout c st) = f st.
Class InBlind {B} (f : State → B) : Prop :=
  in_blind : ∀ l st, f (set_stdin l st) = f st.
Class LogBlind {B} (f : State → B) : Prop :=
  log_blind : ∀ n st, f (log_call n st) = f st.
Class TreeBlind {B} (f : State → B) : Prop :=
  tree_blind : ∀ g st, f (set_fs g st) = f st.

(** What the tree holds at the path [q]. *)
Definition at_path (q : Path) (st : State) : option node := fs st !! q.

(** The exceptions that end a run with status 1: the script's own
    [sys.exit(1)], the user's interrupt, and any [Exception]. *)
Definition ends_with_1 (e : exn) : Prop :=
  e = SystemExit 1 ∨ e = KeyboardInterrupt ∨ is_Exception e.

(** An entry of the metadata [list] can print: it has a [name], and each of
    its dependencies has a [from]. *)
Definition listable (info : assignment_info) : Prop :=
  is_Some (info_name info)
  ∧ Forall (λ dep, is_Some (dep_from dep)) (default [] (dependencies info)).

(** An outcome that is a [KeyError]. *)
Definition is_KeyError {A} (o : Outcome A) : Prop := ∃ msg, o = Raise (Exception KeyError msg).

(** Every value [m] returns satisfies [P]. *)
Definition returns {A} (P : A → Prop) (m : M A) : Prop :=
  ∀ st a, (m st).1 = Ok a → P a.

(** The number of lines that can be read from the input before it ends or
    is interrupted. *)
Fixpoint lines_before_end (l : list stdin_event) : nat :=
  match l with
  | Line _ :: l' => S (lines_before_end l')
  | _ => 0
  end.

(** What [info] prints for an entry of the metadata: the title, the files
    to submit in their order, and the dependencies with the source
    assignment and the base name of each. *)
Definition info_lines (env : Env) (assignment name : string) (files : list string)
    (deps : list dependency) : list string :=
  [ line (Py.LF +:+ BOLD env +:+ "Assignment " +:+ assignment +:+ ": " +:+ name +:+ RESET env);
    line (rule 70);
    line (Py.LF +:+ CYAN env +:+ "Files to Submit:" +:+ RESET env) ]
  ++ ((λ file_path, line ("  • " +:+ file_path)) <$> files)
  ++ match deps with
     | [] => [ line (Py.LF +:+ CYAN env +:+ "Dependencies:" +:+ RESET env +:+ " None") ]
     | _ =>
         line (Py.LF +:+ CYAN env +:+ "Dependencies:" +:+ RESET env)
         :: ((λ dep, line ("  • From " +:+ default "" (dep_from dep) +:+ ": "
                           +:+ Py.basename (default "" (dep_file dep)))) <$> deps)
     end.

(** What [main] prints when it catches the user's interrupt. *)
Definition interrupted_line (env : Env) : string :=
  line (Py.LF +:+ Py.LF +:+ YELLOW env +:+ "Operation cancelled by user" +:+ RESET env).

(** What [setup] prints for an entry whose target is modified, up to the
    prompt: the status with the time the probe gave (or [recently]), the
    warning, the options and the prompt itself. *)
Definition prompt_lines (env : Env) (git_status : gmap string string) : list string :=
  [ line ("  Status: 📝 Target file modified " +:+ default "recently" (git_status !! "time"));
    line ("  " +:+ YELLOW env +:+ "⚠ This will overwrite your local changes." +:+ RESET env);
    line "  Options:";
    line "    y - Yes, overwrite this file";
    line "    n - No, skip this file";
    line "    a - All, overwrite this and all remaining files";
    line "    q - Quit setup";
    "  Your choice [y/N/a/q]: " ].

(** ** A sample workspace

    The workspace of the examples: assignments A2 and A3 under [/ws], A3
    depending on a file of A2, and the student 2021001 (Zhang). *)

Module Sample.

Definition root : Path := ["/"; "ws"].

Definition A2_info : assignment_info :=
  {| info_name := Some "Control Flow Graph";
     files_to_submit := Some ["src/CFGBuilder.java"];
     dependencies := None |}.

Definition A3_info : assignment_info :=
  {| info_name := Some "Dataflow Analysis";
     files_to_submit := Some ["src/Solver.java"];
     dependencies := Some [ {| dep_from := Some "A2"; dep_file := Some "src/CFGBuilder.java" |} ] |}.

Definition metadata : gmap string assignment_info := {[ "A2" := A2_info; "A3" := A3_info ]}.

Definition config : gmap string string :=
  {[ "student_id" := "2021001"; "student_name" := "Zhang"; "workspace_root" := "/ws" ]}.

Definition directories : list Path :=
  [ ["/"]; root; root // "scripts";
    root // "A2"; root // "A2/tai-e"; root // "A2/tai-e/src";
    root // "A3"; root // "A3/tai-e"; root // "A3/tai-e/src" ].

(** Metadata and sources are there; no configuration yet, no copy of the
    dependency in A3, no output directory. *)
Definition fresh_tree : FileTree :=
  <[ root // "scripts/assignment_metadata.json" := File (MetadataJson metadata) 0 ]>
  (<[ root // "A2/tai-e/src/CFGBuilder.java" := File (Raw "class CFGBuilder {}") 5 ]>
  (<[ root // "A3/tai-e/src/Solver.java" := File (Raw "class Solver {}") 7 ]>
  (list_to_map ((λ p, (p, Dir 0%Z)) <$> directories)))).

Definition configured_tree : FileTree :=
  <[ root // "scripts/config.json" := File (ConfigJson config) 1 ]> fresh_tree.

(** The configured workspace without the file A3 must submit. *)
Definition unfinished_tree : FileTree :=
  delete (root // "A3/tai-e/src/Solver.java") configured_tree.

(** A child process that prints nothing and succeeds. *)
Definition silent (cmd : list string) (cwd : Path) (t : FileTree) : proc_result * FileTree :=
  (Completed 0 "", t).

Definition env : Env :=
  {| root_dir := root; isatty := false; os_is_nt := false; debug := false;
     now := 100; subprocess_run := silent; archive_size := λ _, 2048%N |}.

Definition state (t : FileTree) (typed : list stdin_event) : State :=
  {| fs := t; stdin := typed; stdout := []; calls := [] |}.

Definition A3 : Args := {| assignment := "A3"; force := false; verbose := false |}.
Definition ZZ : Args := {| assignment := "ZZ"; force := false; verbose := false |}.

(** A fourth assignment that takes one file from A3 and two from A2, the
    last of which A2 does not have, in a workspace where A4 has its own
    copies of the first two. *)
Definition A4_deps : list dependency :=
  [ {| dep_from := Some "A3"; dep_file := Some "src/Solver.java" |};
    {| dep_from := Some "A2"; dep_file := Some "src/CFGBuilder.java" |};
    {| dep_from := Some "A2"; dep_file := Some "src/Missing.java" |} ].

Definition A4_info : assignment_info :=
  {| info_name := Some "Pointer Analysis";
     files_to_submit := Some ["src/PointerAnalysis.java"];
     dependencies := Some A4_deps |}.

Definition edited_tree : FileTree :=
  <[ root // "scripts/assignment_metadata.json" :=
       File (MetadataJson (<[ "A4" := A4_info ]> metadata)) 0 ]>
  (<[ root // "A4/tai-e/src/Solver.java" := File (Raw "class Solver { int mine; }") 50 ]>
  (<[ root // "A4/tai-e/src/CFGBuilder.java" := File (Raw "class CFGBuilder { int mine; }") 60 ]>
  (<[ root // "A4" := Dir 0 ]> (<[ root // "A4/tai-e" := Dir 0 ]>
  (<[ root // "A4/tai-e/src" := Dir 0 ]> configured_tree))))).

(** A [git] that reports every file as modified in the work tree. *)
Definition git_modified (cmd : list string) (cwd : Path) (t : FileTree)
    : proc_result * FileTree :=
  match cmd with
  | "git" :: "status" :: _ => (Completed 0 (" M A4/tai-e/src/Solver.java" +:+ Py.LF), t)
  | "git" :: "log" :: _ => (Completed 0 ("abc1234|2 days ago|Fix the solver" +:+ Py.LF), t)
  | _ => (Completed 0 "", t)
  end.

Definition env_modified : Env :=
  {| root_dir := root; isatty := false; os_is_nt := false; debug := false;
     now := 100; subprocess_run := git_modified; archive_size := λ _, 2048%N |}.

Definition A4 : Args := {| assignment := "A4"; force := false; verbose := false |}.

(** [setup A4] answered with yes, then quit: the state when the loop has
    handled the first entry, and the state at the second prompt. *)
Definition quit_state : State := state edited_tree [Line "y"; Line " Q "].

Definition after_first_entry : State :=
  (setup_loop env_modified "A4" (get_assignment_dir env_modified "A4") 3 1
     [ {| dep_from := Some "A3"; dep_file := Some "src/Solver.java" |} ]
     (setup_start A4)
     (emit (setup_banner env_modified "A4") (log_call "cmd_setup" quit_state))).2.

Definition at_second_prompt : State :=
  (check_git_status env_modified
     (get_assignment_dir env_modified "A4" // "src/CFGBuilder.java")
     (emit (entry_header "A4" 3 2 "A2" "src/CFGBuilder.java") after_first_entry)).2.

End Sample.

(** ** Further sample inputs *)

Module Cases.

(** The configured workspace with the wrapper script of A3. *)
Definition gradle_tree : FileTree :=
  <[ Sample.root // "A3/tai-e/gradlew" := File (Raw "#!/bin/sh") 3 ]> Sample.configured_tree.

(** A child process that fails. *)
Definition failing (cmd : list string) (cwd : Path) (t : FileTree) : proc_result * FileTree :=
  (Completed 1 ("BUILD FAILED" +:+ Py.LF), t).

Definition env_failing : Env :=
  {| root_dir := Sample.root; isatty := false; os_is_nt := false; debug := false;
     now := 100; subprocess_run := failing; archive_size := λ _, 2048%N |}.

(** A metadata entry without a [name], in the place of A4. *)
Definition nameless_info : assignment_info :=
  {| info_name := None;
     files_to_submit := Some ["src/PointerAnalysis.java"];
     dependencies := None |}.

Definition nameless_tree : FileTree :=
  <[ Sample.root // "scripts/assignment_metadata.json" :=
       File (MetadataJson (<[ "A4" := nameless_info ]> Sample.metadata)) 0 ]>
  Sample.fresh_tree.




(** A [git] that runs and fails, as it does outside a repository: exit
    status 128, the message on standard error, nothing on standard
    output. *)
Definition git_not_a_repository (cmd : list string) (cwd : Path) (t : FileTree)
    : proc_result * FileTree :=
  (Completed 128 "", t).

Definition env_no_repository : Env :=
  {| root_dir := Sample.root; isatty := false; os_is_nt := false; debug := false;
     now := 100; subprocess_run := git_not_a_repository; archive_size := λ _, 2048%N |}.

(** A [git] that does not answer within the five seconds it is given. *)
Definition git_times_out (cmd : list string) (cwd : Path) (t : FileTree)
    : proc_result * FileTree :=
  (Errored TimeoutExpired "Command 'git' timed out after 5 seconds", t).

Definition env_timeout : Env :=
  {| root_dir := Sample.root; isatty := false; os_is_nt := false; debug := false;
     now := 100; subprocess_run := git_times_out; archive_size := λ _, 2048%N |}.

(** A child process that prints thirty lines, each ended by a newline, and
    fails. *)
Definition thirty_lines : string :=
  Py.join "" ((λ i, pretty i +:+ Py.LF) <$> seq 1 30).

Definition failing_thirty (cmd : list string) (cwd : Path) (t : FileTree)
    : proc_result * FileTree :=
  (Completed 1 thirty_lines, t).

Definition env_thirty : Env :=
  {| root_dir := Sample.root; isatty := false; os_is_nt := false; debug := false;
     now := 100; subprocess_run := failing_thirty; archive_size := λ _, 2048%N |}.

End Cases.

(** * Properties *)

(** ** Strings and paths *)

Lemma split_nonempty c s : Py.split c s ≠ [].
Proof. destruct s as [|a s]; simpl; [done|]. case_bool_decide; [done|]. by destruct (Py.split c s). Qed.




Lemma string_length_app s t : String.length (s +:+ t) = String.length s + String.length t.
Proof.
  induction s as [|a s IH]; [done|].
  change (String a s +:+ t) with (String a (s +:+ t)). simpl. by rewrite IH.
Qed.




(** ** The monad *)

(** The fields of a state after an update. *)
Create Rewrite HintDb state.

Lemma state_eq (st1 st2 : State) :
  fs st1 = fs st2 → stdin st1 = stdin st2 → stdout st1 = stdout st2 →
  calls st1 = calls st2 → st1 = st2.
Proof. destruct st1, st2. simpl. by intros -> -> -> ->. Qed.

Lemma fs_write_stdout c st : fs (write_stdout c st) = fs st.
Proof. done. Qed.
Lemma fs_set_stdin l st : fs (set_stdin l st) = fs st.
Proof. done. Qed.
Lemma fs_set_fs f st : fs (set_fs f st) = f (fs st).
Proof. done. Qed.
Lemma fs_log_call n st : fs (log_call n st) = fs st.
Proof. done. Qed.
Lemma stdin_write_stdout c st : stdin (write_stdout c st) = stdin st.
Proof. done. Qed.
Lemma stdin_set_stdin l st : stdin (set_stdin l st) = l.
Proof. done. Qed.
Lemma stdin_set_fs f st : stdin (set_fs f st) = stdin st.
Proof. done. Qed.
Lemma stdin_log_call n st : stdin (log_call n st) = stdin st.
Proof. done. Qed.
Lemma stdout_write_stdout c st : stdout (write_stdout c st) = stdout st ++ [c].
Proof. done. Qed.
Lemma stdout_set_stdin l st : stdout (set_stdin l st) = stdout st.
Proof. done. Qed.
Lemma stdout_set_fs f st : stdout (set_fs f st) = stdout st.
Proof. done. Qed.
Lemma stdout_log_call n st : stdout (log_call n st) = stdout st.
Proof. done. Qed.
Lemma calls_write_stdout c st : calls (write_stdout c st) = calls st.
Proof. done. Qed.
Lemma calls_set_stdin l st : calls (set_stdin l st) = calls st.
Proof. done. Qed.
Lemma calls_set_fs f st : calls (set_fs f st) = calls st.
Proof. done. Qed.
Lemma calls_log_call n st : calls (log_call n st) = calls st ++ [n].
Proof. done. Qed.

Global Hint Rewrite fs_write_stdout fs_set_stdin fs_set_fs fs_log_call
  stdin_write_stdout stdin_set_stdin stdin_set_fs stdin_log_call
  stdout_write_stdout stdout_set_stdin stdout_set_fs stdout_log_call
  calls_write_stdout calls_set_stdin calls_set_fs calls_log_call : state.

(** A pair is known once its first component is. *)
Lemma pair_eta_fst {A B} (x : A * B) (a : A) : x.1 = a → x = (a, x.2).
Proof. intros <-. by destruct x. Defined.

Lemma bind_unfold {A B} (m : M A) (f : A → M B) st :
  (m ≫= f) st =
    match m st with
    | (Ok a, st') => f a st'
    | (Raise e, st') => (Raise e, st')
    end.
Proof. done. Qed.

Lemma bind_Ok {A B} (m : M A) (f : A → M B) st a st' :
  m st = (Ok a, st') → (m ≫= f) st = f a st'.
Proof. intros E. by rewrite bind_unfold, E. Qed.

Lemma bind_Raise {A B} (m : M A) (f : A → M B) st e st' :
  m st = (Raise e, st') → (m ≫= f) st = (Raise e, st').
Proof. intros E. by rewrite bind_unfold, E. Qed.

Lemma print_run s st : print s st = (Ok tt, write_stdout (s +:+ Py.LF) st).
Proof. done. Qed.

Lemma enter_run name st : enter name st = (Ok tt, log_call name st).
Proof. done. Qed.

Lemma ret_run {A} (a : A) st : (mret a : M A) st = (Ok a, st).
Proof. done. Qed.

(** Run the prints and the binds at the head of a computation. *)
Ltac mrun :=
  repeat first [ rewrite print_run | rewrite enter_run | rewrite ret_run
               | rewrite bind_unfold | progress cbv beta iota ].

Lemma emit_emit o1 o2 st : emit o2 (emit o1 st) = emit (o1 ++ o2) st.
Proof. unfold emit. by rewrite foldl_app. Qed.

Lemma emit_nil st : emit [] st = st.
Proof. done. Qed.

Lemma emit_fields out st :
  fs (emit out st) = fs st ∧ stdin (emit out st) = stdin st
  ∧ stdout (emit out st) = stdout st ++ out ∧ calls (emit out st) = calls st.
Proof.
  revert st. induction out as [|c out IH]; intros st.
  - simpl. by rewrite (right_id_L [] (++)).
  - change (emit (c :: out) st) with (emit out (write_stdout c st)).
    destruct (IH (write_stdout c st)) as (-> & -> & -> & ->). simpl.
    by rewrite <- (assoc_L (++)).
Qed.

Lemma fs_emit out st : fs (emit out st) = fs st.
Proof. apply emit_fields. Qed.

Lemma stdout_emit out st : stdout (emit out st) = stdout st ++ out.
Proof. apply emit_fields. Qed.

Lemma sys_exit_fatal {A} : fatal (A := A) (Raise (SystemExit 1)).
Proof. by left. Qed.

Lemma exception_fatal {A} cls msg : fatal (A := A) (Raise (Exception cls msg)).
Proof. right. by eexists _, _. Qed.




(** ** Loading the two documents *)

Lemma json_load_failure_run {A} p st :
  ∃ cls msg, Json.load_failure (A := A) p st = (Raise (Exception cls msg), st).
Proof. unfold Json.load_failure. destruct (fs st !! p) as [[]|]; by eexists _, _. Qed.

Lemma load_config_cases env st :
  (∃ c t, fs st !! config_file env = Some (File (ConfigJson c) t)
          ∧ load_config env st = (Ok c, st))
  ∨ (∃ o out, load_config env st = (o, emit out st) ∧ fatal o).
Proof.
  unfold load_config, Fs.exists_. rewrite bind_unfold. unfold gets.
  destruct (fs st !! config_file env) as [n|] eqn:E; simpl.
  - unfold Json.load_config. rewrite E.
    destruct n as [[]|]; try (left; by eexists _, _);
      right; destruct (json_load_failure_run (A := gmap string string) (config_file env) st)
        as (cls & msg & ->); exists (Raise (Exception cls msg)), [];
      rewrite emit_nil; split; try done; apply exception_fatal.
  - right. eexists _, [_]. split; [done|apply sys_exit_fatal].
Qed.


Lemma load_metadata_Ok env st m t :
  fs st !! metadata_file env = Some (File (MetadataJson m) t) →
  load_metadata env st = (Ok m, st).
Proof.
  intros E. unfold load_metadata, Fs.exists_. rewrite bind_unfold. unfold gets.
  rewrite E. simpl. unfold Json.load_metadata. by rewrite E.
Qed.

Lemma load_config_Ok env st c t :
  fs st !! config_file env = Some (File (ConfigJson c) t) →
  load_config env st = (Ok c, st).
Proof.
  intros E. unfold load_config, Fs.exists_. rewrite bind_unfold. unfold gets.
  rewrite E. simpl. unfold Json.load_config. by rewrite E.
Qed.

Lemma getitem_cases {A} key (v : option A) st :
  (∃ a, v = Some a ∧ getitem key v st = (Ok a, st))
  ∨ (v = None ∧ getitem key v st = (Raise (Exception KeyError (Py.repr key)), st)).
Proof. destruct v; [left; by eexists|by right]. Qed.

(** ** The packager: what happens before the archive is opened *)



(** The first loop of [cmd_package] only looks at the tree: it sorts the
    declared files into those present and those missing. *)
Lemma collect_files_run env adir files acc miss st :
  ∃ out, collect_files env adir files acc miss st =
    (Ok (acc ++ ((λ f, (adir // f, f)) <$> filter (λ f, is_Some (fs st !! (adir // f))) files),
         miss ++ filter (λ f, ¬ is_Some (fs st !! (adir // f))) files),
     emit out st).
Proof.
  revert acc miss st. induction files as [|f files IH]; intros acc miss st.
  - exists []. rewrite !filter_nil, fmap_nil, !(right_id_L [] (++)). done.
  - simpl. rewrite bind_unfold. unfold Fs.exists_, gets.
    destruct (decide (is_Some (fs st !! (adir // f)))) as [Hf|Hf].
    + rewrite bool_decide_true by done. rewrite bind_unfold, print_run.
      destruct (IH (acc ++ [(adir // f, f)]) miss (write_stdout
        ((GREEN env +:+ "✓" +:+ RESET env +:+ " " +:+ Py.basename f) +:+ Py.LF) st))
        as (out & ->).
      eexists (_ :: out). rewrite filter_cons_True by done.
      rewrite filter_cons_False by tauto. rewrite fmap_cons, <- (assoc_L (++)). done.
    + rewrite bool_decide_false by done. rewrite bind_unfold, print_run.
      destruct (IH acc (miss ++ [f]) (write_stdout
        ((RED env +:+ "✗" +:+ RESET env +:+ " " +:+ Py.basename f +:+ " (not found)") +:+ Py.LF) st))
        as (out & ->).
      eexists (_ :: out). rewrite filter_cons_False by done.
      rewrite filter_cons_True by done. rewrite <- (assoc_L (++)). done.
Qed.


Lemma string_app_assoc (s t u : string) : s +:+ t +:+ u = (s +:+ t) +:+ u.
Proof.
  induction s as [|a s IH]; [done|].
  change (String a s +:+ t +:+ u) with (String a (s +:+ t +:+ u)). by rewrite IH.
Qed.

Lemma string_app_cons a (s t : string) : String a s +:+ t = String a (s +:+ t).
Proof. done. Qed.

Lemma string_app_nil_l (s : string) : "" +:+ s = s.
Proof. done. Qed.





Lemma mkdir_present clock p st t :
  fs st !! p = Some (Dir t) → Fs.mkdir clock p st = (Ok tt, st).
Proof. intros E. unfold Fs.mkdir. by rewrite E. Qed.

Lemma mkdir_absent clock p st t :
  fs st !! p = None → fs st !! PathLib.parent p = Some (Dir t) →
  Fs.mkdir clock p st = (Ok tt, set_fs <[p := Dir clock]> st).
Proof. intros E1 E2. unfold Fs.mkdir, Fs.create. by rewrite E1, E2. Qed.

(** C5, as the code has it.  [cmd_package] creates the output directory
    before it looks for the declared files.  When the run reaches the check
    (configuration and metadata load, the assignment is known, the output
    directory exists or can be created) and a declared file is missing, the
    run ends with [sys.exit(1)], the output directory is in place
    afterwards, newly created if it was absent, and nothing else in the
    tree has changed. *)
Theorem package_missing_file_output_dir env args st md t c tc info files p sid sname :
  fs st !! config_file env = Some (File (ConfigJson c) tc) →
  fs st !! metadata_file env = Some (File (MetadataJson md) t) →
  md !! assignment args = Some info →
  c !! "student_id" = Some sid →
  c !! "student_name" = Some sname →
  (∃ td, fs st !! output_dir env = Some (Dir td))
    ∨ (fs st !! output_dir env = None ∧ ∃ tr, fs st !! PathLib.parent (output_dir env) = Some (Dir tr)) →
  files_to_submit info = Some files →
  p ∈ files →
  fs st !! (get_assignment_dir env (assignment args) // p) = None →
  get_assignment_dir env (assignment args) // p ≠ output_dir env →
  ∃ st', cmd_package env args st = (Raise (SystemExit 1), st')
    ∧ (∃ td, fs st' !! output_dir env = Some (Dir td))
    ∧ (∀ q, q ≠ output_dir env → fs st' !! q = fs st !! q)
    ∧ (is_Some (fs st !! output_dir env) → fs st' = fs st)
    ∧ (fs st !! output_dir env = None →
       fs st' = <[output_dir env := Dir (now env)]> (fs st)).
Proof.
  intros Hconf Hmeta Hinfo Hsid Hsname Hout Hfiles Hp Habsent Hne.
  unfold cmd_package. rewrite bind_unfold, enter_run.
  set (st1 := log_call "cmd_package" st).
  rewrite bind_unfold, (load_config_Ok env st1 c tc) by done.
  rewrite bind_unfold, (load_metadata_Ok env st1 md t) by done.
  rewrite Hinfo, Hsid, Hsname. rewrite bind_unfold. simpl getitem. unfold mret at 1, M_ret at 1.
  rewrite bind_unfold. unfold mret at 1, M_ret at 1.
  rewrite bind_unfold, print_run, bind_unfold, print_run, bind_unfold.
  match goal with |- context [Fs.mkdir _ _ ?s] => set (st2 := s) end.
  assert (∃ st3 td, Fs.mkdir (now env) (output_dir env) st2 = (Ok tt, st3)
            ∧ fs st3 !! output_dir env = Some (Dir td)
            ∧ (∀ q, q ≠ output_dir env → fs st3 !! q = fs st !! q)
            ∧ (is_Some (fs st !! output_dir env) → fs st3 = fs st)
            ∧ (fs st !! output_dir env = None →
               fs st3 = <[output_dir env := Dir (now env)]> (fs st)))
    as (st3 & td & -> & Hd3 & Hframe & Hsame & Hnew).
  { destruct Hout as [[td Hd]|[Hd [tr Hr]]].
    - exists st2, td. rewrite (mkdir_present _ _ st2 td) by done.
      repeat split; try done. intros E. change (fs st2) with (fs st) in E. congruence.
    - eexists _, _. rewrite (mkdir_absent _ _ st2 tr) by done.
      change (fs (set_fs <[output_dir env := Dir (now env)]> st2))
        with (<[output_dir env := Dir (now env)]> (fs st)).
      split; [done|]. split; [apply lookup_insert_eq|].
      split; [intros q Hq; by apply lookup_insert_ne|].
      split; [|done]. rewrite Hd. by intros [? ?]. }
  rewrite Hfiles. rewrite bind_unfold. simpl getitem. unfold mret at 1, M_ret at 1.
  rewrite bind_unfold.
  destruct (collect_files_run env (get_assignment_dir env (assignment args)) files [] [] st3)
    as (out & ->).
  destruct (filter (λ f : string, ¬ is_Some (fs st3 !! (_ // f))) files)
    as [|m ms] eqn:Hfilter.
  { exfalso. apply (filter_nil_not_elem_of _ _ p Hfilter); [|done].
    rewrite Hframe, Habsent by done. by intros [? ?]. }
  change ([] ++ m :: ms) with (m :: ms). cbv iota beta.
  rewrite bind_unfold, print_run. eexists. split; [done|].
  change (fs (write_stdout ?s ?x)) with (fs x). rewrite fs_emit. eauto.
Qed.

Lemma package_missing_file_output_dir_witness :
  ∃ st', cmd_package Sample.env Sample.A3 (Sample.state Sample.unfinished_tree [])
           = (Raise (SystemExit 1), st')
    ∧ (∃ td, fs st' !! output_dir Sample.env = Some (Dir td))
    ∧ (∀ q, q ≠ output_dir Sample.env → fs st' !! q = Sample.unfinished_tree !! q)
    ∧ (is_Some (Sample.unfinished_tree !! output_dir Sample.env)
       → fs st' = Sample.unfinished_tree)
    ∧ (Sample.unfinished_tree !! output_dir Sample.env = None →
       fs st' = <[output_dir Sample.env := Dir 100]> Sample.unfinished_tree).
Proof.
  apply (package_missing_file_output_dir Sample.env Sample.A3
           (Sample.state Sample.unfinished_tree []) Sample.metadata 0 Sample.config 1
           Sample.A3_info ["src/Solver.java"] "src/Solver.java" "2021001" "Zhang").
  - vm_compute. reflexivity.
  - vm_compute. reflexivity.
  - vm_compute. reflexivity.
  - vm_compute. reflexivity.
  - vm_compute. reflexivity.
  - right. split; [vm_compute; reflexivity|]. exists 0%Z. vm_compute. reflexivity.
  - reflexivity.
  - apply list_elem_of_here.
  - vm_compute. reflexivity.
  - vm_compute. discriminate.
Defined.

(** C5, as the claim has it, fails: on the sample workspace without its
    submission file and without an output directory, [package] reports the
    missing file, exits with status 1, and has created the output
    directory. *)
Lemma package_missing_file_creates_output_dir :
  (run_script Sample.env Package Sample.A3 (Sample.state Sample.unfinished_tree [])).1 = 1%Z
  ∧ last (stdout (run_script Sample.env Package Sample.A3
                    (Sample.state Sample.unfinished_tree [])).2)
    = Some (Py.LF +:+ "✗ Cannot package: 1 file(s) missing" +:+ Py.LF)
  ∧ Sample.unfinished_tree !! output_dir Sample.env = None
  ∧ fs (run_script Sample.env Package Sample.A3 (Sample.state Sample.unfinished_tree [])).2
      !! output_dir Sample.env = Some (Dir 100).
Proof. vm_compute. repeat split; reflexivity. Qed.

(** ** Unknown assignment ids *)

(** [info] names the valid ids before it exits. *)
Lemma info_invalid_assignment env args st md t :
  fs st !! metadata_file env = Some (File (MetadataJson md) t) →
  md !! assignment args = None →
  cmd_info env args st =
    (Raise (SystemExit 1),
     emit [ line (RED env +:+ "✗ Invalid assignment: " +:+ assignment args +:+ RESET env);
            line ("  Valid assignments: " +:+ Py.join ", " (metadata_keys md)) ]
          (log_call "cmd_info" st)).
Proof.
  intros Hmeta Hnone. unfold cmd_info. rewrite bind_unfold, enter_run.
  rewrite bind_unfold, (load_metadata_Ok env _ md t) by done. by rewrite Hnone.
Qed.

(** [setup] exits as well, and prints the one line about the invalid id. *)
Lemma setup_invalid_assignment env args st md t :
  fs st !! metadata_file env = Some (File (MetadataJson md) t) →
  md !! assignment args = None →
  cmd_setup env args st =
    (Raise (SystemExit 1),
     emit [ line (RED env +:+ "✗ Invalid assignment: " +:+ assignment args +:+ RESET env) ]
          (log_call "cmd_setup" st)).
Proof.
  intros Hmeta Hnone. unfold cmd_setup. rewrite bind_unfold, enter_run.
  rewrite bind_unfold, (load_metadata_Ok env _ md t) by done. by rewrite Hnone.
Qed.

(** So does [package], once the configuration is loaded. *)
Lemma package_invalid_assignment env args st c tc md t :
  fs st !! config_file env = Some (File (ConfigJson c) tc) →
  fs st !! metadata_file env = Some (File (MetadataJson md) t) →
  md !! assignment args = None →
  cmd_package env args st =
    (Raise (SystemExit 1),
     emit [ line (RED env +:+ "✗ Invalid assignment: " +:+ assignment args +:+ RESET env) ]
          (log_call "cmd_package" st)).
Proof.
  intros Hconf Hmeta Hnone. unfold cmd_package. rewrite bind_unfold, enter_run.
  rewrite bind_unfold, (load_config_Ok env _ c tc) by done.
  rewrite bind_unfold, (load_metadata_Ok env _ md t) by done. by rewrite Hnone.
Qed.

(** C3 on the sample workspace, for the id [ZZ] that the metadata does not
    have: the three commands exit with status 1; [info] lists the valid
    ids, [setup] and [package] print the line about the invalid id and
    nothing else. *)
Theorem invalid_assignment_on_sample :
  run_script Sample.env Info Sample.ZZ (Sample.state Sample.configured_tree [])
    = (1%Z, {| fs := Sample.configured_tree; stdin := [];
               stdout := [ "✗ Invalid assignment: ZZ" +:+ Py.LF;
                           "  Valid assignments: A2, A3" +:+ Py.LF ];
               calls := ["cmd_info"] |})
  ∧ run_script Sample.env Setup Sample.ZZ (Sample.state Sample.configured_tree [])
    = (1%Z, {| fs := Sample.configured_tree; stdin := [];
               stdout := [ "✗ Invalid assignment: ZZ" +:+ Py.LF ];
               calls := ["cmd_setup"] |})
  ∧ run_script Sample.env Package Sample.ZZ (Sample.state Sample.configured_tree [])
    = (1%Z, {| fs := Sample.configured_tree; stdin := [];
               stdout := [ "✗ Invalid assignment: ZZ" +:+ Py.LF ];
               calls := ["cmd_package"] |}).
Proof.
  assert (Sample.configured_tree !! metadata_file Sample.env
          = Some (File (MetadataJson Sample.metadata) 0)) as Hmeta.
  { vm_compute. reflexivity. }
  assert (Sample.configured_tree !! config_file Sample.env
          = Some (File (ConfigJson Sample.config) 1)) as Hconf.
  { vm_compute. reflexivity. }
  assert (Sample.metadata !! "ZZ" = None) as Hnone.
  { vm_compute. reflexivity. }
  unfold run_script, main, dispatch. split; [|split].
  - by rewrite (info_invalid_assignment Sample.env Sample.ZZ _ Sample.metadata 0).
  - by rewrite (setup_invalid_assignment Sample.env Sample.ZZ _ Sample.metadata 0).
  - by rewrite (package_invalid_assignment Sample.env Sample.ZZ _
                  Sample.config 1 Sample.metadata 0).
Qed.

(** ** Interrupts *)

(** [SystemExit] passes through the [try] statement of [main]. *)
Lemma main_SystemExit env c args st code st1 :
  dispatch env c args st = (Raise (SystemExit code), st1) →
  main env c args st = (Raise (SystemExit code), st1).
Proof. intros E. unfold main. by rewrite E. Qed.

Lemma main_Ok env c args st st1 :
  dispatch env c args st = (Ok tt, st1) → main env c args st = (Ok tt, st1).
Proof. intros E. unfold main. by rewrite E. Qed.

(** ** The ghost log of commands *)

Create HintDb kc discriminated.

Lemma kc_ret {A} (a : A) : keeps_calls (mret a).
Proof. by intros st. Qed.

Lemma kc_raise {A} e : keeps_calls (raise (A := A) e).
Proof. by intros st. Qed.

Lemma kc_sys_exit {A} code : keeps_calls (sys_exit (A := A) code).
Proof. by intros st. Qed.

Lemma kc_gets {A} (f : State → A) : keeps_calls (gets f).
Proof. by intros st. Qed.

Lemma kc_bind {A B} (m : M A) (f : A → M B) :
  keeps_calls m → (∀ a, keeps_calls (f a)) → keeps_calls (m ≫= f).
Proof.
  intros Hm Hf st. rewrite bind_unfold. specialize (Hm st).
  destruct (m st) as [[a|e] st1]; simpl in *; [|done].
  by rewrite (Hf a st1).
Qed.

Lemma kc_try_except {A} (body : M A) handler :
  keeps_calls body → (∀ cls msg, keeps_calls (handler cls msg)) →
  keeps_calls (try_except body handler).
Proof.
  intros Hb Hh st. unfold try_except. specialize (Hb st).
  destruct (body st) as [[a|[| |cls msg]] st1]; simpl in *; try done.
  by rewrite (Hh cls msg st1).
Qed.

Lemma kc_print s : keeps_calls (print s).
Proof. by intros st. Qed.

Lemma kc_print_noend s : keeps_calls (print_noend s).
Proof. by intros st. Qed.

Lemma kc_set_fs f : keeps_calls (modify (set_fs f)).
Proof. by intros st. Qed.

Lemma kc_readline : keeps_calls readline.
Proof. intros st. unfold readline. by destruct (stdin st) as [|[]]. Qed.

Lemma kc_getitem {A} key (v : option A) : keeps_calls (getitem key v).
Proof. by destruct v. Qed.

Lemma kc_oserror {A} cls errno what p : keeps_calls (Fs.oserror (A := A) cls errno what p).
Proof. by intros st. Qed.

Lemma kc_exists p : keeps_calls (Fs.exists_ p).
Proof. by intros st. Qed.

Lemma kc_create p n : keeps_calls (Fs.create p n).
Proof. intros st. unfold Fs.create. by destruct (fs st !! PathLib.parent p) as [[]|]. Qed.

Lemma kc_mkdir clock p : keeps_calls (Fs.mkdir clock p).
Proof.
  intros st. unfold Fs.mkdir. destruct (fs st !! p) as [[]|]; try done. apply kc_create.
Qed.

Lemma kc_write_file clock p data : keeps_calls (Fs.write_file clock p data).
Proof.
  intros st. unfold Fs.write_file. destruct (fs st !! p) as [[]|]; try done; apply kc_create.
Qed.

Lemma kc_st_mtime p : keeps_calls (Fs.st_mtime p).
Proof. intros st. unfold Fs.st_mtime. by destruct (fs st !! p) as [[]|]. Qed.

Lemma kc_copy2 src dst : keeps_calls (Fs.copy2 src dst).
Proof.
  intros st. unfold Fs.copy2. case_bool_decide; [done|].
  destruct (fs st !! src) as [[]|]; try done.
  match goal with |- context [fs st !! ?q] => destruct (fs st !! q) as [[]|] end;
    try done; apply kc_create.
Qed.

Lemma kc_load_failure {A} p : keeps_calls (Json.load_failure (A := A) p).
Proof. intros st. unfold Json.load_failure. by destruct (fs st !! p) as [[]|]. Qed.

Lemma kc_json_load_config p : keeps_calls (Json.load_config p).
Proof.
  intros st. unfold Json.load_config.
  destruct (fs st !! p) as [[[]|]|]; try done; apply kc_load_failure.
Qed.

Lemma kc_json_load_metadata p : keeps_calls (Json.load_metadata p).
Proof.
  intros st. unfold Json.load_metadata.
  destruct (fs st !! p) as [[[]|]|]; try done; apply kc_load_failure.
Qed.

Lemma kc_run env cmd cwd : keeps_calls (run env cmd cwd).
Proof.
  intros st. unfold run. destruct (subprocess_run env cmd cwd (fs st)) as [[] t]; done.
Qed.

Global Hint Resolve kc_ret kc_raise kc_sys_exit kc_gets kc_print kc_print_noend kc_set_fs
  kc_readline kc_getitem kc_oserror kc_exists kc_create kc_mkdir kc_write_file kc_st_mtime
  kc_copy2 kc_load_failure kc_json_load_config kc_json_load_metadata kc_run : kc.

(** Walk through a computation built from the calls above. *)
Ltac kc_step :=
  match goal with
  | |- keeps_calls (_ ≫= _) => apply kc_bind; [|intros]
  | |- keeps_calls (try_except _ _) => apply kc_try_except; [|intros]
  | |- keeps_calls (if ?b then _ else _) => destruct b
  | |- keeps_calls (match ?x with _ => _ end) => destruct x
  | |- keeps_calls _ => solve [auto with kc]
  end.
Ltac kc := repeat kc_step.

Lemma kc_makedirs_from clock pre rest : keeps_calls (Fs.makedirs_from clock pre rest).
Proof. revert pre. induction rest as [|c rest IH]; intros pre; simpl; kc. Qed.

Lemma kc_makedirs clock p : keeps_calls (Fs.makedirs clock p).
Proof. apply kc_makedirs_from. Qed.

Lemma kc_zip_open clock p : keeps_calls (Zip.open_w clock p).
Proof. apply kc_write_file. Qed.

Lemma kc_zip_write clock p written source name :
  keeps_calls (Zip.write clock p written source name).
Proof. unfold Zip.write. kc. Qed.

Global Hint Resolve kc_makedirs kc_zip_open kc_zip_write : kc.

Lemma kc_load_config env : keeps_calls (load_config env).
Proof. unfold load_config. kc. Qed.

Lemma kc_load_metadata env : keeps_calls (load_metadata env).
Proof. unfold load_metadata. kc. Qed.

Lemma kc_collect_files env adir files acc miss :
  keeps_calls (collect_files env adir files acc miss).
Proof. revert acc miss. induction files as [|f files IH]; intros acc miss; simpl; kc. Qed.

Lemma kc_write_entries env zip_path files written :
  keeps_calls (write_entries env zip_path files written).
Proof.
  revert written. induction files as [|[source arcname] files IH]; intros written; simpl; kc.
Qed.

Global Hint Resolve kc_load_config kc_load_metadata kc_collect_files kc_write_entries : kc.

(** Each command logs itself once; [cmd_test] and [cmd_package] enter no
    other command. *)
Lemma cmd_test_calls env args st :
  calls (cmd_test env args st).2 = calls st ++ ["cmd_test"].
Proof.
  unfold cmd_test. rewrite bind_unfold, enter_run.
  match goal with |- calls (?m ?s).2 = _ => assert (keeps_calls m) as H end.
  { kc. }
  by rewrite H.
Qed.

Lemma cmd_package_calls env args st :
  calls (cmd_package env args st).2 = calls st ++ ["cmd_package"].
Proof.
  unfold cmd_package. rewrite bind_unfold, enter_run.
  match goal with |- calls (?m ?s).2 = _ => assert (keeps_calls m) as H end.
  { unfold invalid_assignment. kc. }
  by rewrite H.
Qed.

(** ** Which exceptions leave a computation *)

Create HintDb rs discriminated.

Lemma rs_ret {A} E (a : A) : raises E (mret a).
Proof. by intros st e. Qed.

Lemma rs_gets {A} E (f : State → A) : raises E (gets f).
Proof. by intros st e. Qed.

Lemma rs_modify E f : raises E (modify f).
Proof. by intros st e. Qed.

Lemma rs_print E s : raises E (print s).
Proof. by intros st e. Qed.

Lemma rs_print_noend E s : raises E (print_noend s).
Proof. by intros st e. Qed.

Lemma rs_exists E p : raises E (Fs.exists_ p).
Proof. by intros st e. Qed.

Lemma rs_raise {A} (E : exn → Prop) e : E e → raises E (raise (A := A) e).
Proof. intros He st e' [= <-]. done. Qed.

Lemma rs_sys_exit {A} (E : exn → Prop) code : E (SystemExit code) → raises E (sys_exit (A := A) code).
Proof. apply rs_raise. Qed.

Lemma rs_bind {A B} E (m : M A) (f : A → M B) :
  raises E m → (∀ a, raises E (f a)) → raises E (m ≫= f).
Proof.
  intros Hm Hf st e. rewrite bind_unfold. specialize (Hm st).
  destruct (m st) as [[a|e'] st1]; simpl in *.
  - apply Hf.
  - intros [= <-]. by apply Hm.
Qed.

Lemma rs_weaken {A} (E E' : exn → Prop) (m : M A) :
  (∀ e, E e → E' e) → raises E m → raises E' m.
Proof. intros H Hm st e He. eapply H, Hm, He. Qed.

(** [except Exception] lets through what is no [Exception]. *)
Lemma rs_try_except {A} (E E' : exn → Prop) (body : M A) handler :
  raises E' body →
  (∀ e, E' e → is_Exception e ∨ E e) →
  (∀ cls msg, raises E (handler cls msg)) →
  raises E (try_except body handler).
Proof.
  intros Hb HE Hh st e. unfold try_except. specialize (Hb st).
  destruct (body st) as [[a|[code| |cls msg]] st1]; simpl in *; try done.
  - intros [= <-]. destruct (HE _ (Hb _ eq_refl)) as [(? & ? & [=])|]; done.
  - intros [= <-]. destruct (HE _ (Hb _ eq_refl)) as [(? & ? & [=])|]; done.
  - apply Hh.
Qed.

Lemma rs_oserror {A} (E : exn → Prop) cls errno what p :
  (∀ e, is_Exception e → E e) → raises E (Fs.oserror (A := A) cls errno what p).
Proof. intros H. apply rs_raise, H. by eexists _, _. Qed.

Lemma rs_getitem {A} (E : exn → Prop) key (v : option A) :
  (∀ e, is_Exception e → E e) → raises E (getitem key v).
Proof. intros H. destruct v; [apply rs_ret|]. apply rs_raise, H. by eexists _, _. Qed.

(** [subprocess.run] raises what the environment makes it raise: an
    [Exception] or the user's interrupt. *)
Lemma rs_run env (E : exn → Prop) cmd cwd :
  (∀ e, is_Exception e → E e) → E KeyboardInterrupt → raises E (run env cmd cwd).
Proof.
  intros H Hk st e. unfold run.
  destruct (subprocess_run env cmd cwd (fs st)) as [[] t]; simpl; intros [= <-]; [|done].
  apply H. by eexists _, _.
Qed.

Lemma rs_readline (E : exn → Prop) :
  (∀ e, is_Exception e → E e) → E KeyboardInterrupt → raises E readline.
Proof.
  intros H Hk st e. unfold readline.
  destruct (stdin st) as [|[] ?]; simpl; intros [= <-]; [|done].
  apply H. by eexists _, _.
Qed.

Global Hint Resolve rs_ret rs_gets rs_modify rs_print rs_print_noend rs_exists : rs.

Ltac rs_step :=
  match goal with
  | |- raises _ (_ ≫= _) => apply rs_bind; [|intros]
  | |- raises _ (if ?b then _ else _) => destruct b
  | |- raises _ (match ?x with _ => _ end) => destruct x
  | |- raises _ _ => solve [auto with rs]
  end.
Ltac rs := repeat rs_step.

(** ** The test runner and the submit orchestrator *)

(** [cmd_test] returns a verdict, or exits with status 1 (no assignment
    directory, no wrapper), or is interrupted. *)
Lemma cmd_test_raises env args :
  raises (λ e, e = SystemExit 1 ∨ e = KeyboardInterrupt) (cmd_test env args).
Proof.
  unfold cmd_test, enter. rs; try (apply rs_sys_exit; by left).
  apply rs_try_except with (E' := λ e, is_Exception e ∨ e = KeyboardInterrupt).
  - rs. apply rs_run; auto.
  - intros e [?| ->]; auto.
  - intros cls msg. rs.
Qed.

(** The verdict follows the child process. *)
Lemma cmd_test_child env args st r t' :
  let assignment_dir := get_assignment_dir env (assignment args) in
  let gradle_wrapper :=
    assignment_dir // (if os_is_nt env then "gradlew.bat" else "gradlew") in
  is_Some (fs st !! assignment_dir) →
  is_Some (fs st !! gradle_wrapper) →
  subprocess_run env [PathLib.str gradle_wrapper; "test"; "--console=plain"]
    assignment_dir (fs st) = (r, t') →
  (cmd_test env args st).1 =
    match r with
    | Completed returncode _ => Ok (bool_decide (returncode = 0%Z))
    | Errored _ _ => Ok false
    | Interrupted => Raise KeyboardInterrupt
    end.
Proof.
  intros adir wrapper Hdir Hwrapper Hrun.
  unfold cmd_test. rewrite bind_unfold, enter_run. rewrite bind_unfold.
  unfold Fs.exists_ at 1, gets at 1.
  change (fs (log_call "cmd_test" st)) with (fs st).
  fold adir. rewrite (bool_decide_true _ Hdir). cbn [negb].
  rewrite bind_unfold, print_run, bind_unfold, print_run, bind_unfold.
  unfold Fs.exists_ at 1, gets at 1.
  assert (adir // Py.lstrip_chars ["."; "/"]%char
            (if os_is_nt env then "gradlew.bat" else "./gradlew") = wrapper) as ->.
  { unfold wrapper. by destruct (os_is_nt env). }
  match goal with |- context [bool_decide (is_Some (fs ?s !! wrapper))] =>
    change (fs s) with (fs st) end.
  rewrite (bool_decide_true _ Hwrapper). cbn [negb].
  rewrite bind_unfold, print_run, bind_unfold, print_run.
  unfold try_except. rewrite bind_unfold. unfold run at 1.
  match goal with |- context [subprocess_run env _ adir (fs ?s)] =>
    change (fs s) with (fs st) end.
  rewrite Hrun. destruct r as [rc out|cls msg|]; [|done..].
  destruct (bool_decide (rc = 0%Z)).
  - mrun. unfold Fs.exists_ at 1, gets at 1. mrun.
    cbn [fs write_stdout set_fs log_call].
    by destruct (bool_decide (is_Some (t' !! _))).
  - mrun.
    destruct (negb (verbose args) && truthy out); mrun;
      unfold Fs.exists_ at 1, gets at 1; mrun;
      cbn [fs write_stdout set_fs log_call];
      by destruct (bool_decide (is_Some (t' !! _))).
Qed.


(** C2.  [submit] enters the packager exactly when the test runner returns
    success: the ghost log of the run is [cmd_submit], [cmd_test] and, only
    then, [cmd_package], and [submit] goes on as [cmd_package] does.  In
    every other case the run ends with exit status 1; this is the case when
    the child process of the test runner exits with a non-zero code, or
    cannot be run. *)
Theorem submit_packages_iff_tests_pass env args st :
  let st0 := emit [ line (BOLD env +:+ "Submitting " +:+ assignment args +:+ "..." +:+ RESET env);
                    line (rule 70) ] (log_call "cmd_submit" st) in
  let test := cmd_test env args st0 in
  let assignment_dir := get_assignment_dir env (assignment args) in
  let gradle_wrapper :=
    assignment_dir // (if os_is_nt env then "gradlew.bat" else "gradlew") in
  calls (run_script env Submit args st).2 =
    calls st ++ ["cmd_submit"; "cmd_test"]
             ++ (if reports_success test.1 then ["cmd_package"] else [])
  ∧ (test.1 = Ok true →
     cmd_submit env args st =
       cmd_package env args
         (emit [ line (Py.LF +:+ BOLD env +:+ "Tests passed! Proceeding with packaging..."
                       +:+ RESET env +:+ Py.LF) ] test.2))
  ∧ (test.1 ≠ Ok true → (run_script env Submit args st).1 = 1%Z)
  ∧ (∀ r t', is_Some (fs st !! assignment_dir) → is_Some (fs st !! gradle_wrapper) →
       subprocess_run env [PathLib.str gradle_wrapper; "test"; "--console=plain"]
         assignment_dir (fs st) = (r, t') →
       (∀ out, r ≠ Completed 0 out) →
       test.1 ≠ Ok true).
Proof.
  intros st0 test adir wrapper.
  assert (cmd_submit env args st =
            match test with
            | (Ok true, st1) =>
                cmd_package env args
                  (emit [ line (Py.LF +:+ BOLD env +:+ "Tests passed! Proceeding with packaging..."
                                +:+ RESET env +:+ Py.LF) ] st1)
            | (Ok false, st1) =>
                (Raise (SystemExit 1),
                 emit [ line (Py.LF +:+ RED env +:+ "✗ Tests failed. Cannot package for submission."
                              +:+ RESET env);
                        line "  Fix the failing tests and try again." ] st1)
            | (Raise e, st1) => (Raise e, st1)
            end) as Hsubmit.
  { unfold cmd_submit. rewrite bind_unfold, enter_run, bind_unfold, print_run,
      bind_unfold, print_run, bind_unfold.
    change (write_stdout _ (write_stdout _ (log_call "cmd_submit" st))) with st0.
    fold test. by destruct test as [[[]|e] st1]. }
  pose proof (cmd_test_calls env args st0) as Hcalls. fold test in Hcalls.
  change (calls st0) with (calls st ++ ["cmd_submit"]) in Hcalls.
  pose proof (cmd_test_raises env args st0) as Hraises. fold test in Hraises.
  assert (∀ o st1, cmd_submit env args st = (o, st1) →
            calls (run_script env Submit args st).2 = calls st1
            ∧ (fatal o ∨ o = Raise KeyboardInterrupt →
               (run_script env Submit args st).1 = 1%Z)) as Hmain.
  { intros o st1 E. unfold run_script, main. simpl dispatch. rewrite E.
    destruct o as [[]|[code| |cls msg]]; simpl.
    - split; [done|]. by intros [[[=]|(? & ? & [=])]|[=]].
    - split; [done|]. intros [[[= ->]|(? & ? & [=])]|[=]]. done.
    - done.
    - by destruct (debug env). }
  repeat split.
  - destruct test as [[[]|e] st1] eqn:Etest; cbn [fst snd reports_success] in *.
    + pose proof (cmd_package_calls env args (emit [ line (Py.LF +:+ BOLD env +:+
        "Tests passed! Proceeding with packaging..." +:+ RESET env +:+ Py.LF) ] st1)) as Hp.
      rewrite <- Hsubmit in Hp.
      destruct (cmd_submit env args st) as [o st2] eqn:Esub.
      rewrite (proj1 (Hmain _ _ eq_refl)). cbn [snd] in Hp. rewrite Hp.
      change (calls (emit [?c] st1)) with (calls st1). rewrite Hcalls.
      by rewrite <- !(assoc_L (++)).
    + rewrite (proj1 (Hmain _ _ Hsubmit)).
      change (calls (emit _ st1)) with (calls st1). rewrite Hcalls.
      by rewrite (right_id_L [] (++)), <- (assoc_L (++)).
    + rewrite (proj1 (Hmain _ _ Hsubmit)). rewrite Hcalls.
      by rewrite (right_id_L [] (++)), <- (assoc_L (++)).
  - intros Htrue. rewrite Hsubmit.
    destruct test as [[[]|e] st1]; cbn [fst snd] in *; done.
  - intros Hnot. destruct test as [[[]|e] st1] eqn:Etest; cbn [fst snd] in *; [done| |].
    + apply (proj2 (Hmain _ _ Hsubmit)). left. apply sys_exit_fatal.
    + apply (proj2 (Hmain _ _ Hsubmit)).
      destruct (Hraises e eq_refl) as [->| ->]; [left; apply sys_exit_fatal|by right].
  - intros r t' Hdir Hwrapper Hrun Hr.
    pose proof (cmd_test_child env args st0 r t' Hdir Hwrapper Hrun) as Hchild.
    fold test in Hchild. rewrite Hchild.
    destruct r as [rc out| |]; try done.
    case_bool_decide; [|done]. subst rc. by destruct (Hr out).
Qed.

(** ** Interrupts at the prompts and in the child process *)

(** Ctrl-C at either prompt of [config]. *)
Lemma config_interrupted env args st :
  fs st !! config_file env = None
    ∨ (∃ existing t, fs st !! config_file env = Some (File (ConfigJson existing) t)) →
  (∃ rest, stdin st = CtrlC :: rest) ∨ (∃ typed rest, stdin st = Line typed :: CtrlC :: rest) →
  ∃ st1, cmd_config env args st = (Raise KeyboardInterrupt, st1) ∧ fs st1 = fs st.
Proof.
  intros Hprior Hin. unfold cmd_config.
  rewrite bind_unfold, enter_run, bind_unfold, print_run, bind_unfold, print_run, bind_unfold.
  unfold Fs.exists_ at 1, gets at 1. cbv beta iota. rewrite bind_unfold.
  autorewrite with state.
  assert (∃ existing, ∀ s, fs s = fs st →
            (if bool_decide (is_Some (fs st !! config_file env))
             then Json.load_config (config_file env) else mret ∅) s = (Ok existing, s))
    as [existing Hload].
  { destruct Hprior as [Hnone|(existing & t & Hsome)].
    - exists ∅. intros s _. rewrite Hnone. by rewrite bool_decide_false by (by intros [? ?]).
    - exists existing. intros s Hs. rewrite Hsome, bool_decide_true by done.
      unfold Json.load_config. by rewrite Hs, Hsome. }
  rewrite Hload by done.
  rewrite bind_unfold. unfold input at 1. rewrite bind_unfold. unfold print_noend at 1, modify at 1.
  unfold readline at 1. autorewrite with state.
  destruct Hin as [[rest ->]|(typed & rest & ->)]; [by eexists|].
  rewrite bind_unfold. unfold input at 1. rewrite bind_unfold. unfold print_noend at 1, modify at 1.
  unfold readline at 1. autorewrite with state. by eexists.
Qed.

(** C8.  For every command, a [KeyboardInterrupt] that leaves the command
    is caught at the top level: [main] prints the cancellation message,
    nothing else (no error line, no traceback, with [--debug] or without),
    and ends the process through [sys.exit(1)], the status section 6 of the
    specification gives a user interrupt; no interrupt leaves [main].  The
    interrupt arrives where the script waits: at the prompts of [config]
    (then nothing is saved) and in the child process of [test] and
    [submit]. *)
Theorem interrupt_caught_at_top_level env c args st :
  (main env c args st).1 ≠ Raise KeyboardInterrupt
  ∧ (∀ st1, dispatch env c args st = (Raise KeyboardInterrupt, st1) →
       main env c args st = (Raise (SystemExit 1), emit [interrupted_line env] st1)
       ∧ run_script env c args st = (1%Z, emit [interrupted_line env] st1))
  ∧ (c = Config →
     fs st !! config_file env = None
       ∨ (∃ existing t, fs st !! config_file env = Some (File (ConfigJson existing) t)) →
     (∃ rest, stdin st = CtrlC :: rest)
       ∨ (∃ typed rest, stdin st = Line typed :: CtrlC :: rest) →
     ∃ st1, dispatch env c args st = (Raise KeyboardInterrupt, st1) ∧ fs st1 = fs st)
  ∧ (c = Test_ ∨ c = Submit →
     let assignment_dir := get_assignment_dir env (assignment args) in
     let gradle_wrapper :=
       assignment_dir // (if os_is_nt env then "gradlew.bat" else "gradlew") in
     is_Some (fs st !! assignment_dir) →
     is_Some (fs st !! gradle_wrapper) →
     (subprocess_run env [PathLib.str gradle_wrapper; "test"; "--console=plain"]
        assignment_dir (fs st)).1 = Interrupted →
     ∃ st1, dispatch env c args st = (Raise KeyboardInterrupt, st1)).
Proof.
  split; [|split; [|split]].
  - unfold main. destruct (dispatch env c args st) as [[[]|[code| |cls msg]] st1]; try done.
    rewrite bind_unfold, print_run. by destruct (debug env).
  - intros st1 E. unfold run_script, main. by rewrite E.
  - intros -> Hprior Hin. simpl. by apply config_interrupted.
  - intros Hc adir wrapper Hdir Hwrapper Hrun.
    assert (∀ s, fs s = fs st → ∃ s1, cmd_test env args s = (Raise KeyboardInterrupt, s1))
      as Htest.
    { intros s Hs.
      destruct (subprocess_run env [PathLib.str wrapper; "test"; "--console=plain"] adir (fs st))
        as [r t'] eqn:Er. cbn [fst] in Hrun. subst r.
      pose proof (cmd_test_child env args s Interrupted t') as Hchild. cbv zeta in Hchild.
      rewrite Hs in Hchild. specialize (Hchild Hdir Hwrapper Er).
      destruct (cmd_test env args s) as [o s1]. cbn [fst] in Hchild. subst o. by eexists. }
    destruct Hc as [-> | ->]; simpl.
    + destruct (Htest st eq_refl) as [s1 E]. rewrite bind_unfold, E. by eexists.
    + unfold cmd_submit.
      rewrite bind_unfold, enter_run, bind_unfold, print_run, bind_unfold, print_run, bind_unfold.
      match goal with |- context [cmd_test env args ?s] =>
        destruct (Htest s eq_refl) as [s1 E] end.
      rewrite E. by eexists.
Qed.

Lemma interrupt_caught_at_top_level_witness :
  run_script Sample.env Config Sample.A3 (Sample.state Sample.fresh_tree [CtrlC])
  = (1%Z, {| fs := Sample.fresh_tree; stdin := [];
             stdout := [ "Assignment Helper Configuration" +:+ Py.LF;
                         rule 50 +:+ Py.LF; "Student ID: ";
                         Py.LF +:+ Py.LF +:+ "Operation cancelled by user" +:+ Py.LF ];
             calls := ["cmd_config"] |}).
Proof.
  apply (proj1 (proj2 (interrupt_caught_at_top_level Sample.env Config Sample.A3
                         (Sample.state Sample.fresh_tree [CtrlC])))
           {| fs := Sample.fresh_tree; stdin := [];
              stdout := [ "Assignment Helper Configuration" +:+ Py.LF;
                          rule 50 +:+ Py.LF; "Student ID: " ];
              calls := ["cmd_config"] |}).
  assert (Sample.fresh_tree !! config_file Sample.env = None) as Hnone.
  { vm_compute. reflexivity. }
  unfold dispatch, cmd_config. mrun. unfold Fs.exists_ at 1, gets at 1. mrun.
  cbn [fs write_stdout log_call Sample.state]. rewrite Hnone.
  reflexivity.
Defined.

(** ** The configuration command *)

Lemma parent_snoc (p : Path) x : p ≠ [] → PathLib.parent (p ++ [x]) = p.
Proof.
  intros Hp. unfold PathLib.parent.
  destruct p as [|a p]; [done|]. destruct p as [|b p]; [done|].
  change ((a :: b :: p) ++ [x]) with (a :: b :: (p ++ [x])) at 1.
  cbv iota. apply removelast_last.
Qed.

Lemma config_file_parent env : PathLib.parent (config_file env) = scripts_dir env.
Proof.
  change (config_file env) with (scripts_dir env ++ ["config.json"]).
  apply parent_snoc. change (scripts_dir env) with (root_dir env ++ ["scripts"]).
  intros [_ [=]]%app_eq_nil.
Qed.

Lemma readline_Line s rest st :
  stdin st = Line s :: rest → readline st = (Ok s, set_stdin rest st).
Proof. intros E. unfold readline. by rewrite E. Qed.

Lemma input_Line prompt s rest st :
  stdin st = Line s :: rest →
  input prompt st = (Ok s, set_stdin rest (write_stdout prompt st)).
Proof. intros E. unfold input, print_noend, modify. rewrite bind_unfold. by apply readline_Line. Qed.

Lemma truthy_false_iff s : truthy s = false ↔ s = "".
Proof. unfold truthy. case_bool_decide; naive_solver. Qed.

Lemma truthy_true_iff s : truthy s = true ↔ s ≠ "".
Proof. unfold truthy. case_bool_decide; naive_solver. Qed.

(** The value a prompt of [config] ends up with: the text typed, stripped,
    or the previous value when nothing was typed. *)
Lemma prompt_value typed previous :
  (if negb (truthy (Py.strip typed)) && truthy previous then previous else Py.strip typed)
  = (if bool_decide (Py.strip typed = "") then previous else Py.strip typed).
Proof.
  unfold truthy. case_bool_decide as E; simpl; [|done].
  case_bool_decide; simpl; congruence.
Qed.

(** C9.  [config] shows the previous id and name, when there are any, in
    its two prompts; an empty answer keeps the previous value.  When the id
    or the name ends up empty, the command exits with status 1 and the tree
    is as it was; otherwise the configuration file holds exactly the three
    keys [student_id], [student_name] and [workspace_root], whatever it
    held before. *)
Theorem config_prompts_and_saves env args st existing typed_id typed_name rest ts :
  (fs st !! config_file env = None ∧ existing = ∅)
    ∨ (∃ t, fs st !! config_file env = Some (File (ConfigJson existing) t)) →
  fs st !! scripts_dir env = Some (Dir ts) →
  stdin st = Line typed_id :: Line typed_name :: rest →
  let previous_id := default "" (existing !! "student_id") in
  let previous_name := default "" (existing !! "student_name") in
  let student_id :=
    if bool_decide (Py.strip typed_id = "") then previous_id else Py.strip typed_id in
  let student_name :=
    if bool_decide (Py.strip typed_name = "") then previous_name else Py.strip typed_name in
  let shown :=
    [ line (BOLD env +:+ "Assignment Helper Configuration" +:+ RESET env);
      line (rule 50);
      if bool_decide (previous_id = "") then "Student ID: "
      else "Student ID [" +:+ previous_id +:+ "]: ";
      if bool_decide (previous_name = "") then "Student Name: "
      else "Student Name [" +:+ previous_name +:+ "]: " ] in
  cmd_config env args st =
    if bool_decide (student_id = "" ∨ student_name = "") then
      (Raise (SystemExit 1),
       {| fs := fs st; stdin := rest;
          stdout := stdout st ++ shown
            ++ [ line (RED env +:+ "✗ Both student ID and name are required" +:+ RESET env) ];
          calls := calls st ++ ["cmd_config"] |})
    else
      (Ok tt,
       {| fs := <[ config_file env :=
                     File (ConfigJson {[ "student_id" := student_id;
                                         "student_name" := student_name;
                                         "workspace_root" := PathLib.str (root_dir env) ]})
                          (now env) ]> (fs st);
          stdin := rest;
          stdout := stdout st ++ shown
            ++ [ line (Py.LF +:+ GREEN env +:+ "✓ Configuration saved successfully" +:+ RESET env);
                 line ("  Student ID: " +:+ student_id);
                 line ("  Student Name: " +:+ student_name) ];
          calls := calls st ++ ["cmd_config"] |}).
Proof.
  intros Hprior Hscripts Hin previous_id previous_name student_id student_name shown.
  assert (∀ s : State, fs s = fs st →
            (if bool_decide (is_Some (fs s !! config_file env))
             then Json.load_config (config_file env) else mret ∅) s
            = (Ok existing, s)) as Hload.
  { intros s Hs. rewrite Hs.
    destruct Hprior as [[Hnone ->]|[t Hsome]].
    - rewrite Hnone. by rewrite bool_decide_false by (by intros [? ?]).
    - rewrite Hsome. rewrite bool_decide_true by done.
      unfold Json.load_config. by rewrite Hs, Hsome. }
  unfold cmd_config.
  rewrite bind_unfold, enter_run, bind_unfold, print_run, bind_unfold, print_run.
  rewrite bind_unfold. unfold Fs.exists_ at 1, gets at 1. cbv beta iota.
  rewrite bind_unfold, Hload by done.
  rewrite bind_unfold, (input_Line _ typed_id (Line typed_name :: rest)) by done.
  rewrite bind_unfold, (input_Line _ typed_name rest) by done.
  rewrite !prompt_value. fold previous_id previous_name. fold student_id student_name.
  assert (negb (truthy student_id) || negb (truthy student_name)
          = bool_decide (student_id = "" ∨ student_name = "")) as ->.
  { unfold truthy. repeat case_bool_decide; simpl; tauto. }
  assert (∀ (previous a b : string),
            (if truthy previous then a else b) = (if bool_decide (previous = "") then b else a))
    as Hprompt.
  { intros previous a b. unfold truthy. by case_bool_decide. }
  rewrite !Hprompt.
  destruct (bool_decide (student_id = "" ∨ student_name = "")).
  - rewrite bind_unfold, print_run. unfold sys_exit, raise. f_equal.
    apply state_eq; autorewrite with state; try done.
    by rewrite <- !(assoc_L (++)).
  - rewrite bind_unfold. unfold save_config, Fs.write_file, Fs.create.
    cbn [fs set_stdin write_stdout log_call]. rewrite config_file_parent, Hscripts.
    assert (∀ {A} (x y : A),
              match fs st !! config_file env with
              | Some (Dir _) => x
              | _ => y
              end = y) as Hnodir.
    { intros A x y. by destruct Hprior as [[-> _]|[t ->]]. }
    rewrite Hnodir. mrun. f_equal.
    apply state_eq; autorewrite with state; try done.
    by rewrite <- !(assoc_L (++)).
Qed.


Lemma config_prompts_and_saves_witness :
  cmd_config Sample.env Sample.A3
    (Sample.state Sample.configured_tree [Line "  "; Line "Li "]) =
  (Ok tt,
   {| fs := <[ config_file Sample.env :=
                 File (ConfigJson {[ "student_id" := "2021001"; "student_name" := "Li";
                                     "workspace_root" := "/ws" ]}) 100 ]>
              Sample.configured_tree;
      stdin := [];
      stdout := [ line "Assignment Helper Configuration"; line (rule 50);
                  "Student ID [2021001]: "; "Student Name [Zhang]: ";
                  line (Py.LF +:+ "✓ Configuration saved successfully");
                  line "  Student ID: 2021001"; line "  Student Name: Li" ];
      calls := ["cmd_config"] |}).
Proof.
  apply (config_prompts_and_saves Sample.env Sample.A3
           (Sample.state Sample.configured_tree [Line "  "; Line "Li "])
           Sample.config "  " "Li " [] 0).
  - right. exists 1%Z. vm_compute. reflexivity.
  - vm_compute. reflexivity.
  - reflexivity.
Defined.

(** ** The version-control probe *)

Lemma prefix_cons a p b s :
  String.prefix (String a p) (String b s)
  = if bool_decide (a = b) then String.prefix p s else false.
Proof. cbn [String.prefix]. destruct (ascii_dec a b); by case_bool_decide. Qed.

Lemma startswith_untracked_not_modified s :
  Py.startswith s "??" = true →
  Py.startswith s " M" = false ∧ Py.startswith s "M " = false.
Proof.
  unfold Py.startswith. destruct s as [|a s]; [done|]. rewrite !prefix_cons.
  case_bool_decide as Ha; [subst a|done]. intros _.
  by rewrite !bool_decide_false by done.
Qed.

Lemma startswith_nonempty s p : Py.startswith s p = true → p ≠ "" → s ≠ "".
Proof. unfold Py.startswith. intros H Hp ->. by destruct p. Qed.

Lemma splitn_empty c n : Py.splitn c n "" = [""].
Proof. by destruct n. Qed.

Lemma relative_age_cases elapsed :
  let days := (elapsed `div` 86400000000)%Z in
  (days = 0%Z ∧ relative_age elapsed = "today")
  ∨ (days = 1%Z ∧ relative_age elapsed = "yesterday")
  ∨ (days ≠ 0%Z ∧ days ≠ 1%Z ∧ relative_age elapsed = pretty days +:+ " days ago").
Proof. intros days. unfold relative_age. fold days. repeat case_bool_decide; auto. Qed.

Lemma relative_age_nonempty elapsed : relative_age elapsed ≠ "".
Proof.
  destruct (relative_age_cases elapsed) as [[_ ->]|[[_ ->]|(_ & _ & ->)]]; try done.
  intros E. apply (f_equal String.length) in E. rewrite string_length_app in E.
  simpl in E. lia.
Qed.

(** The fallback of the probe: status [unknown], with the age of the file
    when the file exists and without a time otherwise. *)
Lemma git_fallback_run env file_path st :
  git_fallback env file_path st =
    match fs st !! file_path with
    | Some n =>
        (Ok {[ "status" := "unknown";
               "time" := relative_age (now env - node_mtime n) ]}, st)
    | None => (Ok {[ "status" := "unknown" ]}, st)
    end.
Proof.
  unfold git_fallback. rewrite bind_unfold. unfold Fs.exists_, gets.
  destruct (fs st !! file_path) as [n|] eqn:E.
  - rewrite bool_decide_true by done. rewrite bind_unfold. unfold Fs.st_mtime. rewrite E.
    by destruct n.
  - by rewrite bool_decide_false by (by intros [? ?]).
Qed.

(** What the probe does once [git status] has returned [out]. *)
Lemma check_git_status_completed env file_path st rc out t1 :
  subprocess_run env (git_status_cmd file_path) (root_dir env) (fs st) = (Completed rc out, t1) →
  check_git_status env file_path st =
    let st1 := set_fs (λ _, t1) st in
    let status := Py.strip out in
    if bool_decide (status = "") then (Ok {[ "status" := "unmodified" ]}, st1)
    else if Py.startswith status " M" || Py.startswith status "M " then
      match subprocess_run env (git_log_cmd file_path) (root_dir env) t1 with
      | (Completed _ log_out, t2) =>
          (Ok (if bool_decide (Py.strip log_out = "") then {[ "status" := "modified" ]}
               else match Py.splitn "|" 2 (Py.strip log_out) with
                    | [commit; time; message] =>
                        {[ "status" := "modified"; "commit" := commit;
                           "time" := time; "message" := message ]}
                    | _ => {[ "status" := "modified" ]}
                    end),
           set_fs (λ _, t2) st1)
      | (Errored cls msg, t2) =>
          if is_SubprocessError cls || bool_decide (cls = FileNotFoundError)
          then git_fallback env file_path (set_fs (λ _, t2) st1)
          else (Raise (Exception cls msg), set_fs (λ _, t2) st1)
      | (Interrupted, t2) => (Raise KeyboardInterrupt, set_fs (λ _, t2) st1)
      end
    else if Py.startswith status "??" then (Ok {[ "status" := "untracked" ]}, st1)
    else (Ok {[ "status" := "unknown" ]}, st1).
Proof.
  intros Hrun. unfold check_git_status, git_probe. rewrite bind_unfold. unfold run at 1.
  fold (git_status_cmd file_path). rewrite Hrun. cbv zeta beta iota.
  unfold truthy. case_bool_decide as Hempty; cbn [negb]; [done|].
  destruct (Py.startswith (Py.strip out) " M" || Py.startswith (Py.strip out) "M ").
  - rewrite bind_unfold. unfold run at 1. fold (git_log_cmd file_path).
    cbn [fs set_fs].
    destruct (subprocess_run env (git_log_cmd file_path) (root_dir env) t1) as [[rc' log_out|cls msg|] t2];
      [|done..].
    cbv beta iota. case_bool_decide; cbn [negb]; [done|].
    by destruct (Py.splitn "|" 2 (Py.strip log_out)) as [|? [|? [|? [|? ?]]]].
  - by destruct (Py.startswith (Py.strip out) "??").
Qed.

Lemma check_git_status_errored env file_path st cls msg t1 :
  subprocess_run env (git_status_cmd file_path) (root_dir env) (fs st) = (Errored cls msg, t1) →
  check_git_status env file_path st =
    if is_SubprocessError cls || bool_decide (cls = FileNotFoundError)
    then git_fallback env file_path (set_fs (λ _, t1) st)
    else (Raise (Exception cls msg), set_fs (λ _, t1) st).
Proof.
  intros Hrun. unfold check_git_status, git_probe. rewrite bind_unfold. unfold run at 1.
  fold (git_status_cmd file_path). by rewrite Hrun.
Qed.

Lemma probe_falls_back_caught cls :
  probe_falls_back cls → is_SubprocessError cls || bool_decide (cls = FileNotFoundError) = true.
Proof. intros [->|H]; [done|]. by rewrite H. Qed.

(** X24.  The classification of the probe, [status] being the output of
    [git status --porcelain] without the surrounding white space:
    - no output: [unmodified];
    - output that starts with a marker of a modified file: [modified], with
      the hash, the relative time and the subject of the last commit when
      [git log] prints the three fields, and alone otherwise;
    - output that starts with the marker of an untracked file:
      [untracked];
    - any other output: [unknown], and nothing else;
    - when [subprocess.run] raises a [FileNotFoundError] (the tool is
      absent) or a [SubprocessError] (a timeout, say), at either call:
      [unknown] with the age of the file (today, yesterday, N days ago)
      when the file exists, and [unknown] without a time when it does
      not. *)
Theorem probe_classification env file_path st :
  let status_run := subprocess_run env (git_status_cmd file_path) (root_dir env) (fs st) in
  let log_run := subprocess_run env (git_log_cmd file_path) (root_dir env) status_run.2 in
  let probe := (check_git_status env file_path st).1 in
  let fallback (t : FileTree) : Outcome (gmap string string) :=
    match t !! file_path with
    | Some n => Ok {[ "status" := "unknown";
                      "time" := relative_age (now env - node_mtime n) ]}
    | None => Ok {[ "status" := "unknown" ]}
    end in
  let modified (status : string) : Prop :=
    Py.startswith status " M" = true ∨ Py.startswith status "M " = true in
  (∀ rc out, status_run.1 = Completed rc out →
     Py.strip out = "" → probe = Ok {[ "status" := "unmodified" ]})
  ∧ (∀ rc out rc' log_out, status_run.1 = Completed rc out →
       modified (Py.strip out) → log_run.1 = Completed rc' log_out →
       ∃ g, probe = Ok g ∧ g !! "status" = Some "modified"
         ∧ (∀ commit time message,
              Py.splitn "|" 2 (Py.strip log_out) = [commit; time; message] →
              g = {[ "status" := "modified"; "commit" := commit;
                     "time" := time; "message" := message ]})
         ∧ (length (Py.splitn "|" 2 (Py.strip log_out)) ≠ 3 →
            g = {[ "status" := "modified" ]}))
  ∧ (∀ rc out, status_run.1 = Completed rc out →
       Py.startswith (Py.strip out) "??" = true →
       probe = Ok {[ "status" := "untracked" ]})
  ∧ (∀ rc out, status_run.1 = Completed rc out →
       Py.strip out ≠ "" → ¬ modified (Py.strip out) →
       Py.startswith (Py.strip out) "??" = false →
       probe = Ok {[ "status" := "unknown" ]})
  ∧ (∀ cls msg, status_run.1 = Errored cls msg → probe_falls_back cls →
       probe = fallback status_run.2)
  ∧ (∀ rc out cls msg, status_run.1 = Completed rc out → modified (Py.strip out) →
       log_run.1 = Errored cls msg → probe_falls_back cls →
       probe = fallback log_run.2)
  ∧ (∀ elapsed, relative_age elapsed ≠ "").
Proof.
  intros status_run log_run probe fallback modified.
  assert (∀ s, modified s → s ≠ "" ∧ Py.startswith s " M" || Py.startswith s "M " = true)
    as Hmod.
  { intros s [H|H]; (split; [by eapply startswith_nonempty|]); rewrite H; [done|].
    apply orb_true_r. }
  assert (∀ s, (git_fallback env file_path s).1 = fallback (fs s)) as Hfb.
  { intros s. rewrite git_fallback_run. unfold fallback. by destruct (fs s !! file_path). }
  destruct status_run as [r t1] eqn:Hstatus. subst log_run. cbn [fst snd] in *.
  repeat split.
  - intros rc out -> Hempty. unfold probe.
    rewrite (check_git_status_completed _ _ _ _ _ _ Hstatus). cbv zeta.
    by rewrite bool_decide_true.
  - intros rc out rc' log_out -> [Hne Hm]%Hmod Hlog. unfold probe.
    rewrite (check_git_status_completed _ _ _ _ _ _ Hstatus). cbv zeta.
    rewrite bool_decide_false, Hm by done.
    destruct (subprocess_run env (git_log_cmd file_path) (root_dir env) t1) as [r2 t2].
    cbn [fst] in Hlog. subst r2. cbn [fst].
    eexists. split; [done|]. split; [|split].
    + case_bool_decide; [done|].
      by destruct (Py.splitn "|" 2 (Py.strip log_out)) as [|? [|? [|? [|? ?]]]].
    + intros commit time message E. rewrite E. rewrite bool_decide_false; [done|].
      intros E'. rewrite E', splitn_empty in E. done.
    + intros Hlen. case_bool_decide; [done|].
      by destruct (Py.splitn "|" 2 (Py.strip log_out)) as [|? [|? [|? [|? ?]]]].
  - intros rc out -> Hu. unfold probe.
    rewrite (check_git_status_completed _ _ _ _ _ _ Hstatus). cbv zeta.
    destruct (startswith_untracked_not_modified _ Hu) as [-> ->].
    rewrite bool_decide_false by (by eapply startswith_nonempty). by rewrite Hu.
  - intros rc out -> Hne Hnm Hu. unfold probe.
    rewrite (check_git_status_completed _ _ _ _ _ _ Hstatus). cbv zeta.
    rewrite bool_decide_false, Hu by done.
    destruct (Py.startswith (Py.strip out) " M") eqn:E1; [destruct Hnm; by left|].
    destruct (Py.startswith (Py.strip out) "M ") eqn:E2; [destruct Hnm; by right|]. done.
  - intros cls msg -> Hcls. unfold probe.
    rewrite (check_git_status_errored _ _ _ _ _ _ Hstatus).
    rewrite (probe_falls_back_caught _ Hcls). by rewrite Hfb.
  - intros rc out cls msg -> [Hne Hm]%Hmod Hlog Hcls. unfold probe.
    rewrite (check_git_status_completed _ _ _ _ _ _ Hstatus). cbv zeta.
    rewrite bool_decide_false, Hm by done.
    destruct (subprocess_run env (git_log_cmd file_path) (root_dir env) t1) as [r2 t2].
    cbn [fst snd] in *. subst r2.
    rewrite (probe_falls_back_caught _ Hcls). by rewrite Hfb.
  - apply relative_age_nonempty.
Qed.

Lemma probe_classification_witness :
  (check_git_status Sample.env_modified
     (get_assignment_dir Sample.env_modified "A4" // "src/Solver.java")
     (Sample.state Sample.edited_tree [])).1
  = Ok {[ "status" := "modified"; "commit" := "abc1234"; "time" := "2 days ago";
          "message" := "Fix the solver" ]}
  ∧ (check_git_status Cases.env_timeout (Sample.root // "A3/tai-e/src/Solver.java")
       (Sample.state Sample.configured_tree [])).1
    = Ok {[ "status" := "unknown"; "time" := "today" ]}.
Proof.
  split.
  - destruct (probe_classification Sample.env_modified
                (get_assignment_dir Sample.env_modified "A4" // "src/Solver.java")
                (Sample.state Sample.edited_tree [])) as (_ & Hmodified & _).
    destruct (Hmodified 0%Z (" M A4/tai-e/src/Solver.java" +:+ Py.LF)
                0%Z ("abc1234|2 days ago|Fix the solver" +:+ Py.LF))
      as (g & -> & _ & Hfields & _).
    + reflexivity.
    + right. vm_compute. reflexivity.
    + reflexivity.
    + f_equal. apply Hfields. vm_compute. reflexivity.
  - destruct (probe_classification Cases.env_timeout
                (Sample.root // "A3/tai-e/src/Solver.java")
                (Sample.state Sample.configured_tree [])) as (_ & _ & _ & _ & Hfallback & _).
    rewrite (Hfallback TimeoutExpired "Command 'git' timed out after 5 seconds").
    + vm_compute. reflexivity.
    + reflexivity.
    + by right.
Defined.

(** C4, where the code departs from it: a tool that runs and fails.
    [subprocess.run] is called without [check=True]: the exit status of
    [git status] is never looked at, no exception is raised, and the
    fallback is not reached.  A [git] that exits with any status and prints
    nothing on standard output (as it does outside a repository, with
    status 128) is answered [unmodified], where the claim has [unknown]
    with the age of the file. *)
Theorem probe_ignores_exit_status env file_path st returncode out t1 :
  subprocess_run env (git_status_cmd file_path) (root_dir env) (fs st)
    = (Completed returncode out, t1) →
  Py.strip out = "" →
  check_git_status env file_path st
  = (Ok {[ "status" := "unmodified" ]}, set_fs (λ _, t1) st).
Proof.
  intros Hrun Hout. rewrite (check_git_status_completed _ _ _ _ _ _ Hrun). cbv zeta.
  by rewrite bool_decide_true.
Qed.

Lemma probe_ignores_exit_status_witness :
  check_git_status Cases.env_no_repository (Sample.root // "A3/tai-e/src/Solver.java")
    (Sample.state Sample.configured_tree [])
  = (Ok {[ "status" := "unmodified" ]},
     set_fs (λ _, Sample.configured_tree) (Sample.state Sample.configured_tree [])).
Proof.
  apply (probe_ignores_exit_status Cases.env_no_repository
           (Sample.root // "A3/tai-e/src/Solver.java")
           (Sample.state Sample.configured_tree []) 128 "" Sample.configured_tree).
  - reflexivity.
  - vm_compute. reflexivity.
Defined.

(** ** The archive of a successful [package] *)






(** ** Base names *)






(** The example of the specification: the archive of A3 for the student
    2021001 (Zhang) is [output/2021001-Zhang-A3.zip] and has the one entry
    [Solver.java]. *)
Example package_sample :
  (run_script Sample.env Package Sample.A3 (Sample.state Sample.configured_tree [])).1 = 0%Z
  ∧ fs (run_script Sample.env Package Sample.A3 (Sample.state Sample.configured_tree [])).2
      !! (Sample.root // "output/2021001-Zhang-A3.zip")
    = Some (File (ZipArchive [("Solver.java", Raw "class Solver {}")]) 100).
Proof. vm_compute. split; reflexivity. Qed.

(** ** The dependency setup *)

Lemma last_write_stdout c st : last (stdout (write_stdout c st)) = Some c.
Proof. simpl. apply last_snoc. Qed.

Lemma rs_create E p n : (∀ e, is_Exception e → E e) → raises E (Fs.create p n).
Proof.
  intros H st e. unfold Fs.create.
  destruct (fs st !! PathLib.parent p) as [[]|]; [| |]; try done; by apply rs_oserror.
Qed.

Lemma rs_makedirs_from E clock pre rest :
  (∀ e, is_Exception e → E e) → raises E (Fs.makedirs_from clock pre rest).
Proof.
  intros H. revert pre. induction rest as [|c rest IH]; intros pre; simpl.
  - apply rs_ret.
  - rs; try (by apply rs_oserror); apply IH.
Qed.

Lemma rs_copy2 E src dst : (∀ e, is_Exception e → E e) → raises E (Fs.copy2 src dst).
Proof.
  intros H st e. unfold Fs.copy2. case_bool_decide.
  { apply rs_raise, H. by eexists _, _. }
  destruct (fs st !! src) as [[]|]; try (by apply rs_oserror).
  match goal with |- context [fs st !! ?q] => destruct (fs st !! q) as [[]|] end;
    try (by apply rs_oserror); by apply rs_create.
Qed.

(** The copy of one entry ends in one of two ways: the file is copied and
    counted, or the failure is reported and nothing is counted. *)
Lemma perform_copy_cases env source_file target_file is_modified v st :
  ∃ st',
    (perform_copy env source_file target_file is_modified v st
       = (Ok {| success_count := success_count v + 1; skip_count := skip_count v;
                force_all := force_all v |}, st')
     ∧ ∃ overwrote, last (stdout st') = Some (copied_line env overwrote))
    ∨ (perform_copy env source_file target_file is_modified v st = (Ok v, st')
       ∧ ∃ msg, last (stdout st') = Some (failed_line env msg)).
Proof.
  unfold perform_copy, try_except. rewrite bind_unfold.
  pose proof (rs_makedirs_from is_Exception (now env) [] (PathLib.parent target_file)
                (λ e H, H) st) as Hmk.
  unfold Fs.makedirs.
  destruct (Fs.makedirs_from (now env) [] (PathLib.parent target_file) st) as [[[]|e] st1].
  2:{ destruct (Hmk e eq_refl) as (cls & msg & ->). mrun. eexists. right.
      split; [done|]. exists msg. apply last_write_stdout. }
  rewrite bind_unfold.
  pose proof (rs_copy2 is_Exception source_file target_file (λ e H, H) st1) as Hcp.
  destruct (Fs.copy2 source_file target_file st1) as [[[]|e] st2].
  2:{ destruct (Hcp e eq_refl) as (cls & msg & ->). mrun. eexists. right.
      split; [done|]. exists msg. apply last_write_stdout. }
  destruct (is_modified && force_all v) eqn:Eb; mrun; eexists; left.
  - split; [done|]. exists true. apply last_write_stdout.
  - split; [done|]. exists false. apply last_write_stdout.
Qed.

(** The verdict lines differ from one another. *)
Lemma failed_line_not_copied env msg overwrote : failed_line env msg ≠ copied_line env overwrote.
Proof.
  unfold failed_line, copied_line, line, RED, GREEN, RESET, color.
  destruct (isatty env), overwrote; cbv [String.append Py.ESC]; discriminate.
Qed.

Lemma failed_line_not_skipped env msg : failed_line env msg ≠ skipped_line env.
Proof.
  unfold failed_line, skipped_line, line, RED, YELLOW, RESET, color.
  destruct (isatty env); cbv [String.append Py.ESC]; discriminate.
Qed.

Lemma setup_loop_app env a tdir n idx pre post v st :
  setup_loop env a tdir n idx (pre ++ post) v st =
    match setup_loop env a tdir n idx pre v st with
    | (Ok v1, st1) => setup_loop env a tdir n (idx + length pre) post v1 st1
    | (Raise e, st1) => (Raise e, st1)
    end.
Proof.
  revert idx v st. induction pre as [|dep pre IH]; intros idx v st.
  - cbn [setup_loop app length]. by rewrite ret_run, Nat.add_0_r.
  - cbn [setup_loop app length]. rewrite !bind_unfold.
    destruct (setup_entry env a tdir n idx dep v st) as [[v1|e] st1]; [|done].
    rewrite IH. by replace (S idx + length pre) with (idx + S (length pre)) by lia.
Qed.

Lemma perform_copy_counts env src tgt m vin st v' st' :
  perform_copy env src tgt m vin st = (Ok v', st') →
  counted vin ≤ counted v' ≤ counted vin + 1
  ∧ (∀ msg, last (stdout st') = Some (failed_line env msg) → counted v' = counted vin).
Proof.
  destruct (perform_copy_cases env src tgt m vin st)
    as (st1 & [[-> [b Hb]]|[-> [msg Hmsg]]]); intros [= <- <-].
  - unfold counted. cbn [success_count skip_count]. split; [lia|].
    intros msg Hmsg. rewrite Hb in Hmsg.
    destruct (failed_line_not_copied env msg b). congruence.
  - split; [lia|done].
Qed.

Lemma setup_entry_counts env a tdir n idx dep v st v' st' :
  setup_entry env a tdir n idx dep v st = (Ok v', st') →
  counted v ≤ counted v' ≤ counted v + 1
  ∧ (source_absent env st dep → counted v' = counted v)
  ∧ (∀ msg, last (stdout st') = Some (failed_line env msg) → counted v' = counted v).
Proof.
  unfold setup_entry. rewrite bind_unfold.
  destruct (getitem_cases "from" (dep_from dep) st) as [(sa & Hfrom & ->)|(_ & ->)]; [|done].
  rewrite bind_unfold.
  destruct (getitem_cases "file" (dep_file dep) st) as [(f & Hfile & ->)|(_ & ->)]; [|done].
  mrun. unfold Fs.exists_ at 1, gets at 1. mrun. autorewrite with state.
  destruct (bool_decide (is_Some (fs st !! (get_assignment_dir env sa // f)))) eqn:Hsrc;
    cbn [negb]; cycle 1.
  { mrun. intros [= <- <-]. split; [lia|]. by split. }
  assert (¬ source_absent env st dep) as Hpresent.
  { intros (sa' & f' & H1 & H2 & H3). rewrite Hfrom in H1. rewrite Hfile in H2.
    injection H1 as <-. injection H2 as <-.
    apply bool_decide_eq_true in Hsrc. rewrite H3 in Hsrc. by destruct Hsrc. }
  assert (∀ m vin s, counted vin = counted v →
            perform_copy env (get_assignment_dir env sa // f) (tdir // f) m vin s = (Ok v', st') →
            counted v ≤ counted v' ≤ counted v + 1
            ∧ (source_absent env st dep → counted v' = counted v)
            ∧ (∀ msg, last (stdout st') = Some (failed_line env msg) → counted v' = counted v))
    as Hleaf.
  { intros m vin s Hvin Hrun. destruct (perform_copy_counts _ _ _ _ _ _ _ _ Hrun) as [Hc Hf].
    rewrite Hvin in *. split; [done|]. split; [by intros ?|done]. }
  rewrite bind_unfold. unfold Fs.exists_ at 1, gets at 1. cbv beta iota.
  match goal with |- context [bool_decide (is_Some (fs ?s !! (tdir // f)))] =>
    destruct (bool_decide (is_Some (fs s !! (tdir // f)))) end.
  - rewrite !bind_unfold.
    match goal with |- context [check_git_status env ?p ?s] =>
      destruct (check_git_status env p s) as [[g|e] sg] end; [|done].
    rewrite ret_run. cbv beta iota. cbn [negb].
    destruct (bool_decide (g !! "status" = Some "modified")); mrun.
    + destruct (force_all v) eqn:Hforce; cbn [andb negb].
      * by apply Hleaf.
      * mrun. unfold print_noend, modify. mrun. unfold readline.
        match goal with |- context [stdin ?s] => destruct (stdin s) as [|[typed|] rest] end;
          [done| |done].
        mrun. destruct (bool_decide (Py.strip (Py.lower typed) = "q")); mrun; [done|].
        destruct (bool_decide (Py.strip (Py.lower typed) = "a")); mrun; [by apply Hleaf|].
        destruct (bool_decide (Py.strip (Py.lower typed) = "y")); cbn [negb]; mrun;
          [by apply Hleaf|].
        intros [= <- <-]. unfold counted. cbn [success_count skip_count].
        split; [lia|]. split; [by intros ?|].
        intros msg Hmsg. rewrite last_write_stdout in Hmsg.
        destruct (failed_line_not_skipped env msg).
        unfold skipped_line, line. congruence.
    + cbn [andb]. by apply Hleaf.
  - rewrite bind_unfold, ret_run. cbv beta iota. cbn [negb andb]. mrun. by apply Hleaf.
Qed.

Lemma setup_summary_run env v st :
  setup_summary env v st = (Ok tt, emit (summary_lines env v) st).
Proof.
  unfold setup_summary, summary_lines. mrun. by destruct (bool_decide (0 < skip_count v)).
Qed.

Lemma setup_loop_bound env a tdir n idx deps v st v' st' :
  setup_loop env a tdir n idx deps v st = (Ok v', st') →
  counted v ≤ counted v' ≤ counted v + length deps.
Proof.
  revert idx v st. induction deps as [|dep deps IH]; intros idx v st.
  - cbn [setup_loop]. rewrite ret_run. intros [= <- <-]. simpl. lia.
  - cbn [setup_loop]. rewrite bind_unfold.
    destruct (setup_entry env a tdir n idx dep v st) as [[v1|e] st1] eqn:Hentry; [|done].
    intros Hrest. apply setup_entry_counts in Hentry as [Hc _].
    apply IH in Hrest. simpl. lia.
Qed.

(** X2.  When the loop of [setup] returns, what it counted (copied plus
    skipped) has grown by at most the number of entries, and by less when
    some entry had no source file or had its copy reported as failed; the
    summary prints these counters, the skipped ones only when there are
    any. *)
Theorem setup_counts env a tdir n idx deps v st v' st' :
  setup_loop env a tdir n idx deps v st = (Ok v', st') →
  counted v ≤ counted v' ≤ counted v + length deps
  ∧ (∀ pre dep post v1 st1,
       deps = pre ++ dep :: post →
       setup_loop env a tdir n idx pre v st = (Ok v1, st1) →
       source_absent env st1 dep
         ∨ (∃ msg, last (stdout (setup_entry env a tdir n (idx + length pre) dep v1 st1).2)
                   = Some (failed_line env msg)) →
       counted v' < counted v + length deps)
  ∧ setup_summary env v' st' = (Ok tt, emit (summary_lines env v') st').
Proof.
  intros Hloop. split; [by eapply setup_loop_bound|]. split; [|apply setup_summary_run].
  intros pre dep post v1 st1 -> Hpre Hbad.
  rewrite setup_loop_app, Hpre in Hloop. cbn [setup_loop] in Hloop.
  rewrite bind_unfold in Hloop.
  destruct (setup_entry env a tdir n (idx + length pre) dep v1 st1) as [[v2|e] st2] eqn:Hentry;
    [|done].
  apply setup_loop_bound in Hpre, Hloop.
  apply setup_entry_counts in Hentry as (_ & Habs & Hfail).
  assert (counted v2 = counted v1) as Heq.
  { destruct Hbad as [?|[msg Hmsg]]; [by apply Habs|by eapply Hfail]. }
  rewrite length_app. simpl. lia.
Qed.

Lemma setup_counts_witness :
  counted (setup_start Sample.A4)
    ≤ counted {| success_count := 2; skip_count := 0; force_all := false |}
    ≤ counted (setup_start Sample.A4) + length Sample.A4_deps
  ∧ (∀ pre dep post v1 st1,
       Sample.A4_deps = pre ++ dep :: post →
       setup_loop Sample.env "A4" (get_assignment_dir Sample.env "A4") 3 1 pre
         (setup_start Sample.A4) (Sample.state Sample.edited_tree []) = (Ok v1, st1) →
       source_absent Sample.env st1 dep
         ∨ (∃ msg, last (stdout (setup_entry Sample.env "A4"
                                   (get_assignment_dir Sample.env "A4") 3 (1 + length pre)
                                   dep v1 st1).2)
                   = Some (failed_line Sample.env msg)) →
       counted {| success_count := 2; skip_count := 0; force_all := false |}
         < counted (setup_start Sample.A4) + length Sample.A4_deps)
  ∧ setup_summary Sample.env {| success_count := 2; skip_count := 0; force_all := false |}
      (setup_loop Sample.env "A4" (get_assignment_dir Sample.env "A4") 3 1 Sample.A4_deps
         (setup_start Sample.A4) (Sample.state Sample.edited_tree [])).2
    = (Ok tt,
       emit (summary_lines Sample.env {| success_count := 2; skip_count := 0; force_all := false |})
         (setup_loop Sample.env "A4" (get_assignment_dir Sample.env "A4") 3 1 Sample.A4_deps
            (setup_start Sample.A4) (Sample.state Sample.edited_tree [])).2).
Proof.
  apply (setup_counts Sample.env "A4" (get_assignment_dir Sample.env "A4") 3 1 Sample.A4_deps
           (setup_start Sample.A4) (Sample.state Sample.edited_tree [])).
  apply pair_eta_fst. vm_compute. reflexivity.
Defined.


(** The prompt of an entry answered with the quit choice. *)
Lemma setup_entry_quit env a tdir n idx dep v st sa f g sg typed rest_in :
  dep_from dep = Some sa → dep_file dep = Some f →
  is_Some (fs st !! (get_assignment_dir env sa // f)) →
  is_Some (fs st !! (tdir // f)) →
  check_git_status env (tdir // f) (emit (entry_header a n idx sa f) st) = (Ok g, sg) →
  g !! "status" = Some "modified" →
  force_all v = false →
  stdin sg = Line typed :: rest_in →
  Py.strip (Py.lower typed) = "q" →
  ∃ st', setup_entry env a tdir n idx dep v st = (Raise (SystemExit 0), st')
    ∧ fs st' = fs sg ∧ stdin st' = rest_in ∧ calls st' = calls sg
    ∧ last (stdout st') = Some (cancelled_line env).
Proof.
  intros Hfrom Hfile Hsrc Htgt Hgit Hmod Hforce Hin Hq.
  unfold setup_entry. rewrite Hfrom, Hfile. cbn [getitem]. mrun.
  unfold Fs.exists_ at 1, gets at 1. mrun. autorewrite with state.
  rewrite (bool_decide_true _ Hsrc). cbn [negb].
  rewrite bind_unfold. unfold Fs.exists_ at 1, gets at 1. cbv beta iota.
  autorewrite with state. rewrite (bool_decide_true _ Htgt).
  rewrite !bind_unfold.
  change (write_stdout ?c3 (write_stdout ?c2 (write_stdout ?c1 st)))
    with (emit (entry_header a n idx sa f) st).
  rewrite Hgit. rewrite ret_run. cbv beta iota. cbn [negb].
  rewrite (bool_decide_true _ Hmod), Hforce. cbn [andb negb]. mrun.
  unfold print_noend, modify. mrun. unfold readline. autorewrite with state.
  rewrite Hin. mrun. rewrite (bool_decide_true _ Hq). mrun.
  eexists. split; [done|]. autorewrite with state. repeat split; try done.
  apply last_snoc.
Qed.

(** X1.  When [setup] reaches an entry whose target is reported as
    modified, asks, and reads an answer that is [q] once lower-cased and
    stripped, the run ends with exit status 0: the tree is the one at the
    prompt, the last thing printed is the cancellation line, and the entries
    that follow are never looked at. *)
Theorem setup_quit_exits_0 env args st md t info pre dep rest v1 st1 sa f g sg typed rest_in :
  fs st !! metadata_file env = Some (File (MetadataJson md) t) →
  md !! assignment args = Some info →
  dependencies info = Some (pre ++ dep :: rest) →
  setup_loop env (assignment args) (get_assignment_dir env (assignment args))
    (length (pre ++ dep :: rest)) 1 pre (setup_start args)
    (emit (setup_banner env (assignment args)) (log_call "cmd_setup" st)) = (Ok v1, st1) →
  dep_from dep = Some sa → dep_file dep = Some f →
  is_Some (fs st1 !! (get_assignment_dir env sa // f)) →
  is_Some (fs st1 !! (get_assignment_dir env (assignment args) // f)) →
  check_git_status env (get_assignment_dir env (assignment args) // f)
    (emit (entry_header (assignment args) (length (pre ++ dep :: rest)) (1 + length pre) sa f) st1)
    = (Ok g, sg) →
  g !! "status" = Some "modified" →
  force_all v1 = false →
  stdin sg = Line typed :: rest_in →
  Py.strip (Py.lower typed) = "q" →
  ∃ st', run_script env Setup args st = (0%Z, st')
    ∧ fs st' = fs sg ∧ stdin st' = rest_in ∧ calls st' = calls sg
    ∧ last (stdout st') = Some (cancelled_line env).
Proof.
  intros Hmeta Hinfo Hdeps Hpre Hfrom Hfile Hsrc Htgt Hgit Hmod Hforce Hin Hq.
  destruct (setup_entry_quit env (assignment args) (get_assignment_dir env (assignment args))
              (length (pre ++ dep :: rest)) (1 + length pre) dep v1 st1 sa f g sg typed rest_in)
    as (st' & Hentry & Hst'); try done.
  exists st'. split; [|done].
  unfold run_script, main, dispatch, cmd_setup.
  rewrite bind_unfold, enter_run, bind_unfold, (load_metadata_Ok env _ md t) by done.
  rewrite Hinfo, Hdeps. cbn [default]. unfold id.
  assert (∀ (X : Type) (x y : X),
            match pre ++ dep :: rest with [] => x | _ :: _ => y end = y) as ->.
  { intros X x y. by destruct pre. }
  mrun.
  change (write_stdout ?c2 (write_stdout ?c1 (log_call "cmd_setup" st)))
    with (emit (setup_banner env (assignment args)) (log_call "cmd_setup" st)).
  fold (setup_start args).
  unfold id. rewrite setup_loop_app, Hpre.
  cbn [setup_loop]. rewrite bind_unfold, Hentry. done.
Qed.

Lemma setup_quit_exits_0_witness :
  ∃ st', run_script Sample.env_modified Setup Sample.A4 Sample.quit_state = (0%Z, st')
    ∧ fs st' = fs Sample.at_second_prompt ∧ stdin st' = []
    ∧ calls st' = calls Sample.at_second_prompt
    ∧ last (stdout st') = Some (cancelled_line Sample.env_modified).
Proof.
  apply (setup_quit_exits_0 Sample.env_modified Sample.A4 Sample.quit_state
           (<[ "A4" := Sample.A4_info ]> Sample.metadata) 0 Sample.A4_info
           [ {| dep_from := Some "A3"; dep_file := Some "src/Solver.java" |} ]
           {| dep_from := Some "A2"; dep_file := Some "src/CFGBuilder.java" |}
           [ {| dep_from := Some "A2"; dep_file := Some "src/Missing.java" |} ]
           {| success_count := 1; skip_count := 0; force_all := false |}
           Sample.after_first_entry "A2" "src/CFGBuilder.java"
           {[ "status" := "modified"; "commit" := "abc1234"; "time" := "2 days ago";
              "message" := "Fix the solver" ]}
           Sample.at_second_prompt " Q " []).
  - vm_compute. reflexivity.
  - vm_compute. reflexivity.
  - reflexivity.
  - unfold Sample.after_first_entry. cbn [assignment Sample.A4 length app].
    apply pair_eta_fst. vm_compute. reflexivity.
  - reflexivity.
  - reflexivity.
  - vm_compute. eexists. reflexivity.
  - vm_compute. eexists. reflexivity.
  - unfold Sample.at_second_prompt. cbn [assignment Sample.A4 length app Nat.add].
    apply pair_eta_fst. vm_compute. reflexivity.
  - vm_compute. reflexivity.
  - reflexivity.
  - vm_compute. reflexivity.
  - vm_compute. reflexivity.
Defined.

(** ** The quit choice, on the whole run *)

(** The entry at whose prompt the user quits: what was printed, and the
    state it leaves. *)
Lemma setup_entry_quit_run env a tdir n idx dep v st sa f g sg typed rest_in :
  dep_from dep = Some sa → dep_file dep = Some f →
  is_Some (fs st !! (get_assignment_dir env sa // f)) →
  is_Some (fs st !! (tdir // f)) →
  check_git_status env (tdir // f) (emit (entry_header a n idx sa f) st) = (Ok g, sg) →
  g !! "status" = Some "modified" →
  force_all v = false →
  stdin sg = Line typed :: rest_in →
  Py.strip (Py.lower typed) = "q" →
  setup_entry env a tdir n idx dep v st
  = (Raise (SystemExit 0),
     emit (prompt_lines env g ++ [cancelled_line env]) (set_stdin rest_in sg)).
Proof.
  intros Hfrom Hfile Hsrc Htgt Hgit Hmod Hforce Hin Hq.
  unfold setup_entry. rewrite Hfrom, Hfile. cbn [getitem]. mrun.
  unfold Fs.exists_ at 1, gets at 1. mrun. autorewrite with state.
  rewrite (bool_decide_true _ Hsrc). cbn [negb].
  rewrite bind_unfold. unfold Fs.exists_ at 1, gets at 1. cbv beta iota.
  autorewrite with state. rewrite (bool_decide_true _ Htgt).
  rewrite !bind_unfold.
  change (write_stdout ?c3 (write_stdout ?c2 (write_stdout ?c1 st)))
    with (emit (entry_header a n idx sa f) st).
  rewrite Hgit. rewrite ret_run. cbv beta iota. cbn [negb].
  rewrite (bool_decide_true _ Hmod), Hforce. cbn [andb negb]. mrun.
  unfold print_noend, modify. mrun. unfold readline. autorewrite with state.
  rewrite Hin. mrun. rewrite (bool_decide_true _ Hq). mrun.
  reflexivity.
Qed.

(** C7.  When [setup] has reached an entry whose target is reported as
    modified, has asked, and reads an answer that is [q] once lower-cased
    and stripped, the whole run ends there with exit status 0.  The state
    it leaves is the state at the prompt with the lines of the prompt and
    the cancellation line printed and the answer consumed: nothing is
    copied, no entry that follows is looked at, and no summary is
    printed. *)
Theorem quit_aborts_setup env args st md t info pre dep rest v1 st1 sa f g sg typed rest_in :
  fs st !! metadata_file env = Some (File (MetadataJson md) t) →
  md !! assignment args = Some info →
  dependencies info = Some (pre ++ dep :: rest) →
  setup_loop env (assignment args) (get_assignment_dir env (assignment args))
    (length (pre ++ dep :: rest)) 1 pre (setup_start args)
    (emit (setup_banner env (assignment args)) (log_call "cmd_setup" st)) = (Ok v1, st1) →
  dep_from dep = Some sa → dep_file dep = Some f →
  is_Some (fs st1 !! (get_assignment_dir env sa // f)) →
  is_Some (fs st1 !! (get_assignment_dir env (assignment args) // f)) →
  check_git_status env (get_assignment_dir env (assignment args) // f)
    (emit (entry_header (assignment args) (length (pre ++ dep :: rest)) (1 + length pre) sa f) st1)
    = (Ok g, sg) →
  g !! "status" = Some "modified" →
  force_all v1 = false →
  stdin sg = Line typed :: rest_in →
  Py.strip (Py.lower typed) = "q" →
  run_script env Setup args st
  = (0%Z, emit (prompt_lines env g ++ [cancelled_line env]) (set_stdin rest_in sg)).
Proof.
  intros Hmeta Hinfo Hdeps Hpre Hfrom Hfile Hsrc Htgt Hgit Hmod Hforce Hin Hq.
  pose proof (setup_entry_quit_run env (assignment args)
                (get_assignment_dir env (assignment args))
                (length (pre ++ dep :: rest)) (1 + length pre) dep v1 st1 sa f g sg typed rest_in
                Hfrom Hfile Hsrc Htgt Hgit Hmod Hforce Hin Hq) as Hentry.
  unfold run_script, main, dispatch, cmd_setup.
  rewrite bind_unfold, enter_run, bind_unfold, (load_metadata_Ok env _ md t) by done.
  rewrite Hinfo, Hdeps. cbn [default]. unfold id.
  assert (∀ (X : Type) (x y : X),
            match pre ++ dep :: rest with [] => x | _ :: _ => y end = y) as ->.
  { intros X x y. by destruct pre. }
  mrun.
  change (write_stdout ?c2 (write_stdout ?c1 (log_call "cmd_setup" st)))
    with (emit (setup_banner env (assignment args)) (log_call "cmd_setup" st)).
  fold (setup_start args).
  unfold id. rewrite setup_loop_app, Hpre.
  cbn [setup_loop]. rewrite bind_unfold, Hentry. done.
Qed.

Lemma quit_aborts_setup_witness :
  run_script Sample.env_modified Setup Sample.A4 Sample.quit_state
  = (0%Z, emit (prompt_lines Sample.env_modified
                  {[ "status" := "modified"; "commit" := "abc1234"; "time" := "2 days ago";
                     "message" := "Fix the solver" ]}
                ++ [cancelled_line Sample.env_modified])
            (set_stdin [] Sample.at_second_prompt)).
Proof.
  apply (quit_aborts_setup Sample.env_modified Sample.A4 Sample.quit_state
           (<[ "A4" := Sample.A4_info ]> Sample.metadata) 0 Sample.A4_info
           [ {| dep_from := Some "A3"; dep_file := Some "src/Solver.java" |} ]
           {| dep_from := Some "A2"; dep_file := Some "src/CFGBuilder.java" |}
           [ {| dep_from := Some "A2"; dep_file := Some "src/Missing.java" |} ]
           {| success_count := 1; skip_count := 0; force_all := false |}
           Sample.after_first_entry "A2" "src/CFGBuilder.java"
           {[ "status" := "modified"; "commit" := "abc1234"; "time" := "2 days ago";
              "message" := "Fix the solver" ]}
           Sample.at_second_prompt " Q " []).
  - vm_compute. reflexivity.
  - vm_compute. reflexivity.
  - reflexivity.
  - unfold Sample.after_first_entry. cbn [assignment Sample.A4 length app].
    apply pair_eta_fst. vm_compute. reflexivity.
  - reflexivity.
  - reflexivity.
  - vm_compute. eexists. reflexivity.
  - vm_compute. eexists. reflexivity.
  - unfold Sample.at_second_prompt. cbn [assignment Sample.A4 length app Nat.add].
    apply pair_eta_fst. vm_compute. reflexivity.
  - vm_compute. reflexivity.
  - reflexivity.
  - vm_compute. reflexivity.
  - vm_compute. reflexivity.
Defined.

(** ** The counts [setup] reports, on the whole run *)

(** C10.  A run of [setup] over a non-empty dependency list that reaches
    its summary ends with status 0 after printing, as [Copied] and
    [Skipped], the two counters of its loop (the [Skipped] line only when
    the counter is positive).  Their sum is at most the length of the
    list, and strictly less when some entry had no source file or had its
    copy reported as failed: such an entry is counted in neither. *)
Theorem setup_reports_counts env args st md t info deps st' :
  let assignment := assignment args in
  let target_dir := get_assignment_dir env assignment in
  let start := emit (setup_banner env assignment) (log_call "cmd_setup" st) in
  fs st !! metadata_file env = Some (File (MetadataJson md) t) →
  md !! assignment = Some info →
  dependencies info = Some deps →
  deps ≠ [] →
  cmd_setup env args st = (Ok tt, st') →
  ∃ v st1,
    setup_loop env assignment target_dir (length deps) 1 deps (setup_start args) start
      = (Ok v, st1)
    ∧ run_script env Setup args st = (0%Z, emit (summary_lines env v) st1)
    ∧ success_count v + skip_count v ≤ length deps
    ∧ ∀ pre dep post v1 s1,
        deps = pre ++ dep :: post →
        setup_loop env assignment target_dir (length deps) 1 pre (setup_start args) start
          = (Ok v1, s1) →
        source_absent env s1 dep
          ∨ (∃ msg, last (stdout (setup_entry env assignment target_dir (length deps)
                                    (1 + length pre) dep v1 s1).2)
                    = Some (failed_line env msg)) →
        success_count v + skip_count v < length deps.
Proof.
  intros a tdir start Hmeta Hinfo Hdeps Hne Hrun.
  assert (cmd_setup env args st
          = match setup_loop env a tdir (length deps) 1 deps (setup_start args) start with
            | (Ok v, st1) => (Ok tt, emit (summary_lines env v) st1)
            | (Raise e, st1) => (Raise e, st1)
            end) as Hcmd.
  { unfold cmd_setup.
    rewrite bind_unfold, enter_run, bind_unfold, (load_metadata_Ok env _ md t) by done.
    fold a. rewrite Hinfo, Hdeps. cbn [default]. unfold id.
    destruct deps as [|dep0 deps0]; [done|].
    mrun. fold tdir. fold (setup_start args).
    change (write_stdout ?c2 (write_stdout ?c1 (log_call "cmd_setup" st))) with start.
    destruct (setup_loop env a tdir (length (dep0 :: deps0)) 1 (dep0 :: deps0)
                (setup_start args) start) as [[v|e] st1]; [|done].
    apply setup_summary_run. }
  destruct (setup_loop env a tdir (length deps) 1 deps (setup_start args) start)
    as [[v|e] st1] eqn:Hloop; [|by rewrite Hcmd in Hrun].
  exists v, st1. split; [done|]. split; [|split].
  - unfold run_script, main. simpl dispatch. by rewrite Hcmd.
  - apply setup_loop_bound in Hloop. unfold counted in Hloop. simpl in Hloop. lia.
  - intros pre dep post v1 s1 -> Hpre Hbad.
    rewrite setup_loop_app, Hpre in Hloop. cbn [setup_loop] in Hloop.
    rewrite bind_unfold in Hloop.
    destruct (setup_entry env a tdir (length (pre ++ dep :: post)) (1 + length pre) dep v1 s1)
      as [[v2|e] s2] eqn:Hentry; [|done].
    apply setup_loop_bound in Hpre, Hloop.
    apply setup_entry_counts in Hentry as (_ & Habs & Hfail).
    assert (counted v2 = counted v1) as Heq.
    { destruct Hbad as [?|[msg Hmsg]]; [by apply Habs|by eapply Hfail]. }
    unfold counted in *. rewrite length_app. simpl in *. lia.
Qed.

Lemma setup_reports_counts_witness :
  ∃ v st1,
    setup_loop Sample.env "A4" (get_assignment_dir Sample.env "A4") 3 1 Sample.A4_deps
      (setup_start Sample.A4)
      (emit (setup_banner Sample.env "A4")
         (log_call "cmd_setup" (Sample.state Sample.edited_tree [])))
      = (Ok v, st1)
    ∧ run_script Sample.env Setup Sample.A4 (Sample.state Sample.edited_tree [])
      = (0%Z, emit (summary_lines Sample.env v) st1)
    ∧ success_count v + skip_count v ≤ 3
    ∧ ∀ pre dep post v1 s1,
        Sample.A4_deps = pre ++ dep :: post →
        setup_loop Sample.env "A4" (get_assignment_dir Sample.env "A4") 3 1 pre
          (setup_start Sample.A4)
          (emit (setup_banner Sample.env "A4")
             (log_call "cmd_setup" (Sample.state Sample.edited_tree [])))
          = (Ok v1, s1) →
        source_absent Sample.env s1 dep
          ∨ (∃ msg, last (stdout (setup_entry Sample.env "A4"
                                    (get_assignment_dir Sample.env "A4") 3
                                    (1 + length pre) dep v1 s1).2)
                    = Some (failed_line Sample.env msg)) →
        success_count v + skip_count v < 3.
Proof.
  apply (setup_reports_counts Sample.env Sample.A4 (Sample.state Sample.edited_tree [])
           (<[ "A4" := Sample.A4_info ]> Sample.metadata) 0 Sample.A4_info Sample.A4_deps
           (cmd_setup Sample.env Sample.A4 (Sample.state Sample.edited_tree [])).2).
  - vm_compute. reflexivity.
  - vm_compute. reflexivity.
  - reflexivity.
  - done.
  - apply pair_eta_fst. vm_compute. reflexivity.
Defined.

Global Instance fs_out_blind : OutBlind fs.
Proof. by intros c st. Qed.
Global Instance fs_in_blind : InBlind fs.
Proof. by intros l st. Qed.
Global Instance fs_log_blind : LogBlind fs.
Proof. by intros n st. Qed.
Global Instance stdin_out_blind : OutBlind stdin.
Proof. by intros c st. Qed.
Global Instance stdin_log_blind : LogBlind stdin.
Proof. by intros n st. Qed.
Global Instance stdin_tree_blind : TreeBlind stdin.
Proof. by intros g st. Qed.
Global Instance stdout_in_blind : InBlind stdout.
Proof. by intros l st. Qed.
Global Instance stdout_log_blind : LogBlind stdout.
Proof. by intros n st. Qed.
Global Instance stdout_tree_blind : TreeBlind stdout.
Proof. by intros g st. Qed.
Global Instance calls_out_blind : OutBlind calls.
Proof. by intros c st. Qed.
Global Instance calls_in_blind : InBlind calls.
Proof. by intros l st. Qed.
Global Instance calls_tree_blind : TreeBlind calls.
Proof. by intros g st. Qed.
Global Instance at_path_out_blind q : OutBlind (at_path q).
Proof. by intros c st. Qed.
Global Instance at_path_in_blind q : InBlind (at_path q).
Proof. by intros l st. Qed.
Global Instance at_path_log_blind q : LogBlind (at_path q).
Proof. by intros n st. Qed.

Create HintDb kp discriminated.

Section keeps.
Context {B : Type} (f : State → B).

Lemma kp_ret {A} (a : A) : keeps f (mret a).
Proof. by intros st. Qed.

Lemma kp_raise {A} e : keeps f (raise (A := A) e).
Proof. by intros st. Qed.

Lemma kp_sys_exit {A} code : keeps f (sys_exit (A := A) code).
Proof. by intros st. Qed.

Lemma kp_gets {A} (g : State → A) : keeps f (gets g).
Proof. by intros st. Qed.

Lemma kp_bind {A C} (m : M A) (k : A → M C) :
  keeps f m → (∀ a, keeps f (k a)) → keeps f (m ≫= k).
Proof.
  intros Hm Hk st. rewrite bind_unfold. specialize (Hm st).
  destruct (m st) as [[a|e] st1]; cbn [snd] in *; [|done].
  by rewrite (Hk a st1).
Qed.

Lemma kp_try_except {A} (body : M A) handler :
  keeps f body → (∀ cls msg, keeps f (handler cls msg)) → keeps f (try_except body handler).
Proof.
  intros Hb Hh st. unfold try_except. specialize (Hb st).
  destruct (body st) as [[a|[| |cls msg]] st1]; cbn [snd] in *; try done.
  by rewrite (Hh cls msg st1).
Qed.

Lemma kp_getitem {A} key (v : option A) : keeps f (getitem key v).
Proof. by destruct v. Qed.

Lemma kp_oserror {A} cls errno what p : keeps f (Fs.oserror (A := A) cls errno what p).
Proof. by intros st. Qed.

Lemma kp_exists p : keeps f (Fs.exists_ p).
Proof. by intros st. Qed.

Lemma kp_st_mtime p : keeps f (Fs.st_mtime p).
Proof. intros st. unfold Fs.st_mtime. by destruct (fs st !! p) as [[]|]. Qed.

Lemma kp_load_failure {A} p : keeps f (Json.load_failure (A := A) p).
Proof. intros st. unfold Json.load_failure. by destruct (fs st !! p) as [[]|]. Qed.

Lemma kp_json_load_config p : keeps f (Json.load_config p).
Proof.
  intros st. unfold Json.load_config.
  destruct (fs st !! p) as [[[]|]|]; try done; apply kp_load_failure.
Qed.

Lemma kp_json_load_metadata p : keeps f (Json.load_metadata p).
Proof.
  intros st. unfold Json.load_metadata.
  destruct (fs st !! p) as [[[]|]|]; try done; apply kp_load_failure.
Qed.

Lemma kp_print `{!OutBlind f} s : keeps f (print s).
Proof. intros st. apply out_blind. Qed.

Lemma kp_print_noend `{!OutBlind f} s : keeps f (print_noend s).
Proof. intros st. apply out_blind. Qed.

Lemma kp_enter `{!LogBlind f} name : keeps f (enter name).
Proof. intros st. apply log_blind. Qed.

Lemma kp_readline `{!InBlind f} : keeps f readline.
Proof.
  intros st. unfold readline. destruct (stdin st) as [|[] ?]; cbn [snd]; try done;
    apply in_blind.
Qed.

Lemma kp_set_fs `{!TreeBlind f} g : keeps f (modify (set_fs g)).
Proof. intros st. apply tree_blind. Qed.

Lemma kp_create `{!TreeBlind f} p n : keeps f (Fs.create p n).
Proof.
  intros st. unfold Fs.create. destruct (fs st !! PathLib.parent p) as [[]|]; try done.
  apply tree_blind.
Qed.

Lemma kp_mkdir `{!TreeBlind f} clock p : keeps f (Fs.mkdir clock p).
Proof.
  intros st. unfold Fs.mkdir. destruct (fs st !! p) as [[]|]; try done. apply kp_create.
Qed.

Lemma kp_write_file `{!TreeBlind f} clock p data : keeps f (Fs.write_file clock p data).
Proof.
  intros st. unfold Fs.write_file. destruct (fs st !! p) as [[]|]; try done; apply kp_create.
Qed.

Lemma kp_copy2 `{!TreeBlind f} src dst : keeps f (Fs.copy2 src dst).
Proof.
  intros st. unfold Fs.copy2. case_bool_decide; [done|].
  destruct (fs st !! src) as [[]|]; try done.
  match goal with |- context [fs st !! ?q] => destruct (fs st !! q) as [[]|] end;
    try done; apply kp_create.
Qed.

Lemma kp_run `{!TreeBlind f} env cmd cwd : keeps f (run env cmd cwd).
Proof.
  intros st. unfold run.
  destruct (subprocess_run env cmd cwd (fs st)) as [[] t]; cbn [snd]; apply tree_blind.
Qed.

End keeps.

Global Hint Resolve kp_ret kp_raise kp_sys_exit kp_gets kp_getitem kp_oserror kp_exists
  kp_st_mtime kp_load_failure kp_json_load_config kp_json_load_metadata kp_print
  kp_print_noend kp_enter kp_readline kp_set_fs kp_create kp_mkdir kp_write_file kp_copy2
  kp_run : kp.

Ltac kp_step :=
  match goal with
  | |- keeps _ (_ ≫= _) => apply kp_bind; [|intros]
  | |- keeps _ (try_except _ _) => apply kp_try_except; [|intros]
  | |- keeps _ (if ?b then _ else _) => destruct b
  | |- keeps _ (match ?x with _ => _ end) => destruct x
  | |- keeps _ _ => solve [auto with kp typeclass_instances]
  end.
Ltac kp := repeat kp_step.

Lemma kp_makedirs {B} (f : State → B) `{!TreeBlind f} clock p : keeps f (Fs.makedirs clock p).
Proof.
  unfold Fs.makedirs. generalize (@nil string) as pre.
  induction p as [|c rest IH]; intros pre; simpl; kp.
Qed.

Lemma kp_load_config {B} (f : State → B) `{!OutBlind f} env : keeps f (load_config env).
Proof. unfold load_config. kp. Qed.

Lemma kp_load_metadata {B} (f : State → B) `{!OutBlind f} env : keeps f (load_metadata env).
Proof. unfold load_metadata. kp. Qed.

Global Hint Resolve kp_makedirs kp_load_config kp_load_metadata : kp.

Lemma kp_check_git_status {B} (f : State → B) `{!TreeBlind f} env p :
  keeps f (check_git_status env p).
Proof.
  intros st. unfold check_git_status.
  assert (keeps f (git_probe env p)) as Hprobe. { unfold git_probe. kp. }
  assert (keeps f (git_fallback env p)) as Hfb. { unfold git_fallback. kp. }
  specialize (Hprobe st). destruct (git_probe env p st) as [[g|[| |cls msg]] st1];
    cbn [snd] in *; try done.
  destruct (_ || _); [|done]. by rewrite Hfb.
Qed.

Global Hint Resolve kp_check_git_status : kp.

(** ** The exit status of a run *)

Section raises_closed.
Context (E : exn → Prop) (HE : ∀ e, ends_with_1 e → E e).

Local Lemma E_exit1 : E (SystemExit 1).
Proof. apply HE. by left. Qed.
Local Lemma E_interrupt : E KeyboardInterrupt.
Proof. apply HE. by right; left. Qed.
Local Lemma E_exception e : is_Exception e → E e.
Proof. intros. apply HE. by right; right. Qed.
Local Hint Resolve E_exit1 E_interrupt E_exception : rs.
Local Hint Resolve rs_sys_exit rs_oserror rs_getitem rs_run rs_readline rs_create
  rs_makedirs_from rs_copy2 : rs.

Lemma rs_load_failure {A} p : raises E (Json.load_failure (A := A) p).
Proof.
  intros st e. unfold Json.load_failure.
  destruct (fs st !! p) as [[]|]; intros [= <-]; apply E_exception; by eexists _, _.
Qed.

Lemma rs_json_load_config p : raises E (Json.load_config p).
Proof.
  intros st e. unfold Json.load_config.
  destruct (fs st !! p) as [[[]|]|]; try done; apply rs_load_failure.
Qed.

Lemma rs_json_load_metadata p : raises E (Json.load_metadata p).
Proof.
  intros st e. unfold Json.load_metadata.
  destruct (fs st !! p) as [[[]|]|]; try done; apply rs_load_failure.
Qed.

Local Hint Resolve rs_json_load_config rs_json_load_metadata : rs.

Lemma rs_load_config env : raises E (load_config env).
Proof. unfold load_config. rs. Qed.

Lemma rs_load_metadata env : raises E (load_metadata env).
Proof. unfold load_metadata. rs. Qed.

Lemma rs_mkdir clock p : raises E (Fs.mkdir clock p).
Proof.
  intros st e. unfold Fs.mkdir. destruct (fs st !! p) as [[]|]; try done.
  - apply rs_oserror; auto with rs.
  - apply rs_create; auto with rs.
Qed.

Lemma rs_write_file clock p data : raises E (Fs.write_file clock p data).
Proof.
  intros st e. unfold Fs.write_file.
  destruct (fs st !! p) as [[]|]; try (apply rs_create; auto with rs).
  apply rs_oserror; auto with rs.
Qed.

Lemma rs_st_mtime p : raises E (Fs.st_mtime p).
Proof.
  intros st e. unfold Fs.st_mtime. destruct (fs st !! p) as [[]|]; try done.
  apply rs_oserror; auto with rs.
Qed.

Lemma rs_zip_write clock p written source name :
  raises E (Zip.write clock p written source name).
Proof. unfold Zip.write. rs. Qed.

Local Hint Resolve rs_load_config rs_load_metadata rs_mkdir rs_write_file rs_st_mtime
  rs_zip_write : rs.

Lemma rs_check_git_status env p : raises E (check_git_status env p).
Proof.
  assert (raises E (git_probe env p)) as Hprobe. { unfold git_probe. rs. }
  assert (raises E (git_fallback env p)) as Hfb. { unfold git_fallback. rs. }
  intros st e. unfold check_git_status. specialize (Hprobe st).
  destruct (git_probe env p st) as [[g|[| |cls msg]] st1]; cbn [fst] in *; try done.
  - intros [= <-]. by apply Hprobe.
  - intros [= <-]. by apply Hprobe.
  - destruct (_ || _); [apply Hfb|]. intros [= <-]. by apply Hprobe.
Qed.

Lemma rs_collect_files env adir files acc miss :
  raises E (collect_files env adir files acc miss).
Proof. revert acc miss. induction files as [|f files IH]; intros acc miss; simpl; rs. Qed.

Lemma rs_write_entries env zip_path files written :
  raises E (write_entries env zip_path files written).
Proof.
  revert written. induction files as [|[source arcname] files IH]; intros written; simpl; rs.
Qed.

Lemma rs_perform_copy env src tgt m v : raises E (perform_copy env src tgt m v).
Proof.
  unfold perform_copy. apply rs_try_except with (E' := is_Exception).
  - unfold Fs.makedirs. rs; auto with rs.
  - auto.
  - intros cls msg. rs.
Qed.

Local Hint Resolve rs_check_git_status rs_collect_files rs_write_entries rs_perform_copy : rs.

Lemma rs_cmd_config env args : raises E (cmd_config env args).
Proof. unfold cmd_config, save_config, input, enter. rs. Qed.

Lemma rs_mapM {A B} (f : A → M B) l : (∀ a, raises E (f a)) → raises E (mapM f l).
Proof. intros Hf. induction l as [|a l IH]; simpl; rs. Qed.

Lemma rs_list_entry env id info : raises E (list_entry env id info).
Proof. unfold list_entry. rs. apply rs_mapM. intros. rs. Qed.

Lemma rs_cmd_list env args : raises E (cmd_list env args).
Proof.
  unfold cmd_list, enter. rs.
  match goal with |- raises E (_ ?l) => induction l as [|id ids IH] end; [rs|].
  apply rs_bind; [rs|intros]. apply rs_bind; [apply rs_list_entry|intros]. apply IH.
Qed.

Lemma rs_cmd_info env args : raises E (cmd_info env args).
Proof.
  unfold cmd_info, enter. rs.
  - match goal with |- raises E (_ ?l) => induction l as [|x l IH] end; [rs|].
    apply rs_bind; [rs|intros]. apply IH.
  - match goal with |- raises E (_ ?l) => induction l as [|x l IH] end; [rs|].
    apply rs_bind; [rs|intros]. apply rs_bind; [rs|intros]. apply rs_bind; [rs|intros].
    apply IH.
Qed.

Lemma rs_cmd_test env args : raises E (cmd_test env args).
Proof.
  eapply rs_weaken; [|apply cmd_test_raises].
  intros e [->| ->]; auto with rs.
Qed.

Lemma rs_cmd_package env args : raises E (cmd_package env args).
Proof. unfold cmd_package, invalid_assignment, Zip.open_w, enter. rs. Qed.

Lemma rs_cmd_submit env args : raises E (cmd_submit env args).
Proof.
  unfold cmd_submit, enter. rs; try apply rs_cmd_test; apply rs_cmd_package.
Qed.

(** [setup] alone can also leave with [sys.exit(0)]. *)
Lemma rs_setup_loop env a tdir n idx deps v :
  E (SystemExit 0) → raises E (setup_loop env a tdir n idx deps v).
Proof.
  intros H0. revert idx v.
  induction deps as [|dep deps IH]; intros idx v; simpl; [rs|].
  apply rs_bind; [|intros; apply IH]. unfold setup_entry. rs.
Qed.

Lemma rs_cmd_setup env args : E (SystemExit 0) → raises E (cmd_setup env args).
Proof.
  intros H0. unfold cmd_setup, invalid_assignment, setup_summary, enter. rs.
  by apply rs_setup_loop.
Qed.

End raises_closed.

Lemma dispatch_raises env c args :
  raises (λ e, (c = Setup ∧ e = SystemExit 0) ∨ ends_with_1 e) (dispatch env c args).
Proof.
  assert (∀ e, ends_with_1 e → (c = Setup ∧ e = SystemExit 0) ∨ ends_with_1 e) as HE by auto.
  destruct c; simpl.
  - by apply rs_cmd_config.
  - by apply rs_cmd_list.
  - by apply rs_cmd_info.
  - apply rs_cmd_setup; auto.
  - apply rs_bind; [by apply rs_cmd_test|intros; apply rs_ret].
  - by apply rs_cmd_package.
  - by apply rs_cmd_submit.
Qed.

(** X3.  Every run of the script ends with exit status 0 or 1, whatever the
    command, the file tree, the input and the child processes do.  Status 0
    means that the command ran to its end, or, for [setup] only, that the
    command left with [sys.exit(0)]. *)
Theorem exit_status_0_or_1 env c args st :
  let status := (run_script env c args st).1 in
  (status = 0%Z ∨ status = 1%Z)
  ∧ (status = 0%Z →
     (dispatch env c args st).1 = Ok tt
     ∨ (c = Setup ∧ (dispatch env c args st).1 = Raise (SystemExit 0))).
Proof.
  intros status. subst status.
  pose proof (dispatch_raises env c args st) as Hr.
  unfold run_script, main.
  destruct (dispatch env c args st) as [[[]|e] st1]; cbn [fst] in *.
  - simpl. auto.
  - destruct (Hr e eq_refl) as [[-> ->]|[->|[->|(cls & msg & ->)]]]; simpl; auto.
    + split; [auto|intros [=]].
    + split; [auto|intros [=]].
    + destruct (debug env); (split; [auto|intros [=]]).
Qed.

(** ** The [test] command *)

Lemma dispatch_test env args st :
  dispatch env Test_ args st =
    match cmd_test env args st with
    | (Ok _, st1) => (Ok tt, st1)
    | (Raise e, st1) => (Raise e, st1)
    end.
Proof. simpl. rewrite bind_unfold. by destruct (cmd_test env args st) as [[]]. Qed.

(** X4.  The [test] command does not turn the verdict of the test runner
    into its exit status: once the assignment directory and the wrapper
    exist, the run ends with status 0 whether the child process succeeds,
    exits with a non-zero code or cannot be run; only an interrupt of the
    child gives status 1. *)
Theorem test_status_ignores_verdict env args st r t' :
  let assignment_dir := get_assignment_dir env (assignment args) in
  let gradle_wrapper :=
    assignment_dir // (if os_is_nt env then "gradlew.bat" else "gradlew") in
  is_Some (fs st !! assignment_dir) →
  is_Some (fs st !! gradle_wrapper) →
  subprocess_run env [PathLib.str gradle_wrapper; "test"; "--console=plain"]
    assignment_dir (fs st) = (r, t') →
  (run_script env Test_ args st).1 = (if r is Interrupted then 1 else 0)%Z.
Proof.
  intros adir wrapper Hdir Hwrapper Hrun.
  pose proof (cmd_test_child env args st r t' Hdir Hwrapper Hrun) as Hchild.
  unfold run_script, main. rewrite dispatch_test.
  destruct (cmd_test env args st) as [o st1]. cbn [fst] in Hchild. subst o.
  by destruct r.
Qed.

(** X5.  Without the assignment directory, or without the wrapper script in
    it, [test] ends with status 1 and starts no child process: the file
    tree and the input are as before the run. *)
Theorem test_without_wrapper env args st :
  let assignment_dir := get_assignment_dir env (assignment args) in
  let gradle_wrapper :=
    assignment_dir // (if os_is_nt env then "gradlew.bat" else "gradlew") in
  fs st !! assignment_dir = None ∨ fs st !! gradle_wrapper = None →
  (run_script env Test_ args st).1 = 1%Z
  ∧ fs (run_script env Test_ args st).2 = fs st
  ∧ stdin (run_script env Test_ args st).2 = stdin st.
Proof.
  intros adir wrapper Hnone.
  assert (∃ out, cmd_test env args st = (Raise (SystemExit 1), emit out (log_call "cmd_test" st)))
    as [out Htest].
  { unfold cmd_test. rewrite bind_unfold, enter_run, bind_unfold.
    unfold Fs.exists_ at 1, gets at 1.
    change (fs (log_call "cmd_test" st)) with (fs st). fold adir.
    destruct (fs st !! adir) as [n|] eqn:Hdir.
    - rewrite bool_decide_true by done. cbn [negb].
      rewrite bind_unfold, print_run, bind_unfold, print_run, bind_unfold.
      unfold Fs.exists_ at 1, gets at 1.
      assert (adir // Py.lstrip_chars ["."; "/"]%char
                (if os_is_nt env then "gradlew.bat" else "./gradlew") = wrapper) as ->.
      { unfold wrapper. by destruct (os_is_nt env). }
      match goal with |- context [bool_decide (is_Some (fs ?s !! wrapper))] =>
        change (fs s) with (fs st) end.
      destruct Hnone as [[=]|Hw]. rewrite Hw.
      rewrite bool_decide_false by (by intros [? [=]]). cbn [negb].
      rewrite bind_unfold, print_run.
      by eexists [_; _; _].
    - rewrite bool_decide_false by (by intros [? [=]]). cbn [negb].
      rewrite bind_unfold, print_run. by eexists [_]. }
  unfold run_script, main. rewrite dispatch_test, Htest. cbn [fst snd exit_status].
  destruct (emit_fields out (log_call "cmd_test" st)) as (Hfs & Hin & _). by rewrite Hfs, Hin.
Qed.

Lemma test_status_ignores_verdict_witness :
  (run_script Cases.env_failing Test_ Sample.A3 (Sample.state Cases.gradle_tree [])).1 = 0%Z.
Proof.
  apply (test_status_ignores_verdict Cases.env_failing Sample.A3
           (Sample.state Cases.gradle_tree []) (Completed 1 ("BUILD FAILED" +:+ Py.LF))
           Cases.gradle_tree).
  - eexists. vm_compute. reflexivity.
  - eexists. vm_compute. reflexivity.
  - reflexivity.
Defined.

Lemma test_without_wrapper_witness :
  (run_script Sample.env Test_ Sample.A3 (Sample.state Sample.configured_tree [])).1 = 1%Z
  ∧ fs (run_script Sample.env Test_ Sample.A3 (Sample.state Sample.configured_tree [])).2
    = Sample.configured_tree
  ∧ stdin (run_script Sample.env Test_ Sample.A3 (Sample.state Sample.configured_tree [])).2
    = [].
Proof.
  apply (test_without_wrapper Sample.env Sample.A3 (Sample.state Sample.configured_tree [])).
  right. vm_compute. reflexivity.
Defined.

(** ** The [list] command *)

Lemma metadata_keys_elem md k : k ∈ metadata_keys md ↔ is_Some (md !! k).
Proof.
  unfold metadata_keys, Py.sorted. rewrite merge_sort_Permutation.
  by rewrite elem_of_elements, elem_of_dom.
Qed.

Lemma mapM_from_cases (deps : list dependency) st :
  (Forall (λ dep, is_Some (dep_from dep)) deps
   ∧ ∃ froms, mapM (λ dep, getitem "from" (dep_from dep)) deps st = (Ok froms, st))
  ∨ (¬ Forall (λ dep, is_Some (dep_from dep)) deps
     ∧ mapM (λ dep, getitem "from" (dep_from dep)) deps st
       = (Raise (Exception KeyError (Py.repr "from")), st)).
Proof.
  induction deps as [|dep deps IH]; simpl.
  - left. split; [constructor|]. by eexists.
  - rewrite bind_unfold. destruct (dep_from dep) as [from|] eqn:E; simpl.
    + rewrite bind_unfold. destruct IH as [[Hall [froms ->]]|[Hnot ->]].
      * left. split; [constructor; by rewrite ?E|]. by eexists.
      * right. split; [|done]. intros Hall. apply Hnot. by inversion Hall.
    + right. split; [|done]. intros Hall. inversion Hall as [|?? [? Hs]]; subst.
      rewrite E in Hs. done.
Qed.

Lemma list_entry_cases env id info st :
  (listable info ∧ ∃ out, list_entry env id info st = (Ok tt, emit out st))
  ∨ (¬ listable info
     ∧ ∃ msg out, list_entry env id info st = (Raise (Exception KeyError msg), emit out st)).
Proof.
  unfold list_entry, listable.
  destruct (info_name info) as [name|] eqn:En; simpl.
  - rewrite bind_unfold. cbn [getitem]. rewrite ret_run.
    rewrite bind_unfold, print_run, bind_unfold, print_run, bind_unfold, print_run.
    set (deps := default [] (dependencies info)).
    case_bool_decide as Hlen.
    + rewrite bind_unfold.
      match goal with |- context [mapM _ deps ?s] =>
        destruct (mapM_from_cases deps s) as [[Hall [froms ->]]|[Hnot ->]] end.
      * left. split; [by split|]. rewrite print_run. by eexists [_; _; _; _].
      * right. split; [by intros [_ ?]|]. by eexists _, [_; _; _].
    + left. destruct deps; [|simpl in Hlen; lia].
      split; [split; [done|constructor]|]. by eexists [_; _; _].
  - right. split; [by intros [[? [=]] _]|]. rewrite bind_unfold. cbn [getitem].
    eexists _, []. by rewrite emit_nil.
Qed.

(** X7.  With the metadata in place, [list] runs to its end exactly when
    every entry of the metadata has a [name] and every dependency of every
    entry has a [from]; otherwise it stops with a [KeyError].  In both cases
    it leaves the file tree and the input as they are. *)
Theorem list_succeeds_iff env args st md t :
  fs st !! metadata_file env = Some (File (MetadataJson md) t) →
  ((cmd_list env args st).1 = Ok tt ↔ ∀ id info, md !! id = Some info → listable info)
  ∧ ((cmd_list env args st).1 = Ok tt ∨ is_KeyError (cmd_list env args st).1)
  ∧ fs (cmd_list env args st).2 = fs st
  ∧ stdin (cmd_list env args st).2 = stdin st.
Proof.
  intros Hmd. unfold cmd_list.
  rewrite bind_unfold, enter_run, bind_unfold.
  rewrite (load_metadata_Ok env _ md t) by done.
  rewrite bind_unfold, print_run, bind_unfold, print_run.
  match goal with |- context [?f (metadata_keys md) ?s] => set (loop := f); set (st0 := s) end.
  assert (fs st0 = fs st ∧ stdin st0 = stdin st) as [<- <-] by done.
  clearbody st0. clear Hmd.
  assert (∀ ids s, (∀ id, id ∈ ids → is_Some (md !! id)) →
            ((loop ids s).1 = Ok tt ↔ ∀ id info, id ∈ ids → md !! id = Some info → listable info)
            ∧ ((loop ids s).1 = Ok tt ∨ is_KeyError (loop ids s).1)
            ∧ fs (loop ids s).2 = fs s ∧ stdin (loop ids s).2 = stdin s) as Hloop.
  { induction ids as [|id ids IH]; intros s Hids.
    - simpl. split; [|by auto]. split; [|done]. intros _ ?? []%elem_of_nil.
    - change (loop (id :: ids) s)
        with ((info ← getitem id (md !! id); list_entry env id info;; loop ids) s).
      destruct (Hids id) as [info Hinfo]; [left|].
      rewrite bind_unfold, Hinfo. cbn [getitem]. rewrite ret_run, bind_unfold.
      destruct (list_entry_cases env id info s) as [[Hl [out ->]]|[Hnl (msg & out & ->)]].
      + destruct (IH (emit out s)) as (Hiff & Hor & Hfs & Hin).
        { intros. apply Hids. by right. }
        rewrite Hfs, Hin. destruct (emit_fields out s) as (-> & -> & _).
        split; [|done]. rewrite Hiff. split.
        * intros H id' info' [->|?]%elem_of_cons ?; [|by eapply H]. congruence.
        * intros H id' info' ??. eapply H; [by right|done].
      + cbn [fst snd]. destruct (emit_fields out s) as (-> & -> & _).
        split; [|split; [right; by eexists|done]].
        split; [done|]. intros H. destruct Hnl. eapply H; [left|done]. }
  destruct (Hloop (metadata_keys md) st0) as (Hiff & Hor & Hfs & Hin).
  { intros id. by rewrite metadata_keys_elem. }
  split; [|done]. rewrite Hiff. split.
  - intros H id info Hi. eapply H; [|done]. rewrite metadata_keys_elem. by eexists.
  - intros H id info _. apply H.
Qed.

Lemma list_succeeds_iff_witness :
  ((cmd_list Sample.env Sample.A3 (Sample.state Sample.fresh_tree [])).1 = Ok tt
   ↔ ∀ id info, Sample.metadata !! id = Some info → listable info)
  ∧ ((cmd_list Sample.env Sample.A3 (Sample.state Sample.fresh_tree [])).1 = Ok tt
     ∨ is_KeyError (cmd_list Sample.env Sample.A3 (Sample.state Sample.fresh_tree [])).1)
  ∧ fs (cmd_list Sample.env Sample.A3 (Sample.state Sample.fresh_tree [])).2 = Sample.fresh_tree
  ∧ stdin (cmd_list Sample.env Sample.A3 (Sample.state Sample.fresh_tree [])).2 = [].
Proof.
  apply (list_succeeds_iff Sample.env Sample.A3 (Sample.state Sample.fresh_tree [])
           Sample.metadata 0).
  vm_compute. reflexivity.
Defined.

(** ** Missing keys and missing documents *)

Lemma run_script_dispatch env c args st o st1 :
  dispatch env c args st = (o, st1) →
  (∀ cls msg, o ≠ Raise (Exception cls msg)) → o ≠ Raise KeyboardInterrupt →
  run_script env c args st = (exit_status o, st1).
Proof.
  intros E Hexc Hint. unfold run_script, main. rewrite E.
  destruct o as [a|[code| |cls msg]]; try done. by destruct (Hexc cls msg).
Qed.

(** What [main] prints for an [Exception] that reaches it. *)
Lemma run_script_exception env c args st cls msg st1 :
  dispatch env c args st = (Raise (Exception cls msg), st1) →
  run_script env c args st
  = (1%Z, emit [line (Py.LF +:+ RED env +:+ "✗ Error: " +:+ msg +:+ RESET env)] st1).
Proof.
  intros E. unfold run_script, main. rewrite E, bind_unfold, print_run.
  by destruct (debug env).
Qed.

(** X8.  [setup] for an assignment whose entry has no [dependencies] key,
    or an empty list there, prints one line and ends with status 0; it
    changes nothing in the tree and reads no input. *)
Theorem setup_without_dependencies env args st md t info :
  fs st !! metadata_file env = Some (File (MetadataJson md) t) →
  md !! assignment args = Some info →
  dependencies info = None ∨ dependencies info = Some [] →
  run_script env Setup args st
  = (0%Z, emit [line (YELLOW env +:+ "ℹ Assignment " +:+ assignment args
                      +:+ " has no dependencies" +:+ RESET env)]
            (log_call "cmd_setup" st)).
Proof.
  intros Hmd Hinfo Hdeps.
  apply (run_script_dispatch env Setup args st (Ok tt)); [|done..].
  simpl. unfold cmd_setup. rewrite bind_unfold, enter_run, bind_unfold.
  rewrite (load_metadata_Ok env _ md t) by done. rewrite Hinfo.
  by destruct Hdeps as [-> | ->].
Qed.

Lemma setup_without_dependencies_witness :
  run_script Sample.env Setup {| assignment := "A2"; force := false; verbose := false |}
    (Sample.state Sample.fresh_tree [Line "y"])
  = (0%Z, {| fs := Sample.fresh_tree; stdin := [Line "y"];
             stdout := [line "ℹ Assignment A2 has no dependencies"];
             calls := ["cmd_setup"] |}).
Proof.
  apply (setup_without_dependencies Sample.env
           {| assignment := "A2"; force := false; verbose := false |}
           (Sample.state Sample.fresh_tree [Line "y"]) Sample.metadata 0 Sample.A2_info).
  - vm_compute. reflexivity.
  - vm_compute. reflexivity.
  - by left.
Defined.

(** X9.  [info] on an entry without a [name], or with a name but without
    [files_to_submit], ends with status 1; the last line printed is the
    error line of [main] with the missing key in quotes, and the tree is as
    it was. *)
Theorem info_missing_key env args st md t info :
  fs st !! metadata_file env = Some (File (MetadataJson md) t) →
  md !! assignment args = Some info →
  info_name info = None ∨ files_to_submit info = None →
  let key := if info_name info is None then "name" else "files_to_submit" in
  (run_script env Info args st).1 = 1%Z
  ∧ last (stdout (run_script env Info args st).2)
    = Some (line (Py.LF +:+ RED env +:+ "✗ Error: " +:+ Py.repr key +:+ RESET env))
  ∧ fs (run_script env Info args st).2 = fs st.
Proof.
  intros Hmd Hinfo Hkey key.
  assert (∃ out, dispatch env Info args st
                 = (Raise (Exception KeyError (Py.repr key)), emit out (log_call "cmd_info" st)))
    as [out Hd].
  { simpl. unfold cmd_info. rewrite bind_unfold, enter_run, bind_unfold.
    rewrite (load_metadata_Ok env _ md t) by done. rewrite Hinfo. subst key.
    destruct (info_name info) as [name|]; rewrite bind_unfold; cbn [getitem].
    - destruct Hkey as [[=]|Hf]. rewrite Hf, ret_run.
      rewrite bind_unfold, print_run, bind_unfold, print_run, bind_unfold, print_run.
      rewrite bind_unfold. by eexists [_; _; _].
    - eexists []. by rewrite emit_nil. }
  rewrite (run_script_exception _ _ _ _ _ _ _ Hd). cbn [fst snd].
  repeat split.
  - by rewrite stdout_emit, last_snoc.
  - by rewrite !fs_emit.
Qed.

Lemma info_missing_key_witness :
  (run_script Sample.env Info Sample.A4 (Sample.state Cases.nameless_tree [])).1 = 1%Z
  ∧ last (stdout (run_script Sample.env Info Sample.A4 (Sample.state Cases.nameless_tree [])).2)
    = Some (line (Py.LF +:+ "✗ Error: 'name'"))
  ∧ fs (run_script Sample.env Info Sample.A4 (Sample.state Cases.nameless_tree [])).2
    = Cases.nameless_tree.
Proof.
  apply (info_missing_key Sample.env Sample.A4 (Sample.state Cases.nameless_tree [])
           (<[ "A4" := Cases.nameless_info ]> Sample.metadata) 0 Cases.nameless_info).
  - vm_compute. reflexivity.
  - vm_compute. reflexivity.
  - by left.
Defined.

(** X10.  Without a configuration file [package] prints the hint to run
    [config] and ends with status 1 before it looks at anything else: the
    metadata is not read, the assignment id is not checked, and the output
    directory is not created. *)
Theorem package_without_config env args st :
  fs st !! config_file env = None →
  run_script env Package args st
  = (1%Z, emit [line (YELLOW env +:+ "⚠ Config file not found. Please run 'config' command first."
                      +:+ RESET env)]
            (log_call "cmd_package" st)).
Proof.
  intros Hc.
  apply (run_script_dispatch env Package args st (Raise (SystemExit 1))); [|done..].
  simpl. unfold cmd_package. rewrite bind_unfold, enter_run, bind_unfold.
  unfold load_config. rewrite bind_unfold. unfold Fs.exists_ at 1, gets at 1.
  change (fs (log_call "cmd_package" st)) with (fs st). rewrite Hc.
  rewrite bool_decide_false by (by intros [? [=]]). cbn [negb].
  by rewrite bind_unfold, print_run.
Qed.

Lemma package_without_config_witness :
  run_script Sample.env Package Sample.ZZ (Sample.state Sample.fresh_tree [])
  = (1%Z, {| fs := Sample.fresh_tree; stdin := [];
             stdout := [line "⚠ Config file not found. Please run 'config' command first."];
             calls := ["cmd_package"] |}).
Proof.
  apply (package_without_config Sample.env Sample.ZZ (Sample.state Sample.fresh_tree [])).
  vm_compute. reflexivity.
Defined.

(** ** What the probe and the commands leave alone *)

(** X11.  An exception of [subprocess.run] whose class is [SubprocessError],
    [TimeoutExpired], [CalledProcessError] or [FileNotFoundError] never
    leaves the probe: at the first call the probe then answers [unknown].
    What the probe raises is the user's interrupt or an exception of another
    class; a [PermissionError] of the first call, for one, leaves it.  The
    probe prints nothing, reads no input and enters no command. *)
Theorem probe_contains_tool_failures env file_path st :
  let contained := [SubprocessError; TimeoutExpired; CalledProcessError; FileNotFoundError] in
  let status_run := subprocess_run env (git_status_cmd file_path) (root_dir env) (fs st) in
  (∀ e, (check_git_status env file_path st).1 = Raise e →
        e = KeyboardInterrupt
        ∨ ∃ cls msg, e = Exception cls msg ∧ cls ∉ contained)
  ∧ (∀ cls msg, status_run.1 = Errored cls msg → cls ∈ contained →
       ∃ g, (check_git_status env file_path st).1 = Ok g ∧ g !! "status" = Some "unknown")
  ∧ (∀ msg, status_run.1 = Errored PermissionError msg →
       (check_git_status env file_path st).1 = Raise (Exception PermissionError msg))
  ∧ stdin (check_git_status env file_path st).2 = stdin st
  ∧ stdout (check_git_status env file_path st).2 = stdout st
  ∧ calls (check_git_status env file_path st).2 = calls st.
Proof.
  intros contained status_run.
  assert (∀ cls, cls ∈ contained →
            is_SubprocessError cls || bool_decide (cls = FileNotFoundError) = true) as Hin.
  { intros cls. unfold contained. rewrite !elem_of_cons, elem_of_nil.
    intros [->|[->|[->|[->|[]]]]]; done. }
  split; [|split; [|split; [|by rewrite !kp_check_git_status by apply _]]].
  - assert (raises (λ e, e = KeyboardInterrupt ∨ is_Exception e) (git_probe env file_path))
      as Hprobe.
    { unfold git_probe. rs; apply rs_run; auto. }
    assert (raises (λ _, False) (git_fallback env file_path)) as Hfb.
    { unfold git_fallback, Fs.exists_, gets. intros s e. rewrite bind_unfold.
      case_bool_decide as Hex; [|done]. rewrite bind_unfold. unfold Fs.st_mtime.
      destruct Hex as [n ->]. by destruct n. }
    intros e. unfold check_git_status. specialize (Hprobe st).
    destruct (git_probe env file_path st) as [[g|[code| |cls msg]] st1]; cbn [fst] in *.
    + done.
    + intros [= <-]. by destruct (Hprobe _ eq_refl) as [[=]|(? & ? & [=])].
    + intros [= <-]. by left.
    + destruct (is_SubprocessError cls || bool_decide (cls = FileNotFoundError)) eqn:Eb.
      * intros He. destruct (Hfb _ _ He).
      * intros [= <-]. right. exists cls, msg. split; [done|].
        intros Hc. apply Hin in Hc. congruence.
  - intros cls msg Hrun Hcls. subst status_run.
    destruct (subprocess_run env (git_status_cmd file_path) (root_dir env) (fs st))
      as [r t1] eqn:Er. cbn [fst] in Hrun. subst r.
    rewrite (check_git_status_errored _ _ _ _ _ _ Er), (Hin _ Hcls), git_fallback_run.
    match goal with |- context [fs ?s !! file_path] => destruct (fs s !! file_path) end;
      by eexists.
  - intros msg Hrun. subst status_run.
    destruct (subprocess_run env (git_status_cmd file_path) (root_dir env) (fs st))
      as [r t1] eqn:Er. cbn [fst] in Hrun. subst r.
    by rewrite (check_git_status_errored _ _ _ _ _ _ Er).
Qed.

Lemma probe_contains_tool_failures_witness :
  ∃ g, (check_git_status Cases.env_timeout (Sample.root // "A3/tai-e/src/Solver.java")
          (Sample.state Sample.configured_tree [])).1 = Ok g
       ∧ g !! "status" = Some "unknown".
Proof.
  apply (proj1 (proj2 (probe_contains_tool_failures Cases.env_timeout
                         (Sample.root // "A3/tai-e/src/Solver.java")
                         (Sample.state Sample.configured_tree [])))
           TimeoutExpired "Command 'git' timed out after 5 seconds").
  - reflexivity.
  - rewrite !elem_of_cons. by right; left.
Defined.

Lemma kp_zip_open {B} (f : State → B) `{!TreeBlind f} clock p : keeps f (Zip.open_w clock p).
Proof. apply kp_write_file, _. Qed.

Lemma kp_zip_write {B} (f : State → B) `{!TreeBlind f} clock p written source name :
  keeps f (Zip.write clock p written source name).
Proof. unfold Zip.write. kp. Qed.

Lemma kp_collect_files {B} (f : State → B) `{!OutBlind f} env adir files acc miss :
  keeps f (collect_files env adir files acc miss).
Proof. revert acc miss. induction files as [|x files IH]; intros acc miss; simpl; kp. Qed.

Lemma kp_write_entries {B} (f : State → B) `{!TreeBlind f} env zip_path files written :
  keeps f (write_entries env zip_path files written).
Proof.
  revert written. induction files as [|[source arcname] files IH]; intros written; simpl.
  - kp.
  - apply kp_bind; [by apply kp_zip_write|intros; apply IH].
Qed.

Global Hint Resolve kp_zip_open kp_zip_write kp_collect_files kp_write_entries : kp.

Lemma kp_mapM {B} (f : State → B) {A C} (g : A → M C) l :
  (∀ a, keeps f (g a)) → keeps f (mapM g l).
Proof. intros Hg. induction l as [|a l IH]; simpl; kp. Qed.

Lemma kp_cmd_list {B} (f : State → B) `{!OutBlind f, !LogBlind f} env args :
  keeps f (cmd_list env args).
Proof.
  unfold cmd_list. kp.
  match goal with |- keeps f (_ ?l) => induction l as [|id ids IH] end; [kp|].
  apply kp_bind; [kp|intros]. apply kp_bind; [|intros; apply IH].
  unfold list_entry. kp. apply kp_mapM. intros. kp.
Qed.

Lemma kp_cmd_info {B} (f : State → B) `{!OutBlind f, !LogBlind f} env args :
  keeps f (cmd_info env args).
Proof.
  unfold cmd_info. kp.
  - match goal with |- keeps f (_ ?l) => induction l as [|x l IH] end; [kp|].
    apply kp_bind; [kp|intros]. apply IH.
  - match goal with |- keeps f (_ ?l) => induction l as [|x l IH] end; [kp|].
    apply kp_bind; [kp|intros]. apply kp_bind; [kp|intros]. apply kp_bind; [kp|intros].
    apply IH.
Qed.

Lemma kp_cmd_test {B} (f : State → B) `{!OutBlind f, !LogBlind f, !TreeBlind f} env args :
  keeps f (cmd_test env args).
Proof. unfold cmd_test. kp. Qed.

Lemma kp_cmd_package {B} (f : State → B) `{!OutBlind f, !LogBlind f, !TreeBlind f} env args :
  keeps f (cmd_package env args).
Proof. unfold cmd_package, invalid_assignment. kp. Qed.

Lemma kp_cmd_submit {B} (f : State → B) `{!OutBlind f, !LogBlind f, !TreeBlind f} env args :
  keeps f (cmd_submit env args).
Proof. unfold cmd_submit. kp; by (apply kp_cmd_test || apply kp_cmd_package). Qed.

(** Writing a file changes the tree at the path written only. *)
Lemma kp_at_create q p n : q ≠ p → keeps (at_path q) (Fs.create p n).
Proof.
  intros Hq st. unfold Fs.create. destruct (fs st !! PathLib.parent p) as [[]|]; try done.
  unfold at_path. simpl. by apply lookup_insert_ne.
Qed.

Lemma kp_at_write_file q clock p data : q ≠ p → keeps (at_path q) (Fs.write_file clock p data).
Proof.
  intros Hq st. unfold Fs.write_file.
  destruct (fs st !! p) as [[]|]; try done; by apply kp_at_create.
Qed.

Lemma kp_at_mkdir q clock p : q ≠ p → keeps (at_path q) (Fs.mkdir clock p).
Proof.
  intros Hq st. unfold Fs.mkdir. destruct (fs st !! p) as [[]|]; try done.
  by apply kp_at_create.
Qed.

Lemma kp_cmd_config q env args : q ≠ config_file env → keeps (at_path q) (cmd_config env args).
Proof.
  intros Hq. unfold cmd_config, save_config, input. kp. by apply kp_at_write_file.
Qed.

(** The handlers of [main] only print. *)
Lemma main_keeps {B} (f : State → B) `{!OutBlind f} env c args st :
  f (dispatch env c args st).2 = f st → f (main env c args st).2 = f st.
Proof.
  intros Hd. unfold main.
  destruct (dispatch env c args st) as [[a|[code| |cls msg]] st1]; cbn [snd] in *; try done.
  - rewrite bind_unfold, print_run. cbn [snd sys_exit raise]. by rewrite (out_blind (f := f)).
  - rewrite bind_unfold, print_run.
    destruct (debug env); cbn [snd sys_exit raise]; by rewrite (out_blind (f := f)).
Qed.

Lemma run_script_snd env c args st : (run_script env c args st).2 = (main env c args st).2.
Proof. unfold run_script. by destruct (main env c args st). Qed.

(** X12.  Which commands read and write what: [list] and [info] leave the
    file tree as it is; in no command but [config] and [setup] does the
    script read standard input (what a child process reads is not
    modelled); and [config] changes nothing in the tree but the
    configuration file. *)
Theorem commands_frame env c args st :
  let st' := (run_script env c args st).2 in
  (c = List_ ∨ c = Info → fs st' = fs st)
  ∧ (c ≠ Config → c ≠ Setup → stdin st' = stdin st)
  ∧ (c = Config → ∀ q, q ≠ config_file env → fs st' !! q = fs st !! q).
Proof.
  intros st'. subst st'. rewrite run_script_snd. repeat split.
  - intros [-> | ->]; apply (main_keeps fs); simpl.
    + apply kp_cmd_list; apply _.
    + apply kp_cmd_info; apply _.
  - intros Hc Hs. apply (main_keeps stdin).
    destruct c; simpl; try done.
    + apply kp_cmd_list; apply _.
    + apply kp_cmd_info; apply _.
    + apply kp_bind; [apply kp_cmd_test; apply _|intros; apply kp_ret].
    + apply kp_cmd_package; apply _.
    + apply kp_cmd_submit; apply _.
  - intros -> q Hq. apply (main_keeps (at_path q)); simpl. by apply kp_cmd_config.
Qed.

(** ** What [package] writes *)

Lemma kp_getitem_bind {B} (f : State → B) {A C} key (v : option A) (k : A → M C) :
  (∀ a, v = Some a → keeps f (k a)) → keeps f (getitem key v ≫= k).
Proof.
  intros Hk st. rewrite bind_unfold. destruct v as [a|]; [|done]. cbn [getitem].
  rewrite ret_run. by apply Hk.
Qed.

Lemma kp_at_zip_write q clock p written source name :
  q ≠ p → keeps (at_path q) (Zip.write clock p written source name).
Proof.
  intros Hq. unfold Zip.write. kp.
  all: intros st; unfold modify, at_path; simpl; by apply lookup_insert_ne.
Qed.

Lemma kp_at_write_entries q env zip_path files written :
  q ≠ zip_path → keeps (at_path q) (write_entries env zip_path files written).
Proof.
  intros Hq. revert written.
  induction files as [|[source arcname] files IH]; intros written; simpl.
  - kp.
  - apply kp_bind; [by apply kp_at_zip_write|intros; apply IH].
Qed.

(** X13.  [package] writes at two places only, the output directory and
    the archive: a path that is neither the output directory nor the
    archive named after the configured student and the assignment holds
    after the run, however it ends, what it held before. *)
Theorem package_writes_output_only env args st q :
  q ≠ output_dir env →
  (∀ c t student_id student_name,
     fs st !! config_file env = Some (File (ConfigJson c) t) →
     c !! "student_id" = Some student_id → c !! "student_name" = Some student_name →
     q ≠ output_dir env //
           (student_id +:+ "-" +:+ student_name +:+ "-" +:+ assignment args +:+ ".zip")) →
  fs (run_script env Package args st).2 !! q = fs st !! q.
Proof.
  intros Hout Hzip. rewrite run_script_snd.
  apply (main_keeps (at_path q)). simpl. unfold cmd_package.
  rewrite bind_unfold, enter_run, bind_unfold.
  destruct (load_config_cases env (log_call "cmd_package" st))
    as [(c & t & Hc & ->)|(o & out & -> & Ho)].
  2:{ destruct Ho as [->|(cls & msg & ->)]; cbn [snd]; unfold at_path; by rewrite fs_emit. }
  match goal with |- at_path q (?m ?s).2 = _ => assert (keeps (at_path q) m) as Hk end.
  { apply kp_bind; [kp|intros md]. destruct (md !! assignment args) as [info|].
    2:{ unfold invalid_assignment. kp. }
    apply kp_getitem_bind. intros student_id Hsid.
    apply kp_getitem_bind. intros student_name Hsname.
    specialize (Hzip c t student_id student_name Hc Hsid Hsname).
    apply kp_bind; [kp|intros]. apply kp_bind; [kp|intros].
    apply kp_bind; [by apply kp_at_mkdir|intros].
    apply kp_bind; [kp|intros files]. apply kp_bind; [kp|intros [ftp missing]].
    destruct missing; [|kp].
    apply kp_bind; [kp|intros].
    apply kp_bind; [by apply kp_at_write_file|intros].
    apply kp_bind; [by apply kp_at_write_entries|intros]. kp. }
  by rewrite Hk.
Qed.

Lemma package_writes_output_only_witness :
  fs (run_script Sample.env Package Sample.A3 (Sample.state Sample.configured_tree [])).2
    !! (Sample.root // "A3/tai-e/src/Solver.java")
  = Sample.configured_tree !! (Sample.root // "A3/tai-e/src/Solver.java").
Proof.
  apply (package_writes_output_only Sample.env Sample.A3
           (Sample.state Sample.configured_tree []) (Sample.root // "A3/tai-e/src/Solver.java")).
  - vm_compute. discriminate.
  - intros c t student_id student_name Hc Hsid Hsname.
    assert (Sample.configured_tree !! config_file Sample.env
            = Some (File (ConfigJson Sample.config) 1)) as E by (vm_compute; reflexivity).
    change (fs (Sample.state Sample.configured_tree [])) with Sample.configured_tree in Hc.
    rewrite E in Hc. injection Hc as <- <-.
    assert (Sample.config !! "student_id" = Some "2021001") as E1 by (vm_compute; reflexivity).
    assert (Sample.config !! "student_name" = Some "Zhang") as E2 by (vm_compute; reflexivity).
    rewrite E1 in Hsid. rewrite E2 in Hsname. injection Hsid as <-. injection Hsname as <-.
    vm_compute. discriminate.
Defined.

(** ** Setup in force mode *)

Lemma rt_ret {A} (P : A → Prop) a : P a → returns P (mret a).
Proof. by intros H st a' [= <-]. Qed.

Lemma rt_raise {A} (P : A → Prop) e : returns P (raise e).
Proof. by intros st a. Qed.

Lemma rt_bind {A B} (P : B → Prop) (m : M A) (k : A → M B) :
  (∀ a, returns P (k a)) → returns P (m ≫= k).
Proof.
  intros Hk st b. rewrite bind_unfold. destruct (m st) as [[a|e] st1]; [apply Hk|done].
Qed.

Lemma rt_perform_copy env (P : setup_vars → Prop) src tgt m v :
  P v →
  P {| success_count := success_count v + 1; skip_count := skip_count v;
       force_all := force_all v |} →
  returns P (perform_copy env src tgt m v).
Proof.
  intros Hv Hv1 st v'.
  destruct (perform_copy_cases env src tgt m v st) as (st' & [[-> _]|[-> _]]);
    by intros [= <-].
Qed.

(** [force_all] is never reset. *)
Lemma setup_entry_force_all env a tdir n idx dep v :
  force_all v = true → returns (λ v', force_all v' = true) (setup_entry env a tdir n idx dep v).
Proof.
  intros Hf. unfold setup_entry.
  repeat first
    [ apply rt_bind; intros
    | apply rt_perform_copy
    | apply rt_ret
    | apply rt_raise
    | done
    | match goal with
      | |- returns _ (if ?b then _ else _) => destruct b
      | |- returns _ (match ?x with _ => _ end) => destruct x
      end ].
Qed.

Lemma kp_perform_copy {B} (f : State → B) `{!OutBlind f, !TreeBlind f} env src tgt m v :
  keeps f (perform_copy env src tgt m v).
Proof. unfold perform_copy. kp. Qed.

Lemma setup_entry_forced env a tdir n idx dep v :
  force_all v = true → keeps stdin (setup_entry env a tdir n idx dep v).
Proof.
  intros Hf. unfold setup_entry. rewrite Hf.
  apply kp_bind; [kp|intros sa]. apply kp_bind; [kp|intros file].
  do 3 (apply kp_bind; [kp|intros]).
  apply kp_bind; [kp|intros source_exists]. destruct (negb source_exists); [kp|].
  apply kp_bind; [kp|intros target_exists].
  apply kp_bind; [kp|intros git_status].
  apply kp_bind; [kp|intros].
  cbn [negb]. rewrite andb_false_r. apply kp_perform_copy; apply _.
Qed.

Lemma setup_loop_forced env a tdir n idx deps v :
  force_all v = true → keeps stdin (setup_loop env a tdir n idx deps v).
Proof.
  revert idx v. induction deps as [|dep deps IH]; intros idx v Hf st; [done|].
  cbn [setup_loop]. rewrite bind_unfold.
  pose proof (setup_entry_forced env a tdir n idx dep v Hf st) as Hin.
  pose proof (setup_entry_force_all env a tdir n idx dep v Hf st) as Hv.
  destruct (setup_entry env a tdir n idx dep v st) as [[v1|e] st1]; cbn [fst snd] in *; [|done].
  rewrite IH by by apply Hv. done.
Qed.

(** X14.  With [--force], [setup] asks nothing: however the run ends, the
    input is as it was before the run. *)
Theorem setup_force_reads_no_input env args st :
  force args = true →
  stdin (run_script env Setup args st).2 = stdin st.
Proof.
  intros Hf. rewrite run_script_snd. apply (main_keeps stdin). simpl.
  assert (keeps stdin (cmd_setup env args)) as Hk; [|apply Hk].
  unfold cmd_setup. apply kp_bind; [kp|intros]. apply kp_bind; [kp|intros md].
  destruct (md !! assignment args) as [info|]; [|unfold invalid_assignment; kp].
  destruct (default [] (dependencies info)) as [|dep deps]; [kp|].
  apply kp_bind; [kp|intros]. apply kp_bind; [kp|intros].
  apply kp_bind; [by apply setup_loop_forced|intros; unfold setup_summary; kp].
Qed.

Lemma setup_force_reads_no_input_witness :
  stdin (run_script Sample.env_modified Setup
           {| assignment := "A4"; force := true; verbose := false |}
           (Sample.state Sample.edited_tree [Line "y"])).2 = [Line "y"].
Proof.
  apply (setup_force_reads_no_input Sample.env_modified
           {| assignment := "A4"; force := true; verbose := false |}
           (Sample.state Sample.edited_tree [Line "y"])).
  reflexivity.
Defined.

(** X15.  The answer [a] at the prompt of an entry is the last thing
    [setup] reads: the entry is copied (or its failure reported) without
    further question, and so are all the entries after it; when the loop
    ends, the input is what followed the answer. *)
Theorem setup_all_stops_asking env a tdir n idx dep deps v st sa f g sg typed rest_in :
  dep_from dep = Some sa → dep_file dep = Some f →
  is_Some (fs st !! (get_assignment_dir env sa // f)) →
  is_Some (fs st !! (tdir // f)) →
  check_git_status env (tdir // f) (emit (entry_header a n idx sa f) st) = (Ok g, sg) →
  g !! "status" = Some "modified" →
  force_all v = false →
  stdin sg = Line typed :: rest_in →
  Py.strip (Py.lower typed) = "a" →
  stdin (setup_loop env a tdir n idx (dep :: deps) v st).2 = rest_in
  ∧ ∀ v', (setup_loop env a tdir n idx (dep :: deps) v st).1 = Ok v' → force_all v' = true.
Proof.
  intros Hfrom Hfile Hsrc Htgt Hgit Hmod Hforce Hin Ha.
  cbn [setup_loop]. rewrite bind_unfold.
  assert (∃ s, stdin s = rest_in
               ∧ setup_entry env a tdir n idx dep v st
                 = perform_copy env (get_assignment_dir env sa // f) (tdir // f) true
                     {| success_count := success_count v; skip_count := skip_count v;
                        force_all := true |} s) as (s & Hs & ->).
  { unfold setup_entry. rewrite Hfrom, Hfile. cbn [getitem]. mrun.
    unfold Fs.exists_ at 1, gets at 1. mrun. autorewrite with state.
    rewrite (bool_decide_true _ Hsrc). cbn [negb].
    rewrite bind_unfold. unfold Fs.exists_ at 1, gets at 1. cbv beta iota.
    autorewrite with state. rewrite (bool_decide_true _ Htgt).
    rewrite !bind_unfold.
    change (write_stdout ?c3 (write_stdout ?c2 (write_stdout ?c1 st)))
      with (emit (entry_header a n idx sa f) st).
    rewrite Hgit. rewrite ret_run. cbv beta iota. cbn [negb].
    rewrite (bool_decide_true _ Hmod), Hforce. cbn [andb negb]. mrun.
    unfold print_noend, modify. mrun. unfold readline. autorewrite with state.
    rewrite Hin. mrun. rewrite Ha.
    rewrite (bool_decide_false ("a" = "q")) by done.
    rewrite (bool_decide_true ("a" = "a")) by done. mrun.
    eexists. split; [|done]. by autorewrite with state. }
  set (v1 := {| success_count := success_count v; skip_count := skip_count v;
                force_all := true |}).
  pose proof (kp_perform_copy stdin env (get_assignment_dir env sa // f) (tdir // f) true v1 s)
    as Hkeep.
  pose proof (rt_perform_copy env (λ v', force_all v' = true)
                (get_assignment_dir env sa // f) (tdir // f) true v1 eq_refl eq_refl s) as Hret.
  destruct (perform_copy env (get_assignment_dir env sa // f) (tdir // f) true v1 s)
    as [[v2|e] s2]; cbn [fst snd] in *; [|by rewrite Hkeep].
  specialize (Hret v2 eq_refl). split.
  - by rewrite setup_loop_forced, Hkeep.
  - revert Hret. generalize (S idx) v2 s2. clear.
    induction deps as [|d deps IH]; intros i v2 s2 Hf v'.
    + cbn [setup_loop]. rewrite ret_run. by intros [= <-].
    + cbn [setup_loop]. rewrite bind_unfold.
      pose proof (setup_entry_force_all env a tdir n i d v2 Hf s2) as Hv.
      destruct (setup_entry env a tdir n i d v2 s2) as [[v3|e] s3]; [|done].
      apply IH. by apply Hv.
Qed.

Lemma setup_all_stops_asking_witness :
  stdin (setup_loop Sample.env_modified "A4" (get_assignment_dir Sample.env_modified "A4") 3 1
           Sample.A4_deps (setup_start Sample.A4)
           (Sample.state Sample.edited_tree [Line "A"; Line "x"])).2 = [Line "x"]
  ∧ ∀ v', (setup_loop Sample.env_modified "A4" (get_assignment_dir Sample.env_modified "A4") 3 1
             Sample.A4_deps (setup_start Sample.A4)
             (Sample.state Sample.edited_tree [Line "A"; Line "x"])).1 = Ok v' →
          force_all v' = true.
Proof.
  apply (setup_all_stops_asking Sample.env_modified "A4"
           (get_assignment_dir Sample.env_modified "A4") 3 1
           {| dep_from := Some "A3"; dep_file := Some "src/Solver.java" |}
           [ {| dep_from := Some "A2"; dep_file := Some "src/CFGBuilder.java" |};
             {| dep_from := Some "A2"; dep_file := Some "src/Missing.java" |} ]
           (setup_start Sample.A4)
           (Sample.state Sample.edited_tree [Line "A"; Line "x"])
           "A3" "src/Solver.java"
           {[ "status" := "modified"; "commit" := "abc1234"; "time" := "2 days ago";
              "message" := "Fix the solver" ]}
           (check_git_status Sample.env_modified
              (get_assignment_dir Sample.env_modified "A4" // "src/Solver.java")
              (emit (entry_header "A4" 3 1 "A3" "src/Solver.java")
                 (Sample.state Sample.edited_tree [Line "A"; Line "x"]))).2
           "A" [Line "x"]).
  - reflexivity.
  - reflexivity.
  - vm_compute. eexists. reflexivity.
  - vm_compute. eexists. reflexivity.
  - apply pair_eta_fst. vm_compute. reflexivity.
  - vm_compute. reflexivity.
  - reflexivity.
  - vm_compute. reflexivity.
  - vm_compute. reflexivity.
Defined.

(** ** What a copy of [setup] does to the tree *)

(** [mkdir(parents=True, exist_ok=True)] only adds directories, at prefixes
    of its path that were absent. *)
Lemma makedirs_from_changes clock pre rest st q :
  fs (Fs.makedirs_from clock pre rest st).2 !! q = fs st !! q
  ∨ (fs st !! q = None
     ∧ fs (Fs.makedirs_from clock pre rest st).2 !! q = Some (Dir clock)
     ∧ ∃ k, q = pre ++ take (S k) rest).
Proof.
  revert pre st. induction rest as [|c rest IH]; intros pre st; [by left|].
  cbn [Fs.makedirs_from]. rewrite !bind_unfold. unfold gets.
  destruct (fs st !! (pre ++ [c])) as [[data t|t]|] eqn:E.
  - left. by destruct rest.
  - destruct (IH (pre ++ [c]) st) as [H|(Hn & Hd & k & ->)]; [by left|].
    right. split; [done|]. split; [done|]. exists (S k). by rewrite <- (assoc_L (++)).
  - rewrite !bind_unfold. unfold modify.
    destruct (IH (pre ++ [c]) (set_fs <[pre ++ [c] := Dir clock]> st))
      as [H|(Hn & Hd & k & ->)].
    + rewrite H. simpl. destruct (decide (q = pre ++ [c])) as [->|Hq].
      * right. split; [done|]. split; [apply lookup_insert_eq|].
        exists 0. by rewrite take_0.
      * left. by apply lookup_insert_ne.
    + right. simpl in Hn. split; [|split; [done|]].
      * destruct (decide ((pre ++ [c]) ++ take (S k) rest = pre ++ [c])) as [Heq|Hne].
        { rewrite Heq in Hn. by rewrite lookup_insert_eq in Hn. }
        by rewrite lookup_insert_ne in Hn.
      * exists (S k). by rewrite <- (assoc_L (++)).
Qed.

Lemma parent_shorter (p : Path) k : PathLib.parent p ≠ p → p ≠ take k (PathLib.parent p).
Proof.
  intros Hp Heq. apply (f_equal length) in Heq. rewrite length_take in Heq.
  assert (length (PathLib.parent p) < length p); [|lia].
  unfold PathLib.parent in *. destruct p as [|a p]; [done|].
  destruct p as [|b p].
  - case_bool_decide; [done|]. simpl. lia.
  - assert (a :: b :: p ≠ []) as Hne by done.
    destruct (exists_last Hne) as (l & x & ->). rewrite removelast_last, length_app. simpl. lia.
Qed.

Lemma copy2_Ok src dst st st2 :
  Fs.copy2 src dst st = (Ok tt, st2) →
  (∀ t, fs st !! dst ≠ Some (Dir t)) →
  ∃ data mtime, fs st !! src = Some (File data mtime)
              ∧ st2 = set_fs <[dst := File data mtime]> st.
Proof.
  intros Hcp Hdst. unfold Fs.copy2, Fs.create in Hcp.
  destruct (fs st !! dst) as [[d0 t0|t0]|] eqn:Ed; [|by destruct (Hdst t0)|];
    (case_bool_decide; [done|]);
    (destruct (fs st !! src) as [[data mtime|]|]; [|done..]);
    rewrite ?Ed in Hcp;
    (destruct (fs st !! PathLib.parent dst) as [[]|]; [done| |done]);
    injection Hcp as <-; by eexists _, _.
Qed.

(** X16.  A copy that [setup] counts as done has put the data and the
    modification time of the source file at the target path (the target
    being no directory and not the root), and has altered or removed
    nothing else that was in the tree: at most, directories were added. *)
Theorem copy_preserves_data_and_mtime env source_file target_file is_modified v st v' st' :
  perform_copy env source_file target_file is_modified v st = (Ok v', st') →
  success_count v' = success_count v + 1 →
  (∀ t, fs st !! target_file ≠ Some (Dir t)) →
  PathLib.parent target_file ≠ target_file →
  ∃ data mtime,
    fs st !! source_file = Some (File data mtime)
    ∧ fs st' !! target_file = Some (File data mtime)
    ∧ ∀ q, q ≠ target_file → is_Some (fs st !! q) → fs st' !! q = fs st !! q.
Proof.
  intros Hrun Hcount Hdir Hroot.
  unfold perform_copy, try_except in Hrun. rewrite bind_unfold in Hrun.
  pose proof (λ q, makedirs_from_changes (now env) [] (PathLib.parent target_file) st q) as Hmk.
  pose proof (rs_makedirs_from is_Exception (now env) [] (PathLib.parent target_file)
                (λ e H, H) st) as Hmke.
  unfold Fs.makedirs in Hrun.
  destruct (Fs.makedirs_from (now env) [] (PathLib.parent target_file) st) as [[[]|e] st1];
    cbn [fst snd] in *.
  2:{ destruct (Hmke e eq_refl) as (cls & msg & ->).
      rewrite bind_unfold, print_run, ret_run in Hrun. injection Hrun as <- <-. lia. }
  rewrite bind_unfold in Hrun.
  pose proof (rs_copy2 is_Exception source_file target_file (λ e H, H) st1) as Hcpe.
  destruct (Fs.copy2 source_file target_file st1) as [[[]|e] st2] eqn:Hcp; cbn [fst] in *.
  2:{ destruct (Hcpe e eq_refl) as (cls & msg & ->).
      rewrite bind_unfold, print_run, ret_run in Hrun. injection Hrun as <- <-. lia. }
  assert (fs st1 !! target_file = fs st !! target_file) as Htgt.
  { destruct (Hmk target_file) as [H|(_ & _ & k & Hk)]; [done|].
    by destruct (parent_shorter target_file (S k)). }
  destruct (copy2_Ok _ _ _ _ Hcp) as (data & mtime & Hsrc & ->).
  { intros t. rewrite Htgt. apply Hdir. }
  assert (fs st' = <[target_file := File data mtime]> (fs st1)) as Hst'.
  { destruct (is_modified && force_all v);
      rewrite bind_unfold, print_run, ret_run in Hrun; by injection Hrun as _ <-. }
  exists data, mtime. rewrite Hst'. repeat split.
  - destruct (Hmk source_file) as [H|(_ & Hd & _)]; [by rewrite <- H|]. congruence.
  - apply lookup_insert_eq.
  - intros q Hq Hpresent. rewrite lookup_insert_ne by done.
    destruct (Hmk q) as [H|[Hn _]]; [done|]. rewrite Hn in Hpresent. by destruct Hpresent.
Qed.

Lemma copy_preserves_data_and_mtime_witness :
  ∃ data mtime,
    fs (Sample.state Sample.fresh_tree []) !! (Sample.root // "A2/tai-e/src/CFGBuilder.java")
      = Some (File data mtime)
    ∧ fs (perform_copy Sample.env (Sample.root // "A2/tai-e/src/CFGBuilder.java")
            (Sample.root // "A3/tai-e/src/CFGBuilder.java") false (setup_start Sample.A3)
            (Sample.state Sample.fresh_tree [])).2
        !! (Sample.root // "A3/tai-e/src/CFGBuilder.java")
      = Some (File data mtime)
    ∧ ∀ q, q ≠ Sample.root // "A3/tai-e/src/CFGBuilder.java" →
        is_Some (fs (Sample.state Sample.fresh_tree []) !! q) →
        fs (perform_copy Sample.env (Sample.root // "A2/tai-e/src/CFGBuilder.java")
              (Sample.root // "A3/tai-e/src/CFGBuilder.java") false (setup_start Sample.A3)
              (Sample.state Sample.fresh_tree [])).2 !! q
        = fs (Sample.state Sample.fresh_tree []) !! q.
Proof.
  apply (copy_preserves_data_and_mtime Sample.env
           (Sample.root // "A2/tai-e/src/CFGBuilder.java")
           (Sample.root // "A3/tai-e/src/CFGBuilder.java") false (setup_start Sample.A3)
           (Sample.state Sample.fresh_tree [])
           {| success_count := 1; skip_count := 0; force_all := false |}).
  - apply pair_eta_fst. vm_compute. reflexivity.
  - reflexivity.
  - intros t. vm_compute. discriminate.
  - vm_compute. discriminate.
Defined.

(** ** The marker of a modified file *)

Lemma strip_head_spec w2 w3 s :
  (∃ pre, s = pre +:+ Py.strip_head w2 w3 s)
  ∧ ∀ a t, Py.strip_head w2 w3 s = String a t → Py.isspace1 a = false.
Proof.
  remember (String.length s) as n eqn:Hn. revert s Hn.
  induction n as [n IH] using lt_wf_ind. intros s Hn.
  destruct s as [|a s1]; [split; [by exists ""|done]|].
  cbn [Py.strip_head]. destruct (Py.isspace1 a) eqn:Ha.
  { destruct (IH (String.length s1)) with (s := s1) as [[pre Hpre] Hhead];
      [simpl in Hn; lia|done|].
    split; [|done]. exists (String a pre). by rewrite string_app_cons, <- Hpre. }
  destruct s1 as [|b s2]; [split; [by exists ""|by intros ?? [= <- _]]|].
  destruct (w2 a b).
  { destruct (IH (String.length s2)) with (s := s2) as [[pre Hpre] Hhead];
      [simpl in Hn; lia|done|].
    split; [|done]. exists (String a (String b pre)). by rewrite !string_app_cons, <- Hpre. }
  destruct s2 as [|c s3]; [split; [by exists ""|by intros ?? [= <- _]]|].
  destruct (w3 a b c).
  { destruct (IH (String.length s3)) with (s := s3) as [[pre Hpre] Hhead];
      [simpl in Hn; lia|done|].
    split; [|done]. exists (String a (String b (String c pre))). by rewrite !string_app_cons, <- Hpre. }
  split; [by exists ""|by intros ?? [= <- _]].
Qed.

Lemma rev_app_rev_app s acc acc' :
  String.rev_app (String.rev_app s acc) acc' = String.rev_app acc (s +:+ acc').
Proof.
  revert acc acc'. induction s as [|a s IH]; intros acc acc'; [done|].
  rewrite string_app_cons. simpl. by rewrite IH.
Qed.

Lemma rev_app_append s1 s2 acc :
  String.rev_app (s1 +:+ s2) acc = String.rev_app s2 (String.rev_app s1 acc).
Proof.
  revert acc. induction s1 as [|a s1 IH]; intros acc; [done|].
  rewrite string_app_cons. simpl. by rewrite IH.
Qed.

Lemma rev_app_acc s acc : String.rev_app s acc = String.rev s +:+ acc.
Proof.
  unfold String.rev. revert acc. induction s as [|a s IH]; intros acc; [done|].
  simpl. rewrite (IH (String a acc)), (IH (String a "")).
  by rewrite <- string_app_assoc.
Qed.

Lemma string_app_nil_r (s : string) : s +:+ "" = s.
Proof. induction s as [|a s IH]; [done|]. by rewrite string_app_cons, IH. Qed.

(** [rstrip] keeps a prefix of its argument. *)
Lemma rstrip_prefix s : ∃ x, s = Py.rstrip s +:+ x.
Proof.
  unfold Py.rstrip.
  destruct (strip_head_spec (λ b a, Py.isspace2 a b) (λ c b a, Py.isspace3 a b c) (String.rev s))
    as [[pre Hpre] _].
  set (suf := Py.strip_head _ _ _) in *. exists (String.rev pre).
  assert (String.rev (String.rev s) = s) as Hs.
  { unfold String.rev. by rewrite rev_app_rev_app, string_app_nil_r. }
  rewrite <- Hs at 1. rewrite Hpre. unfold String.rev at 1.
  by rewrite rev_app_append, rev_app_acc.
Qed.

(** What [strip] returns does not start with white space. *)
Lemma strip_head_not_space s a t : Py.strip s = String a t → Py.isspace1 a = false.
Proof.
  unfold Py.strip. intros Hs.
  destruct (rstrip_prefix (Py.lstrip s)) as [x Hx]. rewrite Hs, string_app_cons in Hx.
  by eapply (proj2 (strip_head_spec _ _ s)).
Qed.

Lemma strip_not_space_M s : Py.startswith (Py.strip s) " M" = false.
Proof.
  unfold Py.startswith. destruct (Py.strip s) as [|a t] eqn:E; [done|].
  rewrite prefix_cons. case_bool_decide as Ha; [|done].
  apply strip_head_not_space in E. subst a. done.
Qed.

(** X17.  The probe tests the output of [git status] after stripping it,
    so the first of the two markers of line 112, the one with the leading
    space, never matches: whenever the probe answers [modified], the
    stripped output starts with [M] and a space. *)
Theorem modified_marker env file_path st rc out t1 g :
  subprocess_run env (git_status_cmd file_path) (root_dir env) (fs st) = (Completed rc out, t1) →
  (check_git_status env file_path st).1 = Ok g →
  Py.startswith (Py.strip out) " M" = false
  ∧ (g !! "status" = Some "modified" → Py.startswith (Py.strip out) "M " = true).
Proof.
  intros Hrun Hg. split; [apply strip_not_space_M|].
  rewrite (check_git_status_completed _ _ _ _ _ _ Hrun) in Hg. cbv zeta in Hg.
  rewrite strip_not_space_M in Hg. cbn [orb] in Hg.
  case_bool_decide; [by injection Hg as <-|].
  destruct (Py.startswith (Py.strip out) "M "); [done|].
  by destruct (Py.startswith (Py.strip out) "??"); injection Hg as <-.
Qed.

Lemma modified_marker_witness :
  Py.startswith (Py.strip (" M A4/tai-e/src/Solver.java" +:+ Py.LF)) " M" = false
  ∧ (({[ "status" := "modified"; "commit" := "abc1234"; "time" := "2 days ago";
         "message" := "Fix the solver" ]} : gmap string string) !! "status" = Some "modified" →
     Py.startswith (Py.strip (" M A4/tai-e/src/Solver.java" +:+ Py.LF)) "M " = true).
Proof.
  apply (modified_marker Sample.env_modified
           (get_assignment_dir Sample.env_modified "A4" // "src/Solver.java")
           (Sample.state Sample.edited_tree []) 0
           (" M A4/tai-e/src/Solver.java" +:+ Py.LF) Sample.edited_tree).
  - reflexivity.
  - vm_compute. reflexivity.
Defined.

(** ** Entries of [setup] that copy nothing *)

(** X18.  An entry of [setup] whose source file is absent is reported and
    passed over: the counters, the tree and the input stay as they are, and
    the version-control tool is not asked about the target. *)
Theorem setup_entry_source_absent env a tdir n idx dep v st sa f :
  dep_from dep = Some sa → dep_file dep = Some f →
  fs st !! (get_assignment_dir env sa // f) = None →
  setup_entry env a tdir n idx dep v st
  = (Ok v, emit (entry_header a n idx sa f ++ [not_found_line env]) st).
Proof.
  intros Hfrom Hfile Hsrc.
  unfold setup_entry. rewrite Hfrom, Hfile. cbn [getitem]. mrun.
  unfold Fs.exists_ at 1, gets at 1. mrun. autorewrite with state.
  rewrite Hsrc, bool_decide_false by (by intros [? [=]]). cbn [negb]. by mrun.
Qed.

Lemma setup_entry_source_absent_witness :
  setup_entry Sample.env "A4" (get_assignment_dir Sample.env "A4") 3 3
    {| dep_from := Some "A2"; dep_file := Some "src/Missing.java" |}
    (setup_start Sample.A4) (Sample.state Sample.edited_tree [])
  = (Ok (setup_start Sample.A4),
     emit (entry_header "A4" 3 3 "A2" "src/Missing.java" ++ [not_found_line Sample.env])
       (Sample.state Sample.edited_tree [])).
Proof.
  apply (setup_entry_source_absent Sample.env "A4" (get_assignment_dir Sample.env "A4") 3 3
           {| dep_from := Some "A2"; dep_file := Some "src/Missing.java" |}
           (setup_start Sample.A4) (Sample.state Sample.edited_tree [])
           "A2" "src/Missing.java").
  - reflexivity.
  - reflexivity.
  - vm_compute. reflexivity.
Defined.

(** X19.  At the prompt of an entry, every answer that is none of [q], [a]
    and [y] once lower-cased and stripped (the empty line, the default,
    among them) keeps the modified file: the tree is the one at the prompt,
    the entry is counted as skipped, and the prompt will be shown again for
    the next modified file. *)
Theorem setup_prompt_default_skips env a tdir n idx dep v st sa f g sg typed rest_in :
  dep_from dep = Some sa → dep_file dep = Some f →
  is_Some (fs st !! (get_assignment_dir env sa // f)) →
  is_Some (fs st !! (tdir // f)) →
  check_git_status env (tdir // f) (emit (entry_header a n idx sa f) st) = (Ok g, sg) →
  g !! "status" = Some "modified" →
  force_all v = false →
  stdin sg = Line typed :: rest_in →
  Py.strip (Py.lower typed) ∉ ["q"; "a"; "y"] →
  ∃ st', setup_entry env a tdir n idx dep v st
         = (Ok {| success_count := success_count v; skip_count := skip_count v + 1;
                  force_all := false |}, st')
    ∧ fs st' = fs sg ∧ stdin st' = rest_in ∧ calls st' = calls sg
    ∧ last (stdout st') = Some (skipped_line env).
Proof.
  intros Hfrom Hfile Hsrc Htgt Hgit Hmod Hforce Hin Hchoice.
  unfold setup_entry. rewrite Hfrom, Hfile. cbn [getitem]. mrun.
  unfold Fs.exists_ at 1, gets at 1. mrun. autorewrite with state.
  rewrite (bool_decide_true _ Hsrc). cbn [negb].
  rewrite bind_unfold. unfold Fs.exists_ at 1, gets at 1. cbv beta iota.
  autorewrite with state. rewrite (bool_decide_true _ Htgt).
  rewrite !bind_unfold.
  change (write_stdout ?c3 (write_stdout ?c2 (write_stdout ?c1 st)))
    with (emit (entry_header a n idx sa f) st).
  rewrite Hgit. rewrite ret_run. cbv beta iota. cbn [negb].
  rewrite (bool_decide_true _ Hmod), Hforce. cbn [andb negb]. mrun.
  unfold print_noend, modify. mrun. unfold readline. autorewrite with state.
  rewrite Hin. mrun.
  rewrite (bool_decide_false (Py.strip (Py.lower typed) = "q"))
    by (intros E; apply Hchoice; rewrite E; set_solver).
  rewrite (bool_decide_false (Py.strip (Py.lower typed) = "a"))
    by (intros E; apply Hchoice; rewrite E; set_solver).
  rewrite (bool_decide_false (Py.strip (Py.lower typed) = "y"))
    by (intros E; apply Hchoice; rewrite E; set_solver).
  cbn [negb]. mrun.
  eexists. split; [done|]. autorewrite with state. repeat split; try done.
  apply last_snoc.
Qed.

Lemma setup_prompt_default_skips_witness :
  ∃ st', setup_entry Sample.env_modified "A4" (get_assignment_dir Sample.env_modified "A4") 3 1
           {| dep_from := Some "A3"; dep_file := Some "src/Solver.java" |}
           (setup_start Sample.A4) (Sample.state Sample.edited_tree [Line ""])
         = (Ok {| success_count := 0; skip_count := 0 + 1; force_all := false |}, st')
    ∧ fs st' = fs (check_git_status Sample.env_modified
                     (get_assignment_dir Sample.env_modified "A4" // "src/Solver.java")
                     (emit (entry_header "A4" 3 1 "A3" "src/Solver.java")
                        (Sample.state Sample.edited_tree [Line ""]))).2
    ∧ stdin st' = []
    ∧ calls st' = calls (check_git_status Sample.env_modified
                     (get_assignment_dir Sample.env_modified "A4" // "src/Solver.java")
                     (emit (entry_header "A4" 3 1 "A3" "src/Solver.java")
                        (Sample.state Sample.edited_tree [Line ""]))).2
    ∧ last (stdout st') = Some (skipped_line Sample.env_modified).
Proof.
  apply (setup_prompt_default_skips Sample.env_modified "A4"
           (get_assignment_dir Sample.env_modified "A4") 3 1
           {| dep_from := Some "A3"; dep_file := Some "src/Solver.java" |}
           (setup_start Sample.A4) (Sample.state Sample.edited_tree [Line ""])
           "A3" "src/Solver.java"
           {[ "status" := "modified"; "commit" := "abc1234"; "time" := "2 days ago";
              "message" := "Fix the solver" ]}
           (check_git_status Sample.env_modified
              (get_assignment_dir Sample.env_modified "A4" // "src/Solver.java")
              (emit (entry_header "A4" 3 1 "A3" "src/Solver.java")
                 (Sample.state Sample.edited_tree [Line ""]))).2
           "" []).
  - reflexivity.
  - reflexivity.
  - vm_compute. eexists. reflexivity.
  - vm_compute. eexists. reflexivity.
  - apply pair_eta_fst. vm_compute. reflexivity.
  - vm_compute. reflexivity.
  - reflexivity.
  - vm_compute. reflexivity.
  - assert (Py.strip (Py.lower "") = "") as -> by (vm_compute; reflexivity).
    rewrite !not_elem_of_cons. repeat split; try discriminate. apply not_elem_of_nil.
Defined.

(** ** [config] without its two answers *)

Lemma config_starved env args st :
  lines_before_end (stdin st) < 2 →
  ∃ e s1, cmd_config env args st = (Raise e, s1) ∧ fs s1 = fs st.
Proof.
  intros Hlines. unfold cmd_config.
  rewrite bind_unfold, enter_run, bind_unfold, print_run, bind_unfold, print_run, bind_unfold.
  unfold Fs.exists_ at 1, gets at 1. cbv beta iota. rewrite bind_unfold.
  match goal with |- context [(if ?b then Json.load_config ?p else mret ∅) ?s] =>
    pose proof (kp_json_load_config fs p s) as Hk1;
    pose proof (kp_json_load_config stdin p s) as Hk2;
    destruct b; [destruct (Json.load_config p s) as [[c|e] s1]|rewrite ret_run; clear Hk1 Hk2]
  end; cbn [snd] in *.
  2:{ by eexists _, _. }
  all: rewrite bind_unfold; unfold input at 1; rewrite bind_unfold; unfold print_noend at 1,
         modify at 1; unfold readline at 1; autorewrite with state;
       try rewrite Hk2; autorewrite with state.
  all: destruct (stdin st) as [|[typed1|] rest] eqn:Hin; [by eexists _, _| |by eexists _, _].
  all: rewrite bind_unfold; unfold input at 1; rewrite bind_unfold; unfold print_noend at 1,
         modify at 1; unfold readline at 1; autorewrite with state.
  all: destruct rest as [|[typed2|] rest]; [by eexists _, _|simpl in Hlines; lia|by eexists _, _].
Qed.

(** X20.  [config] saves nothing unless it can read two lines: when the
    input ends or is interrupted before the second answer, the run ends
    with status 1 and the tree is as it was. *)
Theorem config_needs_two_answers env args st :
  lines_before_end (stdin st) < 2 →
  (run_script env Config args st).1 = 1%Z
  ∧ fs (run_script env Config args st).2 = fs st.
Proof.
  intros Hlines. destruct (config_starved env args st Hlines) as (e & s1 & Hc & Hfs).
  split.
  - pose proof (dispatch_raises env Config args st e) as He. simpl in He.
    rewrite Hc in He. unfold run_script, main. simpl dispatch. rewrite Hc.
    destruct (He eq_refl) as [[[=] _]|[->|[->|(cls & msg & ->)]]]; try done.
    rewrite bind_unfold, print_run. by destruct (debug env).
  - rewrite run_script_snd. apply (main_keeps fs). simpl. by rewrite Hc.
Qed.

Lemma config_needs_two_answers_witness :
  (run_script Sample.env Config Sample.A3 (Sample.state Sample.configured_tree [Line "Li"])).1
  = 1%Z
  ∧ fs (run_script Sample.env Config Sample.A3
          (Sample.state Sample.configured_tree [Line "Li"])).2
    = Sample.configured_tree.
Proof.
  apply (config_needs_two_answers Sample.env Sample.A3
           (Sample.state Sample.configured_tree [Line "Li"])).
  simpl. lia.
Defined.

(** ** What [info] prints *)

(** X21.  For an entry with a name, its files to submit and well-formed
    dependencies, [info] ends with status 0 after printing the title, every
    file to submit in the order of the metadata, and every dependency with
    its source assignment and the base name of its file (or [None] when
    there is no dependency); nothing else changes. *)
Theorem info_lists_files_and_dependencies env args st md t info name files :
  fs st !! metadata_file env = Some (File (MetadataJson md) t) →
  md !! assignment args = Some info →
  info_name info = Some name →
  files_to_submit info = Some files →
  Forall (λ dep, is_Some (dep_from dep) ∧ is_Some (dep_file dep))
    (default [] (dependencies info)) →
  run_script env Info args st
  = (0%Z, emit (info_lines env (assignment args) name files (default [] (dependencies info)))
            (log_call "cmd_info" st)).
Proof.
  intros Hmd Hinfo Hname Hfiles Hdeps.
  apply (run_script_dispatch env Info args st (Ok tt)); [|done..].
  simpl. unfold cmd_info. rewrite bind_unfold, enter_run, bind_unfold.
  rewrite (load_metadata_Ok env _ md t) by done. rewrite Hinfo, Hname, Hfiles.
  cbn [getitem]. mrun.
  match goal with |- context [?loop files ?s] =>
    assert (∀ l s0, loop l s0 = (Ok tt, emit ((λ f, line ("  • " +:+ f)) <$> l) s0)) as Hloop
  end.
  { induction l as [|f l IH]; intros s0; [done|].
    rewrite bind_unfold, print_run, IH. done. }
  rewrite Hloop. clear Hloop.
  unfold info_lines. rewrite <- !emit_emit.
  set (deps := default [] (dependencies info)) in *.
  destruct deps as [|dep deps]; [done|].
  inversion Hdeps as [|?? [[from Hfrom] [file Hfile]] Hdeps']; subst.
  rewrite bind_unfold, print_run, bind_unfold, Hfrom. cbn [getitem].
  rewrite ret_run, bind_unfold, Hfile. cbn [getitem].
  rewrite ret_run, bind_unfold, print_run.
  match goal with |- context [?loop deps ?s] =>
    assert (∀ l s0, Forall (λ dep, is_Some (dep_from dep) ∧ is_Some (dep_file dep)) l →
              loop l s0
              = (Ok tt, emit ((λ dep, line ("  • From " +:+ default "" (dep_from dep) +:+ ": "
                                      +:+ Py.basename (default "" (dep_file dep)))) <$> l) s0))
      as Hloop
  end.
  { induction l as [|d l IH]; intros s0 Hl; [done|].
    inversion Hl as [|?? [[from' Hfrom'] [file' Hfile']] Hl']; subst.
    cbv beta iota fix. rewrite bind_unfold, Hfrom'. cbn [getitem]. rewrite ret_run, bind_unfold, Hfile'.
    cbn [getitem]. rewrite ret_run, bind_unfold, print_run, IH by done.
    cbn [fmap list_fmap]. by rewrite Hfrom', Hfile'. }
  rewrite Hloop by done. cbn [fmap list_fmap]. by rewrite Hfrom, Hfile.
Qed.

Lemma info_lists_files_and_dependencies_witness :
  run_script Sample.env Info Sample.A3 (Sample.state Sample.fresh_tree [])
  = (0%Z, {| fs := Sample.fresh_tree; stdin := [];
             stdout := [ line (Py.LF +:+ "Assignment A3: Dataflow Analysis");
                         line (rule 70);
                         line (Py.LF +:+ "Files to Submit:");
                         line "  • src/Solver.java";
                         line (Py.LF +:+ "Dependencies:");
                         line "  • From A2: CFGBuilder.java" ];
             calls := ["cmd_info"] |}).
Proof.
  apply (info_lists_files_and_dependencies Sample.env Sample.A3
           (Sample.state Sample.fresh_tree []) Sample.metadata 0 Sample.A3_info
           "Dataflow Analysis" ["src/Solver.java"]).
  - vm_compute. reflexivity.
  - vm_compute. reflexivity.
  - reflexivity.
  - reflexivity.
  - repeat constructor; by eexists.
Defined.

(** ** The output [test] echoes *)

(** Joining what [split] gave back with the separator restores the
    string. *)
Lemma join_cons sep x y l :
  Py.join sep (x :: y :: l) = x +:+ sep +:+ Py.join sep (y :: l).
Proof. done. Qed.

Lemma join_split c s : Py.join (String c "") (Py.split c s) = s.
Proof.
  induction s as [|a s IH]; [done|]. cbn [Py.split].
  destruct (Py.split c s) as [|h t] eqn:E; [by destruct (split_nonempty c s)|].
  case_bool_decide as Ha.
  - subst a. by rewrite join_cons, IH, string_app_nil_l, string_app_cons, string_app_nil_l.
  - destruct t as [|x t]; [by rewrite <- IH|].
    rewrite join_cons in *. by rewrite string_app_cons, IH.
Qed.

Lemma last_n_all {A} n (l : list A) : length l ≤ n → Py.last_n n l = l.
Proof. intros H. unfold Py.last_n. by replace (length l - n) with 0 by lia. Qed.

(** What [test] prints after a failing child process in quiet mode. *)
Lemma test_echo_run env args st rc out t' :
  let assignment_dir := get_assignment_dir env (assignment args) in
  let gradle_wrapper :=
    assignment_dir // (if os_is_nt env then "gradlew.bat" else "gradlew") in
  is_Some (fs st !! assignment_dir) →
  is_Some (fs st !! gradle_wrapper) →
  subprocess_run env [PathLib.str gradle_wrapper; "test"; "--console=plain"]
    assignment_dir (fs st) = (Completed rc out, t') →
  rc ≠ 0%Z → verbose args = false → out ≠ "" →
  ∃ pre post echoed,
    stdout (cmd_test env args st).2
    = stdout st ++ pre ++ [line (Py.LF +:+ "Last lines of output:"); line echoed] ++ post
    ∧ echoed = Py.join Py.LF (Py.last_n 30 (Py.split Py.LF_char out))
    ∧ (length (Py.split Py.LF_char out) ≤ 30 → echoed = out).
Proof.
  intros adir wrapper Hdir Hwrapper Hrun Hrc Hquiet Hout.
  unfold cmd_test. rewrite bind_unfold, enter_run. rewrite bind_unfold.
  unfold Fs.exists_ at 1, gets at 1.
  change (fs (log_call "cmd_test" st)) with (fs st).
  fold adir. rewrite (bool_decide_true _ Hdir). cbn [negb].
  rewrite bind_unfold, print_run, bind_unfold, print_run, bind_unfold.
  unfold Fs.exists_ at 1, gets at 1.
  assert (adir // Py.lstrip_chars ["."; "/"]%char
            (if os_is_nt env then "gradlew.bat" else "./gradlew") = wrapper) as ->.
  { unfold wrapper. by destruct (os_is_nt env). }
  match goal with |- context [bool_decide (is_Some (fs ?s !! wrapper))] =>
    change (fs s) with (fs st) end.
  rewrite (bool_decide_true _ Hwrapper). cbn [negb].
  rewrite bind_unfold, print_run, bind_unfold, print_run.
  unfold try_except. rewrite bind_unfold. unfold run at 1.
  match goal with |- context [subprocess_run env _ adir (fs ?s)] =>
    change (fs s) with (fs st) end.
  rewrite Hrun. rewrite (bool_decide_false (rc = 0%Z)) by done.
  mrun. rewrite Hquiet, (proj2 (truthy_true_iff out)) by done. cbn [negb andb]. mrun.
  unfold Fs.exists_ at 1, gets at 1. mrun.
  exists [ line (Py.LF +:+ BOLD env +:+ "Running tests for " +:+ assignment args +:+ "..."
                 +:+ RESET env);
           line (rule 70);
           line ("Command: " +:+ Py.join " " [PathLib.str wrapper; "test"; "--console=plain"]);
           line ("Working directory: " +:+ PathLib.str adir +:+ Py.LF);
           line (Py.LF +:+ RED env +:+ rule 70 +:+ RESET env);
           line (RED env +:+ "✗ BUILD FAILED" +:+ RESET env);
           line (RED env +:+ rule 70 +:+ RESET env) ].
  match goal with |- context [if ?b then _ else _] => destruct b end; mrun.
  - eexists [_], _. split; [|split; [done|]].
    + cbn [snd]. autorewrite with state. by rewrite <- !(assoc_L (++)).
    + intros Hlen. rewrite last_n_all by done. apply join_split.
  - eexists [], _. split; [|split; [done|]].
    + cbn [snd]. autorewrite with state. by rewrite <- !(assoc_L (++)).
    + intros Hlen. rewrite last_n_all by done. apply join_split.
Qed.

Lemma last_n_spec {A} n (l : list A) :
  ∃ dropped, l = dropped ++ Py.last_n n l ∧ length (Py.last_n n l) = length l `min` n.
Proof.
  unfold Py.last_n. exists (take (length l - n) l). split.
  - by rewrite take_drop.
  - rewrite length_drop. lia.
Qed.

(** X22.  When the child process of [test] exits with a non-zero code in
    quiet mode after printing something, [test] splits the captured output
    at the newlines and echoes, under the heading [Last lines of output:],
    the last 30 of the fields, joined by newlines again: the fields before
    them are dropped.  An output of at most 30 fields (at most 29 newlines)
    is echoed unchanged; of an output of 30 lines that each end with a
    newline, which has 31 fields, the first line is dropped. *)
Theorem test_echoes_captured_output env args st rc out t' :
  let assignment_dir := get_assignment_dir env (assignment args) in
  let gradle_wrapper :=
    assignment_dir // (if os_is_nt env then "gradlew.bat" else "gradlew") in
  is_Some (fs st !! assignment_dir) →
  is_Some (fs st !! gradle_wrapper) →
  subprocess_run env [PathLib.str gradle_wrapper; "test"; "--console=plain"]
    assignment_dir (fs st) = (Completed rc out, t') →
  rc ≠ 0%Z → verbose args = false → out ≠ "" →
  ∃ pre post dropped kept,
    stdout (cmd_test env args st).2
    = stdout st ++ pre
      ++ [line (Py.LF +:+ "Last lines of output:"); line (Py.join Py.LF kept)] ++ post
    ∧ Py.split Py.LF_char out = dropped ++ kept
    ∧ length kept = length (Py.split Py.LF_char out) `min` 30
    ∧ (length (Py.split Py.LF_char out) ≤ 30 → Py.join Py.LF kept = out).
Proof.
  intros adir wrapper Hdir Hwrapper Hrun Hrc Hquiet Hout.
  destruct (test_echo_run env args st rc out t' Hdir Hwrapper Hrun Hrc Hquiet Hout)
    as (pre & post & echoed & Hstdout & -> & Hshort).
  destruct (last_n_spec 30 (Py.split Py.LF_char out)) as (dropped & Hsplit & Hlen).
  by exists pre, post, dropped, (Py.last_n 30 (Py.split Py.LF_char out)).
Qed.

Lemma test_echoes_captured_output_witness :
  ∃ pre post kept,
    stdout (cmd_test Cases.env_thirty Sample.A3 (Sample.state Cases.gradle_tree [])).2
    = stdout (Sample.state Cases.gradle_tree []) ++ pre
      ++ [line (Py.LF +:+ "Last lines of output:"); line (Py.join Py.LF kept)] ++ post
    ∧ Py.split Py.LF_char Cases.thirty_lines = "1" :: kept
    ∧ length kept = 30.
Proof.
  destruct (test_echoes_captured_output Cases.env_thirty Sample.A3
              (Sample.state Cases.gradle_tree []) 1 Cases.thirty_lines Cases.gradle_tree)
    as (pre & post & dropped & kept & Hstdout & Hsplit & Hlen & _).
  - eexists. vm_compute. reflexivity.
  - eexists. vm_compute. reflexivity.
  - reflexivity.
  - done.
  - reflexivity.
  - vm_compute. discriminate.
  - exists pre, post, kept. split; [done|].
    assert (∃ rest, Py.split Py.LF_char Cases.thirty_lines = "1" :: rest ∧ length rest = 30)
      as (rest & Hlit & Hrest).
    { eexists. split; [vm_compute; reflexivity|reflexivity]. }
    rewrite Hlit in *. cbn [length] in Hlen. rewrite Hrest in Hlen.
    change (31 `min` 30) with 30 in Hlen.
    apply (f_equal length) in Hsplit as Hl. rewrite length_app in Hl. cbn [length] in Hl.
    rewrite Hrest, Hlen in Hl.
    destruct dropped as [|d [|d' dropped]]; simpl in Hl; try lia.
    simpl in Hsplit. injection Hsplit as <- <-. done.
Defined.

(** ** A dependency on the assignment itself *)

(** A path joined with an absolute operand is the operand. *)
Lemma joinpath_absolute (p q : Path) s :
  PathLib.is_absolute (PathLib.parse s) = true → p // s = q // s.
Proof. intros H. unfold PathLib.joinpath. by rewrite H. Qed.

Lemma copy2_same p st : ∃ cls msg, Fs.copy2 p p st = (Raise (Exception cls msg), st).
Proof.
  unfold Fs.copy2. destruct (fs st !! p) as [[data t|t]|].
  - rewrite bool_decide_true by done. by eexists _, _.
  - rewrite bool_decide_false.
    + by eexists _, _.
    + intros H. apply (f_equal length) in H. rewrite length_app in H. simpl in H. lia.
  - rewrite bool_decide_true by done. by eexists _, _.
Qed.

(** X23.  A dependency that names the assignment itself as its source, or
    whose file is an absolute path, makes source and target the same path;
    its copy is always reported as failed and never counted. *)
Theorem copy_onto_itself_fails env source_assignment assignment file_rel_path is_modified v st :
  source_assignment = assignment
    ∨ PathLib.is_absolute (PathLib.parse file_rel_path) = true →
  ∃ msg st',
    perform_copy env (get_assignment_dir env source_assignment // file_rel_path)
      (get_assignment_dir env assignment // file_rel_path) is_modified v st = (Ok v, st')
    ∧ last (stdout st') = Some (failed_line env msg).
Proof.
  intros Hsame.
  assert (get_assignment_dir env source_assignment // file_rel_path
          = get_assignment_dir env assignment // file_rel_path) as ->.
  { destruct Hsame as [->|Habs]; [done|by apply joinpath_absolute]. }
  set (p := get_assignment_dir env assignment // file_rel_path).
  unfold perform_copy, try_except. rewrite bind_unfold.
  pose proof (rs_makedirs_from is_Exception (now env) [] (PathLib.parent p) (λ e H, H) st) as Hmk.
  unfold Fs.makedirs.
  destruct (Fs.makedirs_from (now env) [] (PathLib.parent p) st) as [[[]|e] st1].
  - rewrite bind_unfold. destruct (copy2_same p st1) as (cls & msg & ->).
    rewrite bind_unfold, print_run, ret_run. eexists msg, _. split; [done|].
    apply last_write_stdout.
  - destruct (Hmk e eq_refl) as (cls & msg & ->).
    rewrite bind_unfold, print_run, ret_run. eexists msg, _. split; [done|].
    apply last_write_stdout.
Qed.

Lemma copy_onto_itself_fails_witness :
  ∃ msg st',
    perform_copy Sample.env (get_assignment_dir Sample.env "A3" // "src/Solver.java")
      (get_assignment_dir Sample.env "A3" // "src/Solver.java") false (setup_start Sample.A3)
      (Sample.state Sample.fresh_tree []) = (Ok (setup_start Sample.A3), st')
    ∧ last (stdout st') = Some (failed_line Sample.env msg).
Proof.
  apply (copy_onto_itself_fails Sample.env "A3" "A3" "src/Solver.java" false
           (setup_start Sample.A3) (Sample.state Sample.fresh_tree [])).
  by left.
Defined.
